(** * genvp.py: the Vulkan profiles generator, registry and profile model

    A shallow embedding of [library/scripts/genvp.py]: the registry loader
    ([VulkanRegistry]), the profile resolver ([VulkanProfileCapabilities],
    [VulkanProfile], [VulkanProfiles]) and the parts of the emitter
    ([VulkanProfilesBuilder]) that choose guards and comparison predicates.

    Conventions of the embedding.
    - A Python [str] is a [string]; comparisons between strings are the
      lexicographic ones of Python ([String.leb], [String.eqb]).
    - A Python [dict] is an association list in insertion order ([dict]);
      assignment to a present key keeps its position.
    - A raised exception is a value of [outcome]: [Fatal msg] is the
      [Exception] raised by [Log.f], [Raised e] is an exception of the
      interpreter itself (a [TypeError], [KeyError], ...).
    - The member tables and alias lists of [VulkanStruct] objects are shared
      between structures by reference; they live in a store and structures
      hold handles to them. *)

From Stdlib Require Import String Ascii List ZArith Lia Bool DecimalString.
From stdpp Require Import base list strings.
Import ListNotations.
Local Open Scope string_scope.
Local Open Scope list_scope.

(** ** Outcomes of a run *)

Inductive pyexc : Type :=
| TypeError
| AttributeError
| IndexError
| KeyError.

Inductive outcome (A : Type) : Type :=
| Ok (a : A)
| Fatal (msg : string)
| Raised (e : pyexc).

Arguments Ok {A} a.
Arguments Fatal {A} msg.
Arguments Raised {A} e.

Definition bind {A B : Type} (c : outcome A) (k : A -> outcome B) : outcome B :=
  match c with
  | Ok a => k a
  | Fatal msg => Fatal msg
  | Raised e => Raised e
  end.

Notation "'do' x <- c ; k" := (bind c (fun x => k))
  (at level 10, x name, c at level 100, k at level 200).

Definition is_ok {A : Type} (c : outcome A) : bool :=
  match c with Ok _ => true | _ => false end.

(** A loop whose body may raise: [for x in xs: st = body(st, x)]. *)
Fixpoint for_each {A S : Type} (body : S -> A -> outcome S) (xs : list A) (st : S)
  : outcome S :=
  match xs with
  | [] => Ok st
  | x :: rest => do st' <- body st x; for_each body rest st'
  end.

Module Log.

(** [def f(msg): print('FATAL: ' + msg); raise Exception(msg)].  The
    function takes exactly one positional argument; a call with another
    number of arguments is a [TypeError] of the call itself. *)
Definition f {A : Type} (args : list string) : outcome A :=
  match args with
  | [msg] => Fatal msg
  | _ => Raised TypeError
  end.

End Log.

(** ** Strings *)

Definition str_of_Z (z : Z) : string := NilZero.string_of_int (Z.to_int z).
Definition str_of_nat (n : nat) : string := NilZero.string_of_uint (Nat.to_uint n).

Definition is_digit (c : ascii) : bool :=
  (Ascii.leb "0" c && Ascii.leb c "9")%char.

Definition is_digit19 (c : ascii) : bool :=
  (Ascii.leb "1" c && Ascii.leb c "9")%char.

Definition newline : ascii := "010"%char.
Definition dquote : ascii := "034"%char.
Definition nl : string := String newline EmptyString.

(** [s.startswith(p)] *)
Definition startswith (p s : string) : bool := String.prefix p s.

(** [s.endswith(p)] *)
Definition endswith (p s : string) : bool :=
  (String.length p <=? String.length s)%nat
  && String.eqb (String.substring (String.length s - String.length p) (String.length p) s) p.

(** [s[:-n]] for [n <= len(s)] *)
Definition drop_last (n : nat) (s : string) : string :=
  String.substring 0 (String.length s - n) s.

(** [s.replace(".", ", ")] *)
Fixpoint replace_dot (s : string) : string :=
  match s with
  | EmptyString => EmptyString
  | String c r =>
      if Ascii.eqb c "." then String "," (String " " (replace_dot r))
      else String c (replace_dot r)
  end.

(** [s.split(',')] *)
Fixpoint split_comma_go (cur : string) (s : string) : list string :=
  match s with
  | EmptyString => [cur]
  | String c r =>
      if Ascii.eqb c "," then cur :: split_comma_go EmptyString r
      else split_comma_go (cur +:+ String c EmptyString) r
  end.

Definition split_comma (s : string) : list string := split_comma_go EmptyString s.

(** *** The regular expressions of the source

    The patterns of the source are anchored at both ends and every greedy
    run in them is followed by something the run itself cannot match, so
    the match, and group 1, are found by taking each run as long as
    possible. *)

(** [[0-9]*]: the longest run of digits, and what follows it. *)
Fixpoint span_digits (s : string) : string * string :=
  match s with
  | EmptyString => (EmptyString, EmptyString)
  | String c r =>
      if is_digit c then
        let '(a, b) := span_digits r in (String c a, b)
      else (EmptyString, s)
  end.

(** [.*]: the longest run without a newline, and what follows it. *)
Fixpoint span_line (s : string) : string * string :=
  match s with
  | EmptyString => (EmptyString, EmptyString)
  | String c r =>
      if Ascii.eqb c newline then (EmptyString, s)
      else let '(a, b) := span_line r in (String c a, b)
  end.

(** [$] without [re.MULTILINE]: at the end, or before a newline that ends
    the string. *)
Definition at_dollar (s : string) : bool :=
  match s with
  | EmptyString => true
  | String c EmptyString => Ascii.eqb c newline
  | _ => false
  end.

(** [^[1-9][0-9]*\.[0-9]+]: the text matched and the remainder. *)
Definition match_major_minor (s : string) : option (string * string) :=
  match s with
  | String c r =>
      if is_digit19 c then
        let '(major, r1) := span_digits r in
        match r1 with
        | String d r2 =>
            if Ascii.eqb d "." then
              let '(minor, r3) := span_digits r2 in
              match minor with
              | EmptyString => None
              | _ => Some (String c major +:+ String "." minor, r3)
              end
            else None
        | EmptyString => None
        end
      else None
  | EmptyString => None
  end.

(** [re.search(r"^[1-9][0-9]*\.[0-9]+$", s) != None] *)
Definition re_version_number (s : string) : bool :=
  match match_major_minor s with
  | Some (_, rest) => at_dollar rest
  | None => false
  end.

(** [re.search(r"^([1-9][0-9]*\.[0-9]+)[^0-9].*$", s)]: [group(1)] of the
    match, if there is one. *)
Definition re_api_version (s : string) : option string :=
  match match_major_minor s with
  | Some (g, String c rest) =>
      if is_digit c then None
      else let '(_, tail) := span_line rest in
           if at_dollar tail then Some g else None
  | _ => None
  end.

(** [re.search(r'^VK_STRUCTURE_TYPE_.*', s) != None] *)
Definition re_structure_type (s : string) : bool :=
  startswith "VK_STRUCTURE_TYPE_" s.

(** ** Dictionaries and JSON values *)

(** A Python [dict] with string keys, in insertion order. *)
Definition dict (V : Type) : Type := list (string * V).

Fixpoint dict_get {V : Type} (k : string) (d : dict V) : option V :=
  match d with
  | [] => None
  | (k', v) :: rest => if String.eqb k k' then Some v else dict_get k rest
  end.

(** [k in d] *)
Definition dict_mem {V : Type} (k : string) (d : dict V) : bool :=
  match dict_get k d with Some _ => true | None => false end.

(** [d[k] = v]: a present key keeps its place, a new key goes last. *)
Fixpoint dict_set {V : Type} (k : string) (v : V) (d : dict V) : dict V :=
  match d with
  | [] => [(k, v)]
  | (k', v') :: rest =>
      if String.eqb k k' then (k, v) :: rest else (k', v') :: dict_set k v rest
  end.

Definition dict_keys {V : Type} (d : dict V) : list string := map fst d.

(** [d[k]], a [KeyError] when the key is absent. *)
Definition dict_item {V : Type} (k : string) (d : dict V) : outcome V :=
  match dict_get k d with Some v => Ok v | None => Raised KeyError end.

(** What [json.load] returns.  A float is carried as its literal: the
    generator never computes with one. *)
#[local] Unset Elimination Schemes.
Inductive json : Type :=
| JNull
| JBool (b : bool)
| JInt (z : Z)
| JFloat (literal : string)
| JStr (s : string)
| JList (l : list json)
| JDict (d : list (string * json)).
#[local] Set Elimination Schemes.

Inductive pytype : Type :=
| NoneType | bool_t | int_t | float_t | str_t | list_t | dict_t.

(** [type(v)] *)
Definition type_of (v : json) : pytype :=
  match v with
  | JNull => NoneType
  | JBool _ => bool_t
  | JInt _ => int_t
  | JFloat _ => float_t
  | JStr _ => str_t
  | JList _ => list_t
  | JDict _ => dict_t
  end.

Definition pytype_eqb (a b : pytype) : bool :=
  match a, b with
  | NoneType, NoneType | bool_t, bool_t | int_t, int_t | float_t, float_t
  | str_t, str_t | list_t, list_t | dict_t, dict_t => true
  | _, _ => false
  end.

(** [str(type(v))] *)
Definition str_of_type (t : pytype) : string :=
  "<class '" +:+
  match t with
  | NoneType => "NoneType"
  | bool_t => "bool"
  | int_t => "int"
  | float_t => "float"
  | str_t => "str"
  | list_t => "list"
  | dict_t => "dict"
  end +:+ "'>".

(** [o == s] for an attribute that may be [None]. *)
Definition opt_is (o : option string) (s : string) : bool :=
  match o with Some x => String.eqb x s | None => false end.

(** [str(x)] for an attribute that may be [None]. *)
Definition str_of_opt (o : option string) : string :=
  match o with Some s => s | None => "None" end.

(** ** The registry document

    The registry is read through [xml.etree]; a document is represented by
    the nodes and attributes that the queries of the loader select, in
    document order.  Attributes that the queries require are strings,
    attributes read with [get] and tested against [None] are options. *)

(** [./require/enum] *)
Record XmlEnum : Type := {
  enum_name : string;
  enum_alias : option string;
  enum_value : option string
}.

(** [./platforms/platform] *)
Record XmlPlatform : Type := {
  xplatform_name : string;
  xplatform_protect : option string
}.

(** [./feature], with its [./require/enum] and [./require/type] children *)
Record XmlFeature : Type := {
  feature_name : string;
  feature_number : string;
  feature_enums : list XmlEnum;
  feature_types : list string
}.

(** [./extensions/extension] *)
Record XmlExtension : Type := {
  xext_name : string;
  xext_supported : option string;
  xext_type : option string;
  xext_platform : option string;
  xext_enums : list XmlEnum;
  xext_types : list string
}.

(** [./member] of a struct type: the text of [./name], the tail after it,
    the text of [./type], and the attributes [limittype] and [values]. *)
Record XmlMember : Type := {
  xmember_name : string;
  xmember_tail : option string;
  xmember_type : string;
  xmember_limittype : option string;
  xmember_values : option string
}.

(** [./types/type[@category='struct']] *)
Record XmlType : Type := {
  xtype_name : string;
  xtype_alias : option string;
  xtype_structextends : option string;
  xtype_members : list XmlMember
}.

Record XmlRegistry : Type := {
  xml_platforms : list XmlPlatform;
  xml_features : list XmlFeature;
  xml_extensions : list XmlExtension;
  xml_structs : list XmlType
}.

(** ** The registry model *)

Record VulkanPlatform : Type := {
  platform_name : string;
  platform_protect : option string
}.

Record VulkanStructMember : Type := {
  member_name : string;
  member_type : string;
  member_limittype : option string;
  member_isArray : bool
}.

(** [members] and [aliases] are handles into the stores of the registry:
    an alias structure is given the very dictionary and list of its base. *)
Record VulkanStruct : Type := {
  struct_name : string;
  struct_sType : option string;
  struct_extends : list string;
  struct_members : nat;
  struct_aliases : nat;
  struct_definedByVersion : option string;
  struct_definedByExtensions : list string
}.

Record VulkanVersion : Type := {
  version_name : string;
  version_number : string;
  version_sTypeAliases : dict string
}.

Record VulkanExtension : Type := {
  extension_name : string;
  extension_upperCaseName : string;
  extension_type : option string;
  extension_platform : option string;
  extension_sTypeAliases : dict string
}.

Record VulkanRegistry : Type := {
  platforms : dict VulkanPlatform;
  versions : dict VulkanVersion;
  extensions : dict VulkanExtension;
  structs : dict VulkanStruct;
  member_tables : list (dict VulkanStructMember);
  alias_lists : list (list string)
}.

Definition empty_registry : VulkanRegistry :=
  {| platforms := []; versions := []; extensions := []; structs := [];
     member_tables := []; alias_lists := [] |}.

(** The member dictionary behind a handle. *)
Definition table_of (tables : list (dict VulkanStructMember)) (h : nat)
  : dict VulkanStructMember :=
  default [] (tables !! h).

(** [structDef.members] *)
Definition members_of (registry : VulkanRegistry) (structDef : VulkanStruct)
  : dict VulkanStructMember :=
  table_of (member_tables registry) (struct_members structDef).


Definition with_structs (self : VulkanRegistry) (s : dict VulkanStruct) : VulkanRegistry :=
  {| platforms := platforms self; versions := versions self;
     extensions := extensions self; structs := s;
     member_tables := member_tables self; alias_lists := alias_lists self |}.

Definition with_member_tables (self : VulkanRegistry)
    (t : list (dict VulkanStructMember)) : VulkanRegistry :=
  {| platforms := platforms self; versions := versions self;
     extensions := extensions self; structs := structs self;
     member_tables := t; alias_lists := alias_lists self |}.

Definition with_alias_lists (self : VulkanRegistry) (a : list (list string))
  : VulkanRegistry :=
  {| platforms := platforms self; versions := versions self;
     extensions := extensions self; structs := structs self;
     member_tables := member_tables self; alias_lists := a |}.

Definition with_limittype (m : VulkanStructMember) (l : option string)
  : VulkanStructMember :=
  {| member_name := member_name m; member_type := member_type m;
     member_limittype := l; member_isArray := member_isArray m |}.

Definition with_isArray (m : VulkanStructMember) (b : bool) : VulkanStructMember :=
  {| member_name := member_name m; member_type := member_type m;
     member_limittype := member_limittype m; member_isArray := b |}.

(** ** The registry loader *)

(** [VulkanDefinitionScope.parseAliases]: the [sType] aliases that a version
    or an extension introduces, from its [./require/enum[@alias]] nodes. *)
Definition scope_parseAliases (enums : list XmlEnum) : dict string :=
  fold_left
    (fun sTypeAliases sTypeAlias =>
       match enum_alias sTypeAlias with
       | Some alias =>
           if re_structure_type (enum_name sTypeAlias)
           then dict_set alias (enum_name sTypeAlias) sTypeAliases
           else sTypeAliases
       | None => sTypeAliases
       end)
    enums [].

Definition VulkanVersion_init (xml : XmlFeature) : VulkanVersion :=
  {| version_name := feature_name xml;
     version_number := feature_number xml;
     version_sTypeAliases := scope_parseAliases (feature_enums xml) |}.

Definition VulkanExtension_init (xml : XmlExtension) (upperCaseName : string)
  : VulkanExtension :=
  {| extension_name := xext_name xml;
     extension_upperCaseName := upperCaseName;
     extension_type := xext_type xml;
     extension_platform := xext_platform xml;
     extension_sTypeAliases := scope_parseAliases (xext_enums xml) |}.

Definition parsePlatformInfo (xml : XmlRegistry) (self : VulkanRegistry)
  : VulkanRegistry :=
  {| platforms :=
       fold_left
         (fun acc plat =>
            dict_set (xplatform_name plat)
              {| platform_name := xplatform_name plat;
                 platform_protect := xplatform_protect plat |} acc)
         (xml_platforms xml) [];
     versions := versions self; extensions := extensions self;
     structs := structs self; member_tables := member_tables self;
     alias_lists := alias_lists self |}.

(** The fatal call of this function passes the number as a second argument
    of [Log.f] instead of formatting it into the message. *)
Definition parseVersionInfo (xml : XmlRegistry) (self : VulkanRegistry)
  : outcome VulkanRegistry :=
  do vs <- for_each
       (fun acc feature =>
          if re_version_number (feature_number feature)
          then Ok (dict_set (feature_number feature) (VulkanVersion_init feature) acc)
          else Log.f ["Unsupported feature with number '{0}'"; feature_number feature])
       (xml_features xml) [];
  Ok {| platforms := platforms self; versions := vs;
        extensions := extensions self; structs := structs self;
        member_tables := member_tables self; alias_lists := alias_lists self |}.

Definition EXTENSION_NAME : string := "_EXTENSION_NAME".

Definition quoted (name : string) : string :=
  String dquote name +:+ String dquote EmptyString.

Definition parseExtensionInfo (xml : XmlRegistry) (self : VulkanRegistry)
  : outcome VulkanRegistry :=
  do es <- for_each
       (fun acc ext =>
          if opt_is (xext_supported ext) "vulkan" then
              let name := xext_name ext in
              let matches :=
                List.filter (fun e => match enum_value e with
                                 | Some v => String.eqb v (quoted name)
                                 | None => false
                                 end) (xext_enums ext) in
              match List.find (fun m => endswith EXTENSION_NAME (enum_name m)) matches with
              | Some m =>
                  Ok (dict_set name
                        (VulkanExtension_init ext
                           (drop_last (String.length EXTENSION_NAME) (enum_name m)))
                        acc)
              | None =>
                  Log.f ["Cannot find name enum for extension '" +:+ name +:+ "'"]
              end
          else Ok acc)
       (xml_extensions xml) [];
  Ok {| platforms := platforms self; versions := versions self;
        extensions := es; structs := structs self;
        member_tables := member_tables self; alias_lists := alias_lists self |}.

(** The members of one struct node: [sType] and [pNext] are skipped; the
    member is an array when the tail after its name begins with a bracket.
    Indexing an empty tail is an [IndexError]. *)
Definition parseStructMembers (members : list XmlMember)
  : outcome (dict VulkanStructMember) :=
  for_each
    (fun acc member =>
       let name := xmember_name member in
       if negb (String.eqb name "sType") && negb (String.eqb name "pNext") then
         let memberDef :=
           {| member_name := name; member_type := xmember_type member;
              member_limittype := xmember_limittype member;
              member_isArray := false |} in
         match xmember_tail member with
         | None => Ok (dict_set name memberDef acc)
         | Some EmptyString => Raised IndexError
         | Some (String c _) =>
             if Ascii.eqb c "["
             then Ok (dict_set name (with_isArray memberDef true) acc)
             else Ok (dict_set name memberDef acc)
         end
       else Ok acc)
    members [].

(** [struct.find("./member[name='sType']")], then [get('values')] *)
Definition find_sType (members : list XmlMember) : option string :=
  match List.find (fun m => String.eqb (xmember_name m) "sType") members with
  | Some m => xmember_values m
  | None => None
  end.

(** One struct node.  Every [VulkanStruct(name)] owns a fresh member
    dictionary and a fresh alias list [[name]]. *)
Definition parseStruct (self : VulkanRegistry) (struct : XmlType)
  : outcome VulkanRegistry :=
  do members <- parseStructMembers (xtype_members struct);
  let structDef :=
    {| struct_name := xtype_name struct;
       struct_sType := find_sType (xtype_members struct);
       struct_extends :=
         match xtype_structextends struct with
         | Some extends => split_comma extends
         | None => []
         end;
       struct_members := length (member_tables self);
       struct_aliases := length (alias_lists self);
       struct_definedByVersion := None;
       struct_definedByExtensions := [] |} in
  Ok {| platforms := platforms self; versions := versions self;
        extensions := extensions self;
        structs := dict_set (xtype_name struct) structDef (structs self);
        member_tables := member_tables self ++ [members];
        alias_lists := alias_lists self ++ [[xtype_name struct]] |}.

Definition parseStructInfo (xml : XmlRegistry) (self : VulkanRegistry)
  : outcome VulkanRegistry :=
  for_each parseStruct (xml_structs xml) (with_structs self []).

Definition set_definedByVersion (s : VulkanStruct) (v : option string) : VulkanStruct :=
  {| struct_name := struct_name s; struct_sType := struct_sType s;
     struct_extends := struct_extends s; struct_members := struct_members s;
     struct_aliases := struct_aliases s; struct_definedByVersion := v;
     struct_definedByExtensions := struct_definedByExtensions s |}.

Definition add_definedByExtension (s : VulkanStruct) (e : string) : VulkanStruct :=
  {| struct_name := struct_name s; struct_sType := struct_sType s;
     struct_extends := struct_extends s; struct_members := struct_members s;
     struct_aliases := struct_aliases s;
     struct_definedByVersion := struct_definedByVersion s;
     struct_definedByExtensions := struct_definedByExtensions s ++ [e] |}.

Definition parsePrerequisites (xml : XmlRegistry) (self : VulkanRegistry)
  : VulkanRegistry :=
  let after_features :=
    fold_left
      (fun ss feature =>
         fold_left
           (fun ss requireType =>
              match dict_get requireType ss with
              | Some s =>
                  dict_set requireType
                    (set_definedByVersion s (Some (feature_number feature))) ss
              | None => ss
              end)
           (feature_types feature) ss)
      (xml_features xml) (structs self) in
  let after_extensions :=
    fold_left
      (fun ss extension =>
         fold_left
           (fun ss requireType =>
              match dict_get requireType ss with
              | Some s =>
                  dict_set requireType
                    (add_definedByExtension s (xext_name extension)) ss
              | None => ss
              end)
           (xext_types extension) ss)
      (xml_extensions xml) after_features in
  with_structs self after_extensions.

(** The fields an alias takes from its base: the base's own [extends] list,
    member dictionary and alias list, not copies of them. *)
Definition share_with_base (aliasStructDef baseStructDef : VulkanStruct) : VulkanStruct :=
  {| struct_name := struct_name aliasStructDef;
     struct_sType := struct_sType aliasStructDef;
     struct_extends := struct_extends baseStructDef;
     struct_members := struct_members baseStructDef;
     struct_aliases := struct_aliases baseStructDef;
     struct_definedByVersion := struct_definedByVersion aliasStructDef;
     struct_definedByExtensions := struct_definedByExtensions aliasStructDef |}.

Definition set_sType (s : VulkanStruct) (sType : option string) : VulkanStruct :=
  {| struct_name := struct_name s; struct_sType := sType;
     struct_extends := struct_extends s; struct_members := struct_members s;
     struct_aliases := struct_aliases s;
     struct_definedByVersion := struct_definedByVersion s;
     struct_definedByExtensions := struct_definedByExtensions s |}.

(** [for version in self.versions: if version <= definedByVersion: ...],
    left at the first alias found. *)
Fixpoint sTypeAlias_in_versions (vs : dict VulkanVersion) (keys : list string)
    (definedByVersion sType : string) : option string :=
  match keys with
  | [] => None
  | version :: rest =>
      if String.leb version definedByVersion then
        match dict_get version vs with
        | Some v =>
            match dict_get sType (version_sTypeAliases v) with
            | Some sTypeAlias => Some sTypeAlias
            | None => sTypeAlias_in_versions vs rest definedByVersion sType
            end
        | None => sTypeAlias_in_versions vs rest definedByVersion sType
        end
      else sTypeAlias_in_versions vs rest definedByVersion sType
  end.

(** [for extName in aliasStructDef.definedByExtensions: ...]; an extension
    that the registry did not record is a [KeyError]. *)
Fixpoint sTypeAlias_in_extensions (es : dict VulkanExtension) (names : list string)
    (sType : string) : outcome (option string) :=
  match names with
  | [] => Ok None
  | extName :: rest =>
      do e <- dict_item extName es;
      match dict_get sType (extension_sTypeAliases e) with
      | Some sTypeAlias => Ok (Some sTypeAlias)
      | None => sTypeAlias_in_extensions es rest sType
      end
  end.

Definition parseAlias (self : VulkanRegistry) (struct : XmlType)
  : outcome VulkanRegistry :=
  match xtype_alias struct with
  | None => Ok self
  | Some alias =>
      let name := xtype_name struct in
      match dict_get alias (structs self) with
      | Some baseStructDef =>
          do aliasStructDef0 <- dict_item name (structs self);
          let aliasStructDef := share_with_base aliasStructDef0 baseStructDef in
          let h := struct_aliases baseStructDef in
          let self1 :=
            {| platforms := platforms self; versions := versions self;
               extensions := extensions self;
               structs := dict_set name aliasStructDef (structs self);
               member_tables := member_tables self;
               alias_lists :=
                 <[h := default [] (alias_lists self !! h) ++ [name]]>
                   (alias_lists self) |} in
          match struct_sType baseStructDef with
          | Some baseSType =>
              let inVersions :=
                match struct_definedByVersion aliasStructDef with
                | Some definedByVersion =>
                    sTypeAlias_in_versions (versions self)
                      (dict_keys (versions self)) definedByVersion baseSType
                | None => None
                end in
              do sTypeAlias <-
                match inVersions with
                | Some a => Ok (Some a)
                | None =>
                    sTypeAlias_in_extensions (extensions self)
                      (struct_definedByExtensions aliasStructDef) baseSType
                end;
              match sTypeAlias with
              | Some a =>
                  Ok (with_structs self1
                        (dict_set name (set_sType aliasStructDef (Some a))
                           (structs self1)))
              | None =>
                  Log.f ["Could not find sType enum of alias '" +:+ alias
                         +:+ "' of struct '" +:+ name +:+ "'"]
              end
          | None => Ok self1
          end
      | None =>
          Log.f ["Failed to find alias '" +:+ alias +:+ "' of struct '"
                 +:+ name +:+ "'"]
      end
  end.

Definition parseAliases (xml : XmlRegistry) (self : VulkanRegistry)
  : outcome VulkanRegistry :=
  for_each parseAlias (xml_structs xml) self.

(** The assignments at the head of [applyWorkarounds], in their order. *)
Definition workarounds : list (string * string * string) :=
  [ ("VkPhysicalDeviceLimits", "bufferImageGranularity", "min");
    ("VkPhysicalDeviceLimits", "subPixelPrecisionBits", "max");
    ("VkPhysicalDeviceLimits", "subTexelPrecisionBits", "max");
    ("VkPhysicalDeviceLimits", "mipmapPrecisionBits", "max");
    ("VkPhysicalDeviceLimits", "viewportSubPixelBits", "max");
    ("VkPhysicalDeviceLimits", "minMemoryMapAlignment", "max");
    ("VkPhysicalDeviceLimits", "minTexelBufferOffsetAlignment", "min");
    ("VkPhysicalDeviceLimits", "minUniformBufferOffsetAlignment", "min");
    ("VkPhysicalDeviceLimits", "minStorageBufferOffsetAlignment", "min");
    ("VkPhysicalDeviceLimits", "subPixelInterpolationOffsetBits", "max");
    ("VkPhysicalDeviceLimits", "timestampPeriod", "IGNORE");
    ("VkPhysicalDeviceLimits", "nonCoherentAtomSize", "min");
    ("VkPhysicalDeviceLimits", "maxColorAttachments", "max");
    ("VkPhysicalDeviceLimits", "pointSizeGranularity", "min");
    ("VkPhysicalDeviceLimits", "lineWidthGranularity", "min");
    ("VkPhysicalDeviceVulkan11Properties", "subgroupSize", "IGNORE");
    ("VkPhysicalDevicePortabilitySubsetPropertiesKHR",
     "minVertexInputBindingStrideAlignment", "min") ].

(** [self.structs[structName].members[memberName].limittype = limittype] *)
Definition set_limittype (self : VulkanRegistry) (w : string * string * string)
  : outcome VulkanRegistry :=
  let '(structName, memberName, limittype) := w in
  do structDef <- dict_item structName (structs self);
  do memberDef <- dict_item memberName (members_of self structDef);
  Ok (with_member_tables self
        (<[struct_members structDef :=
             dict_set memberName (with_limittype memberDef (Some limittype))
               (members_of self structDef)]> (member_tables self))).

Definition is_bool_bitmask (memberDef : VulkanStructMember) : bool :=
  opt_is (member_limittype memberDef) "bitmask"
  && String.eqb (member_type memberDef) "VkBool32".

(** The inner loop of the second pass, over the member names of one
    dictionary. *)
Definition patch_members (names : list string) (members : dict VulkanStructMember)
  : dict VulkanStructMember :=
  fold_left
    (fun members memberName =>
       match dict_get memberName members with
       | Some memberDef =>
           if is_bool_bitmask memberDef
           then dict_set memberName (with_limittype memberDef (Some "noauto")) members
           else members
       | None => members
       end)
    names members.

(** The second pass, over the names of the structures. *)
Definition patch_structs (names : list string) (self : VulkanRegistry)
  : VulkanRegistry :=
  fold_left
    (fun self structName =>
       match dict_get structName (structs self) with
       | Some structDef =>
           with_member_tables self
             (<[struct_members structDef :=
                  patch_members (dict_keys (members_of self structDef))
                    (members_of self structDef)]> (member_tables self))
       | None => self
       end)
    names self.

Definition applyWorkarounds (self : VulkanRegistry) : outcome VulkanRegistry :=
  do self1 <- for_each set_limittype workarounds self;
  Ok (patch_structs (dict_keys (structs self1)) self1).

(** [VulkanRegistry.__init__] *)
Definition VulkanRegistry_init (xml : XmlRegistry) : outcome VulkanRegistry :=
  let self := parsePlatformInfo xml empty_registry in
  do self <- parseVersionInfo xml self;
  do self <- parseExtensionInfo xml self;
  do self <- parseStructInfo xml self;
  let self := parsePrerequisites xml self in
  do self <- parseAliases xml self;
  applyWorkarounds self.

(** ** Profiles: the input data *)

(** A capability block of a profile file.  A key that is absent, or whose
    value is [null], reads as [None]. *)
Record CapabilityData : Type := {
  data_extensions : option (dict Z);
  data_features : option json;
  data_properties : option json;
  data_formats : option json;
  data_queueFamiliesProperties : option (list (dict json));
  data_memoryProperties : option json
}.

(** A profile entry of a profile file.  The file format has no [name] key
    in a profile entry; the loader reads one in an error message. *)
Record ProfileData : Type := {
  data_name : option string;
  data_version : Z;
  data_api_version : string;
  data_fallback : option (list string);
  data_capabilities : list string
}.

(** ** Profiles: merging capabilities *)

Record VulkanProfileCapabilities : Type := {
  caps_extensions : dict Z;
  caps_instanceExtensions : dict Z;
  caps_deviceExtensions : dict Z;
  caps_features : dict json;
  caps_properties : dict json;
  caps_formats : dict json;
  caps_queueFamiliesProperties : list (dict json);
  caps_memoryProperties : dict json
}.

Definition empty_capabilities : VulkanProfileCapabilities :=
  {| caps_extensions := []; caps_instanceExtensions := [];
     caps_deviceExtensions := []; caps_features := []; caps_properties := [];
     caps_formats := []; caps_queueFamiliesProperties := [];
     caps_memoryProperties := [] |}.

Definition conflict_msg (src dst : pytype) : string :=
  "Data type confict during profile capability data merge (src is '"
  +:+ str_of_type src +:+ "', dst is '" +:+ str_of_type dst +:+ "')".

Definition unexpected_msg (src dst : pytype) : string :=
  "Unexpected data type during profile capability data merge (src is '"
  +:+ str_of_type src +:+ "', dst is '" +:+ str_of_type dst +:+ "')".

(** The loop of [mergeProfileCapData] over [src.items()]; [merge] is the
    function itself, for the nested dictionaries. *)
Fixpoint merge_items (merge : json -> json -> outcome json)
    (items : list (string * json)) (dst : dict json) {struct items}
  : outcome (dict json) :=
  match items with
  | [] => Ok dst
  | (key, val) :: rest =>
      match val with
      | JDict _ =>
          let dst1 := if dict_mem key dst then dst else dict_set key (JDict []) dst in
          do sub <- dict_item key dst1;
          do merged <- merge sub val;
          merge_items merge rest (dict_set key merged dst1)
      | JList l =>
          let dst1 := if dict_mem key dst then dst else dict_set key (JList []) dst in
          do cur <- dict_item key dst1;
          match cur with
          | JList old => merge_items merge rest (dict_set key (JList (old ++ l)) dst1)
          | _ => Raised AttributeError
          end
      | _ =>
          match dict_get key dst with
          | Some cur =>
              if negb (pytype_eqb (type_of cur) (type_of val)) then
                Log.f [conflict_msg (type_of val) (type_of cur)]
              else merge_items merge rest (dict_set key val dst)
          | None => merge_items merge rest (dict_set key val dst)
          end
      end
  end.

(** [mergeProfileCapData(dst, src)]: [dst] is updated in place in the
    source; here the updated [dst] is returned.  Every dictionary and list
    inside [dst] was created by the merge itself, so nothing of [src] is
    changed.  [dst[key].extend(val)] is an [AttributeError] when [dst[key]]
    is not a list. *)
Fixpoint mergeProfileCapData (dst src : json) {struct src} : outcome json :=
  if negb (pytype_eqb (type_of src) (type_of dst)) then
    Log.f [conflict_msg (type_of src) (type_of dst)]
  else
    match src, dst with
    | JDict items, JDict d0 =>
        do d' <- merge_items mergeProfileCapData items d0;
        Ok (JDict d')
    | _, _ => Log.f [unexpected_msg (type_of src) (type_of dst)]
    end.

(** A merge into one of the dictionaries of the capabilities. *)
Definition merge_into (dst : dict json) (src : option json) : outcome (dict json) :=
  match src with
  | Some src =>
      do r <- mergeProfileCapData (JDict dst) src;
      match r with
      | JDict d => Ok d
      | _ => Ok dst
      end
  | None => Ok dst
  end.

Definition mergeProfileExtensions (registry : VulkanRegistry) (data : CapabilityData)
    (self : VulkanProfileCapabilities) : outcome VulkanProfileCapabilities :=
  match data_extensions data with
  | Some exts =>
      for_each
        (fun (self : VulkanProfileCapabilities) (item : string * Z) =>
           let '(extName, specVer) := item in
           match dict_get extName (extensions registry) with
           | Some extInfo =>
               let all := dict_set extName specVer (caps_extensions self) in
               if opt_is (extension_type extInfo) "instance" then
                 Ok {| caps_extensions := all;
                       caps_instanceExtensions :=
                         dict_set extName specVer (caps_instanceExtensions self);
                       caps_deviceExtensions := caps_deviceExtensions self;
                       caps_features := caps_features self;
                       caps_properties := caps_properties self;
                       caps_formats := caps_formats self;
                       caps_queueFamiliesProperties := caps_queueFamiliesProperties self;
                       caps_memoryProperties := caps_memoryProperties self |}
               else if opt_is (extension_type extInfo) "device" then
                 Ok {| caps_extensions := all;
                       caps_instanceExtensions := caps_instanceExtensions self;
                       caps_deviceExtensions :=
                         dict_set extName specVer (caps_deviceExtensions self);
                       caps_features := caps_features self;
                       caps_properties := caps_properties self;
                       caps_formats := caps_formats self;
                       caps_queueFamiliesProperties := caps_queueFamiliesProperties self;
                       caps_memoryProperties := caps_memoryProperties self |}
               else
                 Log.f ["Extension '" +:+ extName +:+ "' has invalid type '"
                        +:+ str_of_opt (extension_type extInfo) +:+ "'"]
           | None => Log.f ["Extension '" +:+ extName +:+ "' does not exist"]
           end)
        exts self
  | None => Ok self
  end.

Definition mergeProfileFeatures (data : CapabilityData)
    (self : VulkanProfileCapabilities) : outcome VulkanProfileCapabilities :=
  do d <- merge_into (caps_features self) (data_features data);
  Ok {| caps_extensions := caps_extensions self;
        caps_instanceExtensions := caps_instanceExtensions self;
        caps_deviceExtensions := caps_deviceExtensions self;
        caps_features := d;
        caps_properties := caps_properties self;
        caps_formats := caps_formats self;
        caps_queueFamiliesProperties := caps_queueFamiliesProperties self;
        caps_memoryProperties := caps_memoryProperties self |}.

Definition mergeProfileProperties (data : CapabilityData)
    (self : VulkanProfileCapabilities) : outcome VulkanProfileCapabilities :=
  do d <- merge_into (caps_properties self) (data_properties data);
  Ok {| caps_extensions := caps_extensions self;
        caps_instanceExtensions := caps_instanceExtensions self;
        caps_deviceExtensions := caps_deviceExtensions self;
        caps_features := caps_features self;
        caps_properties := d;
        caps_formats := caps_formats self;
        caps_queueFamiliesProperties := caps_queueFamiliesProperties self;
        caps_memoryProperties := caps_memoryProperties self |}.

Definition mergeProfileFormats (data : CapabilityData)
    (self : VulkanProfileCapabilities) : outcome VulkanProfileCapabilities :=
  do d <- merge_into (caps_formats self) (data_formats data);
  Ok {| caps_extensions := caps_extensions self;
        caps_instanceExtensions := caps_instanceExtensions self;
        caps_deviceExtensions := caps_deviceExtensions self;
        caps_features := caps_features self;
        caps_properties := caps_properties self;
        caps_formats := d;
        caps_queueFamiliesProperties := caps_queueFamiliesProperties self;
        caps_memoryProperties := caps_memoryProperties self |}.

Definition mergeProfileQueueFamiliesProperties (data : CapabilityData)
    (self : VulkanProfileCapabilities) : VulkanProfileCapabilities :=
  match data_queueFamiliesProperties data with
  | Some q =>
      {| caps_extensions := caps_extensions self;
         caps_instanceExtensions := caps_instanceExtensions self;
         caps_deviceExtensions := caps_deviceExtensions self;
         caps_features := caps_features self;
         caps_properties := caps_properties self;
         caps_formats := caps_formats self;
         caps_queueFamiliesProperties := caps_queueFamiliesProperties self ++ q;
         caps_memoryProperties := caps_memoryProperties self |}
  | None => self
  end.

Definition mergeProfileMemoryProperties (data : CapabilityData)
    (self : VulkanProfileCapabilities) : outcome VulkanProfileCapabilities :=
  do d <- merge_into (caps_memoryProperties self) (data_memoryProperties data);
  Ok {| caps_extensions := caps_extensions self;
        caps_instanceExtensions := caps_instanceExtensions self;
        caps_deviceExtensions := caps_deviceExtensions self;
        caps_features := caps_features self;
        caps_properties := caps_properties self;
        caps_formats := caps_formats self;
        caps_queueFamiliesProperties := caps_queueFamiliesProperties self;
        caps_memoryProperties := d |}.

Definition mergeCaps (registry : VulkanRegistry) (caps : CapabilityData)
    (self : VulkanProfileCapabilities) : outcome VulkanProfileCapabilities :=
  do self <- mergeProfileExtensions registry caps self;
  do self <- mergeProfileFeatures caps self;
  do self <- mergeProfileProperties caps self;
  do self <- mergeProfileFormats caps self;
  let self := mergeProfileQueueFamiliesProperties caps self in
  mergeProfileMemoryProperties caps self.

(** [VulkanProfileCapabilities.__init__].  The message for a missing
    capability reads [data['name']], a [KeyError] when the profile entry has
    no such key. *)
Definition VulkanProfileCapabilities_init (registry : VulkanRegistry)
    (data : ProfileData) (caps : dict CapabilityData)
  : outcome VulkanProfileCapabilities :=
  for_each
    (fun self capName =>
       match dict_get capName caps with
       | Some c => mergeCaps registry c self
       | None =>
           match data_name data with
           | Some n =>
               Log.f ["Capability '" +:+ capName +:+ "' needed by profile '"
                      +:+ n +:+ "' is missing"]
           | None => Raised KeyError
           end
       end)
    (data_capabilities data) empty_capabilities.

(** ** Profiles: resolution *)

Record VulkanProfile : Type := {
  profile_name : string;
  profile_version : Z;
  profile_apiVersion : string;
  profile_fallback : option (list string);
  profile_requirements : list string;
  profile_capabilities : VulkanProfileCapabilities
}.

Definition invalid_version_msg (apiVersion name : string) : string :=
  "Invalid version number '" +:+ apiVersion +:+ "' in profile '" +:+ name +:+ "'".

(** [collectCompileTimeRequirements]: the requirements of the profile, the
    name of the version first, the extensions after it. *)
Definition collectCompileTimeRequirements (registry : VulkanRegistry)
    (name apiVersion : string) (capabilities : VulkanProfileCapabilities)
  : outcome (list string) :=
  do requirements <-
    match re_api_version apiVersion with
    | Some versionNumber =>
        match dict_get versionNumber (versions registry) with
        | Some v => Ok [version_name v]
        | None =>
            Log.f ["No version '" +:+ versionNumber
                   +:+ "' found in registry required by profile '" +:+ name +:+ "'"]
        end
    | None => Log.f [invalid_version_msg apiVersion name]
    end;
  for_each
    (fun requirements extName =>
       if dict_mem extName (extensions registry) then Ok (requirements ++ [extName])
       else Log.f ["Extension '" +:+ extName +:+ "' required by profile '"
                   +:+ name +:+ "' does not exist"])
    (dict_keys (caps_extensions capabilities)) requirements.

Definition unexpected_struct_msg (structName name : string) : string :=
  "Unexpected required struct '" +:+ structName +:+ "' in profile '" +:+ name +:+ "'".

Definition missing_struct_msg (structName name : string) : string :=
  "Struct '" +:+ structName +:+ "' in profile '" +:+ name
  +:+ "' does not exist in the registry".

(** [depFound] of [validateStructDependency]: the version of the structure
    is compared with the API version of the profile as a string. *)
Definition dependency_found (apiVersion : string)
    (capabilities : VulkanProfileCapabilities) (structDef : VulkanStruct) : bool :=
  match struct_definedByVersion structDef with
  | Some definedByVersion => String.leb definedByVersion apiVersion
  | None => false
  end
  || existsb (fun definedByExtension =>
                dict_mem definedByExtension (caps_extensions capabilities))
       (struct_definedByExtensions structDef).

Definition validateStructDependency (registry : VulkanRegistry)
    (name apiVersion : string) (capabilities : VulkanProfileCapabilities)
    (structName : string) : outcome unit :=
  match dict_get structName (structs registry) with
  | Some structDef =>
      if dependency_found apiVersion capabilities structDef then Ok tt
      else Log.f [unexpected_struct_msg structName name]
  | None => Log.f [missing_struct_msg structName name]
  end.

(** The structure names that [validateStructDependencies] visits, in its
    order: features, properties, every queue family record, memory
    properties. *)
Definition referenced_structs (capabilities : VulkanProfileCapabilities)
  : list string :=
  dict_keys (caps_features capabilities)
  ++ dict_keys (caps_properties capabilities)
  ++ concat (map dict_keys (caps_queueFamiliesProperties capabilities))
  ++ dict_keys (caps_memoryProperties capabilities).

Definition validateStructDependencies (registry : VulkanRegistry)
    (name apiVersion : string) (capabilities : VulkanProfileCapabilities)
  : outcome unit :=
  for_each
    (fun _ structName =>
       validateStructDependency registry name apiVersion capabilities structName)
    (referenced_structs capabilities) tt.

Definition validate := validateStructDependencies.

(** [VulkanProfile.__init__] *)
Definition VulkanProfile_init (registry : VulkanRegistry) (name : string)
    (data : ProfileData) (caps : dict CapabilityData) : outcome VulkanProfile :=
  do capabilities <- VulkanProfileCapabilities_init registry data caps;
  do requirements <-
    collectCompileTimeRequirements registry name (data_api_version data) capabilities;
  do _ <- validate registry name (data_api_version data) capabilities;
  Ok {| profile_name := name;
        profile_version := data_version data;
        profile_apiVersion := data_api_version data;
        profile_fallback := data_fallback data;
        profile_requirements := requirements;
        profile_capabilities := capabilities |}.

(** ** Profiles: the directory loader *)

(** What [json.load] gives for a profile file. *)
Record ProfileFile : Type := {
  file_profiles : dict ProfileData;
  file_capabilities : dict CapabilityData
}.

(** An entry of [os.listdir]: its name, whether it is a regular file, and
    its content. *)
Record DirEntry : Type := {
  entry_filename : string;
  entry_isfile : bool;
  entry_json : ProfileFile
}.

(** [os.path.splitext(filename)[-1] == '.json']: the extension starts at the
    last dot, and a name made of leading dots only has no extension. *)
Definition has_json_extension (filename : string) : bool :=
  endswith ".json" filename
  && negb (forallb (fun c => Ascii.eqb c ".")
             (list_ascii_of_string (drop_last 5 filename))).

Definition parseProfiles (registry : VulkanRegistry) (profiles : dict VulkanProfile)
    (json : dict ProfileData) (caps : dict CapabilityData)
  : outcome (dict VulkanProfile) :=
  for_each
    (fun profiles (item : string * ProfileData) =>
       let '(name, data) := item in
       do p <- VulkanProfile_init registry name data caps;
       Ok (dict_set name p profiles))
    json profiles.

Definition loadFromDir (registry : VulkanRegistry) (entries : list DirEntry)
  : outcome (dict VulkanProfile) :=
  for_each
    (fun profiles entry =>
       if entry_isfile entry && has_json_extension (entry_filename entry) then
         parseProfiles registry profiles
           (file_profiles (entry_json entry)) (file_capabilities (entry_json entry))
       else Ok profiles)
    entries [].

(** ** The emitter *)

Section Emitter.

(** [str.upper] *)
Variable upper : string -> string.

(** The guard lines of [gen_profileDefs]: [first] is [i == 0], and the last
    requirement is the one with nothing after it. *)
Fixpoint gen_requirements (first : bool) (requirements : list string) : string :=
  match requirements with
  | [] => ""
  | requirement :: rest =>
      (if first then "#if " else "    ")
      +:+ "defined(" +:+ requirement +:+ ")"
      +:+ match rest with
          | [] => nl
          | _ => " && \" +:+ nl
          end
      +:+ gen_requirements false rest
  end.

(** The text that [gen_profileDefs] adds for one profile. *)
Definition gen_profileDef (name : string) (profile : VulkanProfile) : string :=
  let uname := upper name in
  nl
  +:+ gen_requirements true (profile_requirements profile)
  +:+ "#define " +:+ name +:+ " 1" +:+ nl
  +:+ "#define " +:+ uname +:+ "_NAME " +:+ quoted name +:+ nl
  +:+ "#define " +:+ uname +:+ "_SPEC_VERSION "
      +:+ str_of_Z (profile_version profile) +:+ nl
  +:+ "#define " +:+ uname +:+ "_MIN_API_VERSION VK_MAKE_VERSION("
      +:+ replace_dot (profile_apiVersion profile) +:+ ")" +:+ nl
  +:+ match profile_requirements profile with
      | [] => ""
      | _ => "#endif" +:+ nl
      end.

Definition gen_profileDefs (profiles : dict VulkanProfile) : string :=
  fold_left (fun gen item => gen +:+ gen_profileDef (fst item) (snd item)) profiles "".

End Emitter.

(** [VulkanProfile.gen_extensionData] *)
Definition gen_extensionData (registry : VulkanRegistry) (type : string)
    (self : VulkanProfile) : outcome string :=
  do r <- for_each
       (fun (st : string * bool) (item : string * Z) =>
          let '(gen, foundExt) := st in
          let '(extName, specVer) := item in
          do extInfo <- dict_item extName (extensions registry);
          if opt_is (extension_type extInfo) type then
            Ok (gen +:+ "    VkExtensionProperties{ "
                    +:+ extension_upperCaseName extInfo +:+ "_EXTENSION_NAME, "
                    +:+ str_of_Z specVer +:+ " }," +:+ nl, true)
          else Ok (gen, foundExt))
       (caps_extensions (profile_capabilities self))
       (nl +:+ "static const VkExtensionProperties _" +:+ type
           +:+ "Extensions[] = {" +:+ nl, false);
  Ok (if snd r then fst r +:+ "};" +:+ nl else "").

(** *** The comparison synthesizer *)

(** A format string with the single field [{0}]: the text before the field
    and the text after it. *)
Record format1 : Type := {
  fmt_before : string;
  fmt_after : string
}.

(** [fmt.format(x)] *)
Definition format (fmt : format1) (x : string) : string :=
  fmt_before fmt +:+ x +:+ fmt_after fmt.

(** The predicate formats of [gen_compareStructVar], each with the fields
    [{0}] (device) and [{1}] (profile). *)
Inductive predicate : Type :=
| pred_contains   (* (({0} & {1}) == {1}) *)
| pred_ge         (* ({0} >= {1}) *)
| pred_le         (* ({0} <= {1}) *)
| pred_eq.        (* ({0} == {1}) *)

Definition format_predicate (p : predicate) (device profile : string) : string :=
  match p with
  | pred_contains => "((" +:+ device +:+ " & " +:+ profile +:+ ") == " +:+ profile +:+ ")"
  | pred_ge => "(" +:+ device +:+ " >= " +:+ profile +:+ ")"
  | pred_le => "(" +:+ device +:+ " <= " +:+ profile +:+ ")"
  | pred_eq => "(" +:+ device +:+ " == " +:+ profile +:+ ")"
  end.

(** [comparePredFmt] is a string for every limittype but [range], where it
    is a list of two strings. *)
Inductive comparePredFmt : Type :=
| fmt_str (p : predicate)
| fmt_list (ps : list predicate).

(** [comparePredFmt.format(a, b)]: a list has no [format]. *)
Definition comparePredFmt_format (c : comparePredFmt) (device profile : string)
  : outcome string :=
  match c with
  | fmt_str p => Ok (format_predicate p device profile)
  | fmt_list _ => Raised AttributeError
  end.

(** [comparePredFmt[i].format(a, b)]: used when the limittype is [range]. *)
Definition comparePredFmt_index_format (c : comparePredFmt) (i : nat)
    (device profile : string) : outcome string :=
  match c with
  | fmt_list ps =>
      match ps !! i with
      | Some p => Ok (format_predicate p device profile)
      | None => Raised IndexError
      end
  | fmt_str _ => Raised TypeError
  end.

Definition unsupported_limittype_msg (limittype : option string)
    (member structName : string) : string :=
  "Unsupported limittype '" +:+ str_of_opt limittype +:+ "' in member '"
  +:+ member +:+ "' of structure '" +:+ structName +:+ "'".

Definition not_a_struct_msg (member structName : string) : string :=
  "Member '" +:+ member +:+ "' in structure '" +:+ structName +:+ "' is not a struct".

Definition no_member_msg (member structName : string) : string :=
  "No member '" +:+ member +:+ "' in structure '" +:+ structName +:+ "'".

(** The chain of tests on [limittype] after the one for [IGNORE]. *)
Definition select_comparePredFmt (limittype : option string)
    (member structName : string) : outcome comparePredFmt :=
  if opt_is limittype "bitmask" then Ok (fmt_str pred_contains)
  else if opt_is limittype "max" then Ok (fmt_str pred_ge)
  else if opt_is limittype "min" then Ok (fmt_str pred_le)
  else if opt_is limittype "range" then Ok (fmt_list [pred_le; pred_ge])
  else if match limittype with None => true | Some _ => false end
          || opt_is limittype "noauto" || opt_is limittype "struct"
       then Ok (fmt_str pred_eq)
  else Log.f [unsupported_limittype_msg limittype member structName].

(** [for i in range(len(value)): gen += ...], from index [i] on. *)
Fixpoint compare_elements (fmt : format1) (limittype : option string)
    (c : comparePredFmt) (deviceVar profileVar member : string)
    (i : nat) (value : list json) : outcome string :=
  match value with
  | [] => Ok ""
  | _ :: rest =>
      let device := deviceVar +:+ member +:+ "[" +:+ str_of_nat i +:+ "]" in
      let profile := profileVar +:+ member +:+ "[" +:+ str_of_nat i +:+ "]" in
      do p <- if opt_is limittype "range"
              then comparePredFmt_index_format c i device profile
              else comparePredFmt_format c device profile;
      do r <- compare_elements fmt limittype c deviceVar profileVar member (S i) rest;
      Ok (format fmt p +:+ r)
  end.

(** The loop of [gen_compareStructVar] over [values.items()]; [recur] is
    the function itself, for the nested structures. *)
Fixpoint compare_items
    (recur : VulkanStruct -> string -> string -> json -> outcome string)
    (registry : VulkanRegistry) (fmt : format1)
    (structDef : VulkanStruct) (deviceVar profileVar : string)
    (items : list (string * json)) {struct items} : outcome string :=
  match items with
  | [] => Ok ""
  | (member, value) :: rest =>
      do gen <-
        match dict_get member (members_of registry structDef) with
        | Some memberInfo =>
            let limittype := member_limittype memberInfo in
            if opt_is limittype "IGNORE" then Ok ""
            else
              do c <- select_comparePredFmt limittype member (struct_name structDef);
              match value with
              | JDict _ =>
                  match dict_get (member_type memberInfo) (structs registry) with
                  | Some memberDef =>
                      recur memberDef (deviceVar +:+ member +:+ ".")
                        (profileVar +:+ member +:+ ".") value
                  | None => Log.f [not_a_struct_msg member (struct_name structDef)]
                  end
              | JList l =>
                  if member_isArray memberInfo then
                    compare_elements fmt limittype c deviceVar profileVar member 0 l
                  else
                    do p <- comparePredFmt_format c (deviceVar +:+ member)
                              (profileVar +:+ member);
                    Ok (format fmt p)
              | _ =>
                  do p <- comparePredFmt_format c (deviceVar +:+ member)
                            (profileVar +:+ member);
                  Ok (format fmt p)
              end
        | None => Log.f [no_member_msg member (struct_name structDef)]
        end;
      do r <- compare_items recur registry fmt structDef deviceVar profileVar rest;
      Ok (gen +:+ r)
  end.

(** [gen_compareStructVar(fmt, structDef, deviceVar, profileVar, values)].
    [values.items()] needs a dictionary. *)
Fixpoint gen_compareStructVar (registry : VulkanRegistry) (fmt : format1)
    (structDef : VulkanStruct) (deviceVar profileVar : string) (values : json)
    {struct values} : outcome string :=
  match values with
  | JDict items =>
      compare_items (gen_compareStructVar registry fmt) registry fmt
        structDef deviceVar profileVar items
  | _ => Raised AttributeError
  end.

(** ** The table of the specification

    The comparison predicates as the specification lists them: by
    limittype, and for [range] by the index in the array.  [None] where the
    table has no entry. *)

Definition table_predicate (limittype : option string) (index : option nat)
  : option predicate :=
  match limittype with
  | None => Some pred_eq
  | Some l =>
      if String.eqb l "bitmask" then Some pred_contains
      else if String.eqb l "max" then Some pred_ge
      else if String.eqb l "min" then Some pred_le
      else if String.eqb l "range" then
        match index with
        | Some 0 => Some pred_le
        | Some 1 => Some pred_ge
        | _ => None
        end
      else if String.eqb l "noauto" || String.eqb l "struct" then Some pred_eq
      else None
  end.

(** The limittypes of the table, [IGNORE] apart. *)
Definition table_limittype (limittype : option string) : bool :=
  match limittype with
  | None => true
  | Some l =>
      String.eqb l "bitmask" || String.eqb l "max" || String.eqb l "min"
      || String.eqb l "range" || String.eqb l "noauto" || String.eqb l "struct"
  end.

(** One predicate per index of an [is_array] member. *)
Fixpoint spec_elements (fmt : format1) (limittype : option string)
    (deviceVar profileVar member : string) (i : nat) (value : list json)
  : option string :=
  match value with
  | [] => Some ""
  | _ :: rest =>
      match table_predicate limittype (Some i),
            spec_elements fmt limittype deviceVar profileVar member (S i) rest with
      | Some p, Some r =>
          Some (format fmt
                  (format_predicate p
                     (deviceVar +:+ member +:+ "[" +:+ str_of_nat i +:+ "]")
                     (profileVar +:+ member +:+ "[" +:+ str_of_nat i +:+ "]"))
                +:+ r)
      | _, _ => None
      end
  end.

(** The predicate of a member that is compared as a whole. *)
Definition spec_whole (fmt : format1) (limittype : option string)
    (deviceVar profileVar member : string) : option (outcome string) :=
  match table_predicate limittype None with
  | Some p =>
      Some (Ok (format fmt
                  (format_predicate p (deviceVar +:+ member) (profileVar +:+ member))))
  | None => None
  end.

(** What the specification prescribes for the members of a value tree, in
    their order; [recur] is the prescription for a nested structure. *)
Fixpoint spec_items
    (recur : VulkanStruct -> string -> string -> json -> option (outcome string))
    (registry : VulkanRegistry) (fmt : format1)
    (structDef : VulkanStruct) (deviceVar profileVar : string)
    (items : list (string * json)) {struct items} : option (outcome string) :=
  match items with
  | [] => Some (Ok "")
  | (member, value) :: rest =>
      let head :=
        match dict_get member (members_of registry structDef) with
        | None => Some (Fatal (no_member_msg member (struct_name structDef)))
        | Some memberInfo =>
            let limittype := member_limittype memberInfo in
            if opt_is limittype "IGNORE" then Some (Ok "")
            else if negb (table_limittype limittype) then
              Some (Fatal (unsupported_limittype_msg limittype member
                             (struct_name structDef)))
            else
              match value with
              | JDict _ =>
                  match dict_get (member_type memberInfo) (structs registry) with
                  | Some memberDef =>
                      recur memberDef (deviceVar +:+ member +:+ ".")
                        (profileVar +:+ member +:+ ".") value
                  | None =>
                      Some (Fatal (not_a_struct_msg member (struct_name structDef)))
                  end
              | JList l =>
                  if member_isArray memberInfo then
                    option_map Ok
                      (spec_elements fmt limittype deviceVar profileVar member 0 l)
                  else spec_whole fmt limittype deviceVar profileVar member
              | _ => spec_whole fmt limittype deviceVar profileVar member
              end
        end in
      match head with
      | Some (Ok gen) =>
          match spec_items recur registry fmt structDef deviceVar profileVar rest with
          | Some (Ok r) => Some (Ok (gen +:+ r))
          | other => other
          end
      | other => other
      end
  end.

(** What the specification prescribes for a structure and a value tree:
    nothing for [IGNORE], a fatal error for a limittype outside the table,
    for a member that the structure does not have and for an object value
    whose member is not a structure, the nested structure for an object
    value, one predicate per index for an array value of an [is_array]
    member, one predicate otherwise.  [None] where the table has no entry
    for a member that is reached. *)
Fixpoint spec_compareStructVar (registry : VulkanRegistry) (fmt : format1)
    (structDef : VulkanStruct) (deviceVar profileVar : string) (values : json)
    {struct values} : option (outcome string) :=
  match values with
  | JDict items =>
      spec_items (spec_compareStructVar registry fmt) registry fmt
        structDef deviceVar profileVar items
  | _ => None
  end.

(** ** Well-formed range values

    A [range] member is meant for an array of two values.  The value given
    to a member is in the domain of the table when it is an object, or the
    member is not a [range], or the member is an [is_array] member and the
    value an array of at most two elements. *)
Definition range_value_ok (memberInfo : VulkanStructMember) (value : json) : bool :=
  match value with
  | JDict _ => true
  | JList l =>
      negb (opt_is (member_limittype memberInfo) "range")
      || (member_isArray memberInfo && Nat.leb (length l) 2)
  | _ => negb (opt_is (member_limittype memberInfo) "range")
  end.

Fixpoint ranges_ok_items (recur : VulkanStruct -> json -> bool)
    (registry : VulkanRegistry) (structDef : VulkanStruct)
    (items : list (string * json)) {struct items} : bool :=
  match items with
  | [] => true
  | (member, value) :: rest =>
      match dict_get member (members_of registry structDef) with
      | Some memberInfo =>
          range_value_ok memberInfo value
          && match value, dict_get (member_type memberInfo) (structs registry) with
             | JDict _, Some memberDef => recur memberDef value
             | _, _ => true
             end
      | None => true
      end
      && ranges_ok_items recur registry structDef rest
  end.

(** Every range member of the value tree, nested structures included, has a
    value in the domain of the table. *)
Fixpoint ranges_ok (registry : VulkanRegistry) (structDef : VulkanStruct)
    (values : json) {struct values} : bool :=
  match values with
  | JDict items => ranges_ok_items (ranges_ok registry) registry structDef items
  | _ => false
  end.

(** ** Conditions on a registry document *)


(** The base that an alias node names is not an alias node declared at or
    after that node: when the node is read, its base already has the members
    and the sType that it ends with. *)
Fixpoint aliases_follow_bases_from (nodes : list XmlType) : bool :=
  match nodes with
  | [] => true
  | t :: after =>
      match xtype_alias t with
      | Some base =>
          negb (existsb
                  (fun t' =>
                     String.eqb (xtype_name t') base
                     && match xtype_alias t' with Some _ => true | None => false end)
                  (t :: after))
      | None => true
      end
      && aliases_follow_bases_from after
  end.


(** [alias] stands for [sType] in the alias table of a version of the
    registry, the structure being defined by a version, or of one of the
    extensions that define the structure. *)
Definition sType_alias_of (registry : VulkanRegistry) (structDef : VulkanStruct)
    (sType alias : string) : Prop :=
  (exists number v definedByVersion,
     dict_get number (versions registry) = Some v
     /\ struct_definedByVersion structDef = Some definedByVersion
     /\ dict_get sType (version_sTypeAliases v) = Some alias)
  \/ (exists extName e,
        In extName (struct_definedByExtensions structDef)
        /\ dict_get extName (extensions registry) = Some e
        /\ dict_get sType (extension_sTypeAliases e) = Some alias).

(** ** Sample inputs *)

Definition xml_member (name type : string) (limittype : option string) : XmlMember :=
  {| xmember_name := name; xmember_tail := None; xmember_type := type;
     xmember_limittype := limittype; xmember_values := None |}.

Definition xml_array_member (name type : string) (limittype : option string)
  : XmlMember :=
  {| xmember_name := name; xmember_tail := Some "[2]"; xmember_type := type;
     xmember_limittype := limittype; xmember_values := None |}.

Definition xml_sType (values : string) : XmlMember :=
  {| xmember_name := "sType"; xmember_tail := None;
     xmember_type := "VkStructureType"; xmember_limittype := None;
     xmember_values := Some values |}.

Definition xml_pNext : XmlMember :=
  {| xmember_name := "pNext"; xmember_tail := None; xmember_type := "void";
     xmember_limittype := None; xmember_values := None |}.

Definition xml_struct (name : string) (extends : option string)
    (members : list XmlMember) : XmlType :=
  {| xtype_name := name; xtype_alias := None; xtype_structextends := extends;
     xtype_members := members |}.

Definition xml_alias (name alias : string) : XmlType :=
  {| xtype_name := name; xtype_alias := Some alias; xtype_structextends := None;
     xtype_members := [] |}.

Definition sample_limits : XmlType :=
  xml_struct "VkPhysicalDeviceLimits" None
    [ xml_member "maxImageDimension2D" "uint32_t" (Some "max");
      xml_member "bufferImageGranularity" "VkDeviceSize" (Some "noauto");
      xml_member "subPixelPrecisionBits" "uint32_t" (Some "noauto");
      xml_member "subTexelPrecisionBits" "uint32_t" (Some "noauto");
      xml_member "mipmapPrecisionBits" "uint32_t" (Some "noauto");
      xml_member "viewportSubPixelBits" "uint32_t" (Some "noauto");
      xml_member "minMemoryMapAlignment" "size_t" (Some "noauto");
      xml_member "minTexelBufferOffsetAlignment" "VkDeviceSize" (Some "noauto");
      xml_member "minUniformBufferOffsetAlignment" "VkDeviceSize" (Some "noauto");
      xml_member "minStorageBufferOffsetAlignment" "VkDeviceSize" (Some "noauto");
      xml_member "subPixelInterpolationOffsetBits" "uint32_t" (Some "noauto");
      xml_member "timestampPeriod" "float" None;
      xml_member "nonCoherentAtomSize" "VkDeviceSize" (Some "noauto");
      xml_member "maxColorAttachments" "uint32_t" (Some "bitmask");
      xml_array_member "pointSizeRange" "float" (Some "range");
      xml_member "pointSizeGranularity" "float" (Some "noauto");
      xml_member "lineWidthGranularity" "float" (Some "noauto");
      xml_member "framebufferColorSampleCounts" "VkSampleCountFlags" (Some "bitmask");
      xml_member "timestampComputeAndGraphics" "VkBool32" (Some "bitmask") ].

Definition sample_structs : list XmlType :=
  [ sample_limits;
    xml_struct "VkPhysicalDeviceProperties" None
      [ xml_member "apiVersion" "uint32_t" (Some "noauto");
        xml_member "limits" "VkPhysicalDeviceLimits" (Some "struct") ];
    xml_struct "VkPhysicalDeviceFeatures" None
      [ xml_member "geometryShader" "VkBool32" None;
        xml_member "tessellationShader" "VkBool32" None ];
    xml_struct "VkPhysicalDeviceVulkan11Properties"
      (Some "VkPhysicalDeviceProperties2")
      [ xml_sType "VK_STRUCTURE_TYPE_PHYSICAL_DEVICE_VULKAN_1_1_PROPERTIES";
        xml_pNext;
        xml_member "subgroupSize" "uint32_t" (Some "noauto");
        xml_member "protectedNoFault" "VkBool32" (Some "bitmask") ];
    xml_struct "VkPhysicalDevicePortabilitySubsetPropertiesKHR"
      (Some "VkPhysicalDeviceProperties2")
      [ xml_sType "VK_STRUCTURE_TYPE_PHYSICAL_DEVICE_PORTABILITY_SUBSET_PROPERTIES_KHR";
        xml_pNext;
        xml_member "minVertexInputBindingStrideAlignment" "uint32_t" (Some "noauto") ];
    xml_struct "VkPhysicalDeviceVariablePointersFeatures"
      (Some "VkPhysicalDeviceFeatures2,VkDeviceCreateInfo")
      [ xml_sType "VK_STRUCTURE_TYPE_PHYSICAL_DEVICE_VARIABLE_POINTERS_FEATURES";
        xml_pNext;
        xml_member "variablePointersStorageBuffer" "VkBool32" None;
        xml_member "variablePointers" "VkBool32" None ];
    xml_alias "VkPhysicalDeviceVariablePointersFeaturesKHR"
      "VkPhysicalDeviceVariablePointersFeatures" ].

Definition xml_name_enum (enumName extName : string) : XmlEnum :=
  {| enum_name := enumName; enum_alias := None; enum_value := Some (quoted extName) |}.

Definition xml_alias_enum (enumName alias : string) : XmlEnum :=
  {| enum_name := enumName; enum_alias := Some alias; enum_value := None |}.

Definition sample_features : list XmlFeature :=
  [ {| feature_name := "VK_VERSION_1_0"; feature_number := "1.0";
       feature_enums := [];
       feature_types := ["VkPhysicalDeviceLimits"; "VkPhysicalDeviceProperties";
                         "VkPhysicalDeviceFeatures"] |};
    {| feature_name := "VK_VERSION_1_1"; feature_number := "1.1";
       feature_enums := [];
       feature_types := ["VkPhysicalDeviceVariablePointersFeatures"] |};
    {| feature_name := "VK_VERSION_1_2"; feature_number := "1.2";
       feature_enums := [];
       feature_types := ["VkPhysicalDeviceVulkan11Properties"] |} ].

Definition sample_extensions : list XmlExtension :=
  [ {| xext_name := "VK_KHR_surface"; xext_supported := Some "vulkan";
       xext_type := Some "instance"; xext_platform := None;
       xext_enums := [xml_name_enum "VK_KHR_SURFACE_EXTENSION_NAME" "VK_KHR_surface"];
       xext_types := [] |};
    {| xext_name := "VK_KHR_swapchain"; xext_supported := Some "vulkan";
       xext_type := Some "device"; xext_platform := None;
       xext_enums := [xml_name_enum "VK_KHR_SWAPCHAIN_EXTENSION_NAME" "VK_KHR_swapchain"];
       xext_types := [] |};
    {| xext_name := "VK_KHR_variable_pointers"; xext_supported := Some "vulkan";
       xext_type := Some "device"; xext_platform := None;
       xext_enums :=
         [ xml_name_enum "VK_KHR_VARIABLE_POINTERS_EXTENSION_NAME"
             "VK_KHR_variable_pointers";
           xml_alias_enum
             "VK_STRUCTURE_TYPE_PHYSICAL_DEVICE_VARIABLE_POINTERS_FEATURES_KHR"
             "VK_STRUCTURE_TYPE_PHYSICAL_DEVICE_VARIABLE_POINTERS_FEATURES" ];
       xext_types := ["VkPhysicalDeviceVariablePointersFeaturesKHR"] |};
    {| xext_name := "VK_KHR_portability_subset"; xext_supported := Some "vulkan";
       xext_type := Some "device"; xext_platform := None;
       xext_enums :=
         [ xml_name_enum "VK_KHR_PORTABILITY_SUBSET_EXTENSION_NAME"
             "VK_KHR_portability_subset" ];
       xext_types := ["VkPhysicalDevicePortabilitySubsetPropertiesKHR"] |} ].

Definition sample_xml : XmlRegistry :=
  {| xml_platforms := [ {| xplatform_name := "xlib";
                           xplatform_protect := Some "VK_USE_PLATFORM_XLIB_KHR" |} ];
     xml_features := sample_features;
     xml_extensions := sample_extensions;
     xml_structs := sample_structs |}.

(** The registry that the sample document loads to ([empty_registry] if the
    load fails, which it does not: see [sample_registry_loaded]). *)
Definition sample_registry : VulkanRegistry :=
  match VulkanRegistry_init sample_xml with
  | Ok registry => registry
  | _ => empty_registry
  end.

(** A string of decimal digits. *)
Fixpoint all_digits (s : string) : bool :=
  match s with
  | EmptyString => true
  | String c r => is_digit c && all_digits r
  end.

(** The sample document with one more top-level feature, numbered with three
    components. *)
Definition bad_version_xml : XmlRegistry :=
  {| xml_platforms := xml_platforms sample_xml;
     xml_features :=
       xml_features sample_xml
       ++ [ {| feature_name := "VK_VERSION_1_3_0"; feature_number := "1.3.0";
               feature_enums := []; feature_types := [] |} ];
     xml_extensions := xml_extensions sample_xml;
     xml_structs := xml_structs sample_xml |}.

(** A profile that asks for API version [1.2.0] and no extension. *)
Definition sample_caps : dict CapabilityData :=
  [ ("baseline",
     {| data_extensions := None;
        data_features :=
          Some (JDict [("VkPhysicalDeviceFeatures",
                        JDict [("geometryShader", JBool true)])]);
        data_properties := None; data_formats := None;
        data_queueFamiliesProperties := None; data_memoryProperties := None |});
    ("tessellation",
     {| data_extensions := None;
        data_features :=
          Some (JDict [("VkPhysicalDeviceFeatures",
                        JDict [("tessellationShader", JBool true)])]);
        data_properties := None; data_formats := None;
        data_queueFamiliesProperties := None; data_memoryProperties := None |});
    ("presentation",
     {| data_extensions := Some [("VK_KHR_surface", 25%Z); ("VK_KHR_swapchain", 70%Z)];
        data_features := None; data_properties := None; data_formats := None;
        data_queueFamiliesProperties := None; data_memoryProperties := None |});
    ("limits",
     {| data_extensions := None; data_features := None;
        data_properties :=
          Some (JDict [("VkPhysicalDeviceProperties",
                        JDict [("limits",
                                JDict [("maxColorAttachments", JInt 8)])])]);
        data_formats := None;
        data_queueFamiliesProperties := None; data_memoryProperties := None |});
    ("limits_as_list",
     {| data_extensions := None; data_features := None;
        data_properties :=
          Some (JDict [("VkPhysicalDeviceProperties",
                        JDict [("limits",
                                JDict [("maxColorAttachments", JList [JInt 8])])])]);
        data_formats := None;
        data_queueFamiliesProperties := None; data_memoryProperties := None |});
    ("variable_pointers",
     {| data_extensions := None;
        data_features :=
          Some (JDict [("VkPhysicalDeviceVariablePointersFeaturesKHR",
                        JDict [("variablePointers", JBool true)])]);
        data_properties := None; data_formats := None;
        data_queueFamiliesProperties := None; data_memoryProperties := None |}) ].

Definition sample_profile_data (api_version : string) (capabilities : list string)
  : ProfileData :=
  {| data_name := None; data_version := 1; data_api_version := api_version;
     data_fallback := None; data_capabilities := capabilities |}.

(** [str.upper] on ASCII letters, for the sample profile names. *)
Fixpoint ascii_upper (s : string) : string :=
  match s with
  | EmptyString => EmptyString
  | String c r =>
      String (if (Ascii.leb "a" c && Ascii.leb c "z")%char
              then ascii_of_nat (nat_of_ascii c - 32) else c)
        (ascii_upper r)
  end.

(** The profile entries that [loadFromDir] registers, in its order: those
    of the regular files with the extension [.json], each with the
    capability pool of its file. *)
Definition profile_definitions (entries : list DirEntry)
  : list (string * ProfileData * dict CapabilityData) :=
  concat
    (map (fun entry =>
            if entry_isfile entry && has_json_extension (entry_filename entry) then
              map (fun item => (fst item, snd item,
                                file_capabilities (entry_json entry)))
                (file_profiles (entry_json entry))
            else [])
       entries).

(** Two profile files that define the same profile name, with different
    versions. *)
Definition duplicate_entries : list DirEntry :=
  [ {| entry_filename := "first.json"; entry_isfile := true;
       entry_json :=
         {| file_profiles :=
              [("VP_SAMPLE_baseline",
                {| data_name := None; data_version := 1;
                   data_api_version := "1.0.0"; data_fallback := None;
                   data_capabilities := ["baseline"] |})];
            file_capabilities := sample_caps |} |};
    {| entry_filename := "second.json"; entry_isfile := true;
       entry_json :=
         {| file_profiles :=
              [("VP_SAMPLE_baseline",
                {| data_name := None; data_version := 2;
                   data_api_version := "1.2.0"; data_fallback := None;
                   data_capabilities := ["tessellation"] |})];
            file_capabilities := sample_caps |} |} ].

(** ** Vocabulary of the properties *)

(** A run that ends in the exception of [Log.f]. *)
Definition fatal {A : Type} (o : outcome A) : Prop := exists msg, o = Fatal msg.

(** The registry records [extName] with the kind [kind]. *)
Definition extension_kind (registry : VulkanRegistry) (extName kind : string) : Prop :=
  exists extInfo,
    dict_get extName (extensions registry) = Some extInfo
    /\ extension_type extInfo = Some kind.

(** The registry does not record [extName], or records it with a kind that
    is neither [instance] nor [device]. *)
Definition extension_unclassified (registry : VulkanRegistry) (extName : string)
  : bool :=
  match dict_get extName (extensions registry) with
  | Some extInfo =>
      negb (opt_is (extension_type extInfo) "instance")
      && negb (opt_is (extension_type extInfo) "device")
  | None => true
  end.

(** The invariant of the three extension dictionaries of the merged
    capabilities. *)
Definition extensions_classified (registry : VulkanRegistry)
    (capabilities : VulkanProfileCapabilities) : Prop :=
  forall extName,
    (dict_mem extName (caps_instanceExtensions capabilities) = true ->
     extension_kind registry extName "instance")
    /\ (dict_mem extName (caps_deviceExtensions capabilities) = true ->
        extension_kind registry extName "device")
    /\ (dict_mem extName (caps_extensions capabilities) = true ->
        dict_mem extName (caps_instanceExtensions capabilities) = true
        \/ dict_mem extName (caps_deviceExtensions capabilities) = true).

(** The dependency that [validateStructDependency] looks for. *)
Definition dependency_met (registry : VulkanRegistry) (apiVersion : string)
    (capabilities : VulkanProfileCapabilities) (structName : string) : Prop :=
  exists structDef,
    dict_get structName (structs registry) = Some structDef
    /\ ((exists definedByVersion,
            struct_definedByVersion structDef = Some definedByVersion
            /\ String.leb definedByVersion apiVersion = true)
        \/ (exists definedByExtension,
               In definedByExtension (struct_definedByExtensions structDef)
               /\ dict_mem definedByExtension (caps_extensions capabilities) = true)).

(** A value that is neither an object nor an array. *)
Definition is_scalar (v : json) : bool :=
  match v with JDict _ | JList _ => false | _ => true end.

(** The registration of one profile entry by [parseProfiles]. *)
Definition register_definition (registry : VulkanRegistry)
    (profiles : dict VulkanProfile)
    (definition : string * ProfileData * dict CapabilityData)
  : outcome (dict VulkanProfile) :=
  do p <- VulkanProfile_init registry (fst (fst definition)) (snd (fst definition))
            (snd definition);
  Ok (dict_set (fst (fst definition)) p profiles).


(** A capability block that names an extension which the sample registry
    does not record. *)
Definition unknown_extension_caps : CapabilityData :=
  {| data_extensions := Some [("VK_KHR_surface", 25%Z); ("VK_SAMPLE_unknown", 1%Z)];
     data_features := None; data_properties := None; data_formats := None;
     data_queueFamiliesProperties := None; data_memoryProperties := None |}.

(** The synthetic structure of the specification: one member per
    limittype, and a member that is a structure itself. *)
Definition synthetic_member (name type : string) (limittype : option string)
    (isArray : bool) : string * VulkanStructMember :=
  (name, {| member_name := name; member_type := type;
            member_limittype := limittype; member_isArray := isArray |}).

Definition synthetic_struct (name : string) (members : nat) : VulkanStruct :=
  {| struct_name := name; struct_sType := None; struct_extends := [];
     struct_members := members; struct_aliases := members;
     struct_definedByVersion := None; struct_definedByExtensions := [] |}.

Definition synthetic_registry : VulkanRegistry :=
  {| platforms := []; versions := []; extensions := [];
     structs := [ ("VkSynthetic", synthetic_struct "VkSynthetic" 0);
                  ("VkSyntheticInner", synthetic_struct "VkSyntheticInner" 1) ];
     member_tables :=
       [ [ synthetic_member "mBitmask" "VkFlags" (Some "bitmask") false;
           synthetic_member "mMax" "uint32_t" (Some "max") false;
           synthetic_member "mMin" "uint32_t" (Some "min") false;
           synthetic_member "mRange" "float" (Some "range") true;
           synthetic_member "mEq" "uint32_t" (Some "noauto") false;
           synthetic_member "mIgnore" "uint32_t" (Some "IGNORE") false;
           synthetic_member "mInner" "VkSyntheticInner" (Some "struct") false;
           synthetic_member "mPlain" "uint32_t" None false;
           synthetic_member "mCounts" "uint32_t" (Some "max") true;
           synthetic_member "mOther" "uint32_t" (Some "exact") false ];
         [ synthetic_member "mDepth" "uint32_t" (Some "max") false ] ];
     alias_lists := [["VkSynthetic"]; ["VkSyntheticInner"]] |}.

Definition synthetic_fmt : format1 :=
  {| fmt_before := "ok = ok && "; fmt_after := ";" +:+ nl |}.

Definition synthetic_values : json :=
  JDict [ ("mBitmask", JList [JStr "VK_SAMPLE_A_BIT"; JStr "VK_SAMPLE_B_BIT"]);
          ("mMax", JInt 8);
          ("mMin", JInt 1);
          ("mRange", JList [JFloat "1.0"; JFloat "64.0"]);
          ("mEq", JInt 3);
          ("mIgnore", JInt 5);
          ("mInner", JDict [("mDepth", JInt 2)]);
          ("mPlain", JBool true);
          ("mCounts", JList [JInt 1; JInt 2; JInt 3]) ].

Definition synthetic_comparator : string :=
  "ok = ok && ((d.mBitmask & p.mBitmask) == p.mBitmask);" +:+ nl
  +:+ "ok = ok && (d.mMax >= p.mMax);" +:+ nl
  +:+ "ok = ok && (d.mMin <= p.mMin);" +:+ nl
  +:+ "ok = ok && (d.mRange[0] <= p.mRange[0]);" +:+ nl
  +:+ "ok = ok && (d.mRange[1] >= p.mRange[1]);" +:+ nl
  +:+ "ok = ok && (d.mEq == p.mEq);" +:+ nl
  +:+ "ok = ok && (d.mInner.mDepth >= p.mInner.mDepth);" +:+ nl
  +:+ "ok = ok && (d.mPlain == p.mPlain);" +:+ nl
  +:+ "ok = ok && (d.mCounts[0] >= p.mCounts[0]);" +:+ nl
  +:+ "ok = ok && (d.mCounts[1] >= p.mCounts[1]);" +:+ nl
  +:+ "ok = ok && (d.mCounts[2] >= p.mCounts[2]);" +:+ nl.

(** What the second pass of [applyWorkarounds] does to one member. *)
Definition patch_member (memberDef : VulkanStructMember) : VulkanStructMember :=
  if is_bool_bitmask memberDef then with_limittype memberDef (Some "noauto")
  else memberDef.

(** The member dictionaries that the second pass visits from a list of
    structure names. *)
Definition visited_tables (ss : dict VulkanStruct) (names : list string) : list nat :=
  omap (fun structName => option_map struct_members (dict_get structName ss)) names.

(** The sample document with a chain of aliases: [VkSampleSecondKHR] stands
    for [VkSampleFirstKHR], declared after it, which stands for
    [VkSampleCore]. *)
Definition chain_xml : XmlRegistry :=
  {| xml_platforms := xml_platforms sample_xml;
     xml_features := xml_features sample_xml;
     xml_extensions := xml_extensions sample_xml;
     xml_structs :=
       xml_structs sample_xml
       ++ [ xml_struct "VkSampleCore" None
              [ xml_member "sampleLimit" "uint32_t" (Some "max") ];
            xml_alias "VkSampleSecondKHR" "VkSampleFirstKHR";
            xml_alias "VkSampleFirstKHR" "VkSampleCore" ] |}.

(** The same chain with every base declared before its alias:
    [VkSampleFirstKHR] stands for [VkSampleCore], and [VkSampleSecondKHR],
    declared after it, stands for [VkSampleFirstKHR]. *)
Definition ordered_chain_xml : XmlRegistry :=
  {| xml_platforms := xml_platforms sample_xml;
     xml_features := xml_features sample_xml;
     xml_extensions := xml_extensions sample_xml;
     xml_structs :=
       xml_structs sample_xml
       ++ [ xml_struct "VkSampleCore" None
              [ xml_member "sampleLimit" "uint32_t" (Some "max") ];
            xml_alias "VkSampleFirstKHR" "VkSampleCore";
            xml_alias "VkSampleSecondKHR" "VkSampleFirstKHR" ] |}.


(** ** The order of versions that the specification means

    "defined_by_version <= api_version" for version numbers: the numbers
    between the dots are compared one after the other, as numbers, and a
    number that is missing counts as zero. *)

Fixpoint split_dot_go (cur : string) (s : string) : list string :=
  match s with
  | EmptyString => [cur]
  | String c r =>
      if Ascii.eqb c "." then cur :: split_dot_go EmptyString r
      else split_dot_go (cur +:+ String c EmptyString) r
  end.

Definition nat_of_digits (s : string) : nat :=
  fold_left (fun n c => 10 * n + (nat_of_ascii c - 48))
    (list_ascii_of_string s) 0.

Definition version_components (s : string) : list nat :=
  map nat_of_digits (split_dot_go EmptyString s).

Fixpoint components_le (a b : list nat) : bool :=
  match a, b with
  | [], _ => true
  | x :: xs, [] => Nat.eqb x 0 && components_le xs []
  | x :: xs, y :: ys =>
      if Nat.ltb x y then true
      else if Nat.ltb y x then false
      else components_le xs ys
  end.

Definition version_le (a b : string) : bool :=
  components_le (version_components a) (version_components b).

(** The sample document with a version 1.10 that defines a structure of its
    own. *)
Definition tenth_xml : XmlRegistry :=
  {| xml_platforms := xml_platforms sample_xml;
     xml_features :=
       xml_features sample_xml
       ++ [ {| feature_name := "VK_VERSION_1_10"; feature_number := "1.10";
               feature_enums := [];
               feature_types := ["VkSampleTenthFeatures"] |} ];
     xml_extensions := xml_extensions sample_xml;
     xml_structs :=
       xml_structs sample_xml
       ++ [ xml_struct "VkSampleTenthFeatures" (Some "VkPhysicalDeviceFeatures2")
              [ xml_sType "VK_STRUCTURE_TYPE_SAMPLE_TENTH_FEATURES";
                xml_pNext;
                xml_member "tenth" "VkBool32" None ] ] |}.

Definition tenth_registry : VulkanRegistry :=
  match VulkanRegistry_init tenth_xml with
  | Ok registry => registry
  | _ => empty_registry
  end.

(** A block that names the structure of version 1.10, and one that names a
    structure of version 1.2. *)
Definition tenth_caps : dict CapabilityData :=
  [ ("tenth",
     {| data_extensions := None;
        data_features :=
          Some (JDict [("VkSampleTenthFeatures", JDict [("tenth", JBool true)])]);
        data_properties := None; data_formats := None;
        data_queueFamiliesProperties := None; data_memoryProperties := None |});
    ("vulkan11",
     {| data_extensions := None; data_features := None;
        data_properties :=
          Some (JDict [("VkPhysicalDeviceVulkan11Properties",
                        JDict [("subgroupSize", JInt 4)])]);
        data_formats := None;
        data_queueFamiliesProperties := None; data_memoryProperties := None |}) ].

(** The merged capabilities of a profile entry over that registry. *)
Definition tenth_merged (data : ProfileData) : VulkanProfileCapabilities :=
  match VulkanProfileCapabilities_init tenth_registry data tenth_caps with
  | Ok capabilities => capabilities
  | _ => empty_capabilities
  end.

(** ** Vocabulary of the further properties *)

(** The structure and the member that an assignment of [applyWorkarounds]
    reads are there. *)
Definition workaround_present (self : VulkanRegistry) (w : string * string * string)
  : bool :=
  match dict_get (fst (fst w)) (structs self) with
  | Some structDef => dict_mem (snd (fst w)) (members_of self structDef)
  | None => false
  end.

(** What a member is, apart from its limittype. *)
Definition member_shape (m : VulkanStructMember) : string * string * bool :=
  (member_name m, member_type m, member_isArray m).

(** The structures of the sample document, before the prerequisites are
    read. *)
Definition sample_parsed : VulkanRegistry :=
  match
    do self <- parseVersionInfo sample_xml (parsePlatformInfo sample_xml empty_registry);
    do self <- parseExtensionInfo sample_xml self;
    parseStructInfo sample_xml self
  with
  | Ok registry => registry
  | _ => empty_registry
  end.

(** The sample document with a later feature node that requires
    [VkPhysicalDeviceLimits] again. *)
Definition required_again : XmlFeature :=
  {| feature_name := "VK_VERSION_1_3"; feature_number := "1.3";
     feature_enums := []; feature_types := ["VkPhysicalDeviceLimits"] |}.

Definition required_again_xml : XmlRegistry :=
  {| xml_platforms := xml_platforms sample_xml;
     xml_features := xml_features sample_xml ++ [required_again];
     xml_extensions := xml_extensions sample_xml;
     xml_structs := xml_structs sample_xml |}.

(** The sample registry before the workaround pass. *)
Definition sample_aliased : VulkanRegistry :=
  match parseAliases sample_xml (parsePrerequisites sample_xml sample_parsed) with
  | Ok registry => registry
  | _ => empty_registry
  end.

(** [d'] has every key of [d], in the order of [d] and with a value of the
    same type, and besides them the keys [new]. *)
Definition merge_grows (d d' : dict json) (new : list string) : Prop :=
  (forall k v, dict_get k d = Some v ->
               exists v', dict_get k d' = Some v' /\ type_of v' = type_of v)
  /\ (exists suffix, dict_keys d' = dict_keys d ++ suffix)
  /\ (forall k, dict_mem k d' = true <-> dict_mem k d = true \/ In k new).

(** ** The emitter: private data and descriptors *)

Section PrivateData.

(** [str.upper] *)
Variable upper : string -> string.


(** The lines of [gen_profileDesc] for the two extension arrays of a
    profile: a reference to the array, or a null pointer. *)
Definition instanceExtensions_ref (uname : string) : string :=
  "        &" +:+ uname +:+ "::_instanceExtensions[0], _vpArraySize(" +:+ uname
  +:+ "::_instanceExtensions)," +:+ nl.

Definition deviceExtensions_ref (uname : string) : string :=
  "        &" +:+ uname +:+ "::_deviceExtensions[0], _vpArraySize(" +:+ uname
  +:+ "::_deviceExtensions)" +:+ nl.

(** [if d:] for a dictionary *)
Definition dict_nonempty {V : Type} (d : dict V) : bool :=
  match d with [] => false | _ => true end.

(** The text that [gen_profileDesc] adds for one profile. *)
Definition gen_profileDesc_entry (name : string) (profile : VulkanProfile) : string :=
  let uname := upper name in
  "#ifdef " +:+ name +:+ nl
  +:+ "    _vpProfileDesc{" +:+ nl
  +:+ "        " +:+ uname +:+ "_NAME," +:+ nl
  +:+ "        " +:+ uname +:+ "_SPEC_VERSION," +:+ nl
  +:+ "        " +:+ uname +:+ "_MIN_API_VERSION," +:+ nl
  +:+ (if dict_nonempty (caps_instanceExtensions (profile_capabilities profile))
       then instanceExtensions_ref uname
       else "        nullptr, 0," +:+ nl)
  +:+ (if dict_nonempty (caps_deviceExtensions (profile_capabilities profile))
       then deviceExtensions_ref uname
       else "        nullptr, 0" +:+ nl)
  +:+ "    }," +:+ nl
  +:+ "#endif" +:+ nl.

Definition gen_profileDesc (profiles : dict VulkanProfile) : string :=
  fold_left (fun gen item => gen +:+ gen_profileDesc_entry (fst item) (snd item))
    profiles
    (nl +:+ "static const _vpProfileDesc _vpProfiles[] = {" +:+ nl)
  +:+ "    _vpProfileDesc{ nullptr }" +:+ nl
  +:+ "};" +:+ nl.

End PrivateData.

(** ** Vocabulary of the properties of the resolver *)

(** The instance and the device extension dictionaries give an extension the
    version that the merged extension set gives it. *)
Definition extensions_coherent (capabilities : VulkanProfileCapabilities) : Prop :=
  forall extName specVer,
    (dict_get extName (caps_instanceExtensions capabilities) = Some specVer ->
     dict_get extName (caps_extensions capabilities) = Some specVer)
    /\ (dict_get extName (caps_deviceExtensions capabilities) = Some specVer ->
        dict_get extName (caps_extensions capabilities) = Some specVer).

(** The capability blocks that a profile entry names, in its order. *)
Definition named_capabilities (data : ProfileData) (caps : dict CapabilityData)
  : list CapabilityData :=
  omap (fun capName => dict_get capName caps) (data_capabilities data).

(** The extension items of these blocks, in the order of the merge. *)
Definition named_extensions (data : ProfileData) (caps : dict CapabilityData)
  : list (string * Z) :=
  flat_map (fun c => default [] (data_extensions c)) (named_capabilities data caps).

(** The queue family records of these blocks, in the order of the merge. *)
Definition named_queueFamilies (data : ProfileData) (caps : dict CapabilityData)
  : list (dict json) :=
  flat_map (fun c => default [] (data_queueFamiliesProperties c))
    (named_capabilities data caps).

(** The registry records [extName] with the kind [type]. *)
Definition extension_has_type (registry : VulkanRegistry) (type extName : string)
  : bool :=
  match dict_get extName (extensions registry) with
  | Some extInfo => opt_is (extension_type extInfo) type
  | None => false
  end.

(** A profile entry with another list of capability names. *)
Definition with_capabilities (data : ProfileData) (capabilities : list string)
  : ProfileData :=
  {| data_name := data_name data; data_version := data_version data;
     data_api_version := data_api_version data;
     data_fallback := data_fallback data;
     data_capabilities := capabilities |}.

(** Two capability blocks that name the extension [VK_KHR_swapchain] with
    different versions, each with a queue family record. *)
Definition swapchain_caps : dict CapabilityData :=
  [ ("swapchain_68",
     {| data_extensions := Some [("VK_KHR_swapchain", 68%Z)];
        data_features := None; data_properties := None; data_formats := None;
        data_queueFamiliesProperties :=
          Some [[("VkQueueFamilyProperties", JDict [("queueCount", JInt 1)])]];
        data_memoryProperties := None |});
    ("swapchain_70",
     {| data_extensions := Some [("VK_KHR_swapchain", 70%Z)];
        data_features := None; data_properties := None; data_formats := None;
        data_queueFamiliesProperties :=
          Some [[("VkQueueFamilyProperties", JDict [("queueCount", JInt 4)])]];
        data_memoryProperties := None |}) ].

(** The merged capabilities of a profile entry over the sample registry. *)
Definition sample_merged (data : ProfileData) (caps : dict CapabilityData)
  : VulkanProfileCapabilities :=
  match VulkanProfileCapabilities_init sample_registry data caps with
  | Ok capabilities => capabilities
  | _ => empty_capabilities
  end.

(** The resolution of a profile entry over the sample registry. *)
Definition sample_profile (name : string) (data : ProfileData)
    (caps : dict CapabilityData) : option VulkanProfile :=
  match VulkanProfile_init sample_registry name data caps with
  | Ok profile => Some profile
  | _ => None
  end.

(** ** The emitter: assignments and structure lists *)

Section Assignments.

(** [str(value)], also what [format] gives for a value without a format
    specification. *)
Variable py_str : json -> string.

(** The loop of [gen_listValue]: [separator] is empty before the first
    value and [sep] after it. *)
Fixpoint join_values (separator sep : string) (values : list json) : string :=
  match values with
  | [] => ""
  | value :: rest => separator +:+ py_str value +:+ join_values sep sep rest
  end.

(** [gen_listValue(values, isEnum)], for [values] a list or [None]. *)
Definition gen_listValue (values : option (list json)) (isEnum : bool) : string :=
  (if isEnum then "" else "{ ")
  +:+ match values with
      | Some (value :: rest) =>
          join_values "" (if isEnum then " | " else ", ") (value :: rest)
      | _ => if isEnum then "0" else ""
      end
  +:+ (if isEnum then "" else " }").

(** [for i, v in enumerate(value): gen += ...], from index [i] on. *)
Fixpoint assign_elements (var member : string) (i : nat) (value : list json)
  : string :=
  match value with
  | [] => ""
  | v :: rest =>
      var +:+ member +:+ "[" +:+ str_of_nat i +:+ "] = " +:+ py_str v +:+ ";" +:+ nl
      +:+ assign_elements var member (S i) rest
  end.

(** [isinstance(v, str)] *)
Definition is_str (v : json) : bool :=
  match v with JStr _ => true | _ => false end.

(** The loop of [gen_assignStructVar] over [values.items()]; [recur] is the
    function itself, for the nested structures.  [value[0]] is an
    [IndexError] for an empty list. *)
Fixpoint assign_items
    (recur : VulkanStruct -> string -> json -> outcome string)
    (registry : VulkanRegistry) (structDef : VulkanStruct) (var : string)
    (items : list (string * json)) {struct items} : outcome string :=
  match items with
  | [] => Ok ""
  | (member, value) :: rest =>
      do gen <-
        match dict_get member (members_of registry structDef) with
        | Some memberInfo =>
            match value with
            | JDict _ =>
                match dict_get (member_type memberInfo) (structs registry) with
                | Some memberDef => recur memberDef (var +:+ member +:+ ".") value
                | None => Log.f [not_a_struct_msg member (struct_name structDef)]
                end
            | JList l =>
                if member_isArray memberInfo then
                  Ok (assign_elements var member 0 l)
                else
                  match l with
                  | first :: _ =>
                      Ok (var +:+ member +:+ " = "
                          +:+ gen_listValue (Some l) (is_str first) +:+ ";" +:+ nl)
                  | [] => Raised IndexError
                  end
            | JBool b =>
                Ok (var +:+ member +:+ " = "
                    +:+ (if b then "VK_TRUE" else "VK_FALSE") +:+ ";" +:+ nl)
            | _ => Ok (var +:+ member +:+ " = " +:+ py_str value +:+ ";" +:+ nl)
            end
        | None => Log.f [no_member_msg member (struct_name structDef)]
        end;
      do r <- assign_items recur registry structDef var rest;
      Ok (gen +:+ r)
  end.

(** [gen_assignStructVar(structDef, var, values)].  [values.items()] needs a
    dictionary. *)
Fixpoint gen_assignStructVar (registry : VulkanRegistry)
    (structDef : VulkanStruct) (var : string) (values : json) {struct values}
  : outcome string :=
  match values with
  | JDict items =>
      assign_items (gen_assignStructVar registry) registry structDef var items
  | _ => Raised AttributeError
  end.

End Assignments.

Section StructureLists.

(** [str.upper] *)
Variable upper : string -> string.

(** One name of the features of a profile in [gen_structPropLists]. *)
Definition gen_featureStruct (registry : VulkanRegistry) (gen : string)
    (featureStructName : string) : outcome string :=
  let featureStructName :=
    if String.eqb featureStructName "VkPhysicalDeviceFeatures"
    then "VkPhysicalDeviceFeatures2" else featureStructName in
  match dict_get featureStructName (structs registry) with
  | Some structDef =>
      match struct_sType structDef with
      | Some sType =>
          if negb (existsb (String.eqb "VkPhysicalDeviceFeatures2")
                     (struct_extends structDef ++ [struct_name structDef]))
          then Log.f ["Feature structure '" +:+ featureStructName
                      +:+ "' does not extend VkPhysicalDeviceFeatures2"]
          else Ok (gen +:+ "    { " +:+ sType +:+ ", VP_STRUCTURE_FEATURES }," +:+ nl)
      | None =>
          Log.f ["Feature structure '" +:+ featureStructName
                 +:+ "' is not chainable"]
      end
  | None =>
      Log.f ["Feature structure '" +:+ featureStructName +:+ "' does not exist"]
  end.

(** One name of the properties of a profile in [gen_structPropLists]. *)
Definition gen_propertyStruct (registry : VulkanRegistry) (gen : string)
    (propertyStructName : string) : outcome string :=
  let propertyStructName :=
    if String.eqb propertyStructName "VkPhysicalDeviceProperties"
    then "VkPhysicalDeviceProperties2" else propertyStructName in
  match dict_get propertyStructName (structs registry) with
  | Some structDef =>
      match struct_sType structDef with
      | Some sType =>
          if negb (existsb (String.eqb "VkPhysicalDeviceProperties2")
                     ([struct_name structDef] ++ struct_extends structDef))
          then Log.f ["Properties structure '" +:+ propertyStructName
                      +:+ "' does not extend VkPhysicalDeviceProperties2"]
          else Ok (gen +:+ "    { " +:+ sType +:+ ", VP_STRUCTURE_PROPERTIES }," +:+ nl)
      | None =>
          Log.f ["Properties structure '" +:+ propertyStructName
                 +:+ "' is not chainable"]
      end
  | None =>
      Log.f ["Properties structure '" +:+ propertyStructName
             +:+ "' does not exist"]
  end.

(** [gen_structPropLists]: the features and the properties of the
    capabilities are dictionaries, never [None]. *)
Definition gen_structPropLists (registry : VulkanRegistry)
    (profiles : dict VulkanProfile) : outcome string :=
  for_each
    (fun gen (item : string * VulkanProfile) =>
       let '(name, profile) := item in
       let gen :=
         gen +:+ nl +:+ "#ifdef " +:+ name +:+ nl
             +:+ "static const VpStructureProperties _" +:+ upper name
             +:+ "_STRUCTURE_PROPERTIES[] = {" +:+ nl in
       do gen <- for_each (gen_featureStruct registry)
                   (dict_keys (caps_features (profile_capabilities profile))) gen;
       do gen <- for_each (gen_propertyStruct registry)
                   (dict_keys (caps_properties (profile_capabilities profile))) gen;
       Ok (gen +:+ "};" +:+ nl +:+ "#endif" +:+ nl))
    profiles "".

End StructureLists.

(** ** Vocabulary of the properties of the emitter *)

(** A structure that [gen_structPropLists] accepts in a list: the structure
    [wrapper] stands for [wrapped]; the structure is registered, has an
    [sType], and is [wrapper] or names it in its own [structextends]. *)
Definition listable (registry : VulkanRegistry) (wrapped wrapper name : string)
  : Prop :=
  exists structDef sType,
    dict_get (if String.eqb name wrapped then wrapper else name) (structs registry)
    = Some structDef
    /\ struct_sType structDef = Some sType
    /\ (struct_name structDef = wrapper \/ In wrapper (struct_extends structDef)).

(** A structure with the members of a capability test: a scalar, a list of
    flags and an array. *)
Definition assign_registry : VulkanRegistry :=
  {| platforms := []; versions := []; extensions := [];
     structs :=
       [("VkSample",
         {| struct_name := "VkSample"; struct_sType := None; struct_extends := [];
            struct_members := 0; struct_aliases := 0;
            struct_definedByVersion := None; struct_definedByExtensions := [] |})];
     member_tables :=
       [[("count", {| member_name := "count"; member_type := "uint32_t";
                      member_limittype := Some "max"; member_isArray := false |});
         ("flags", {| member_name := "flags"; member_type := "VkSampleFlags";
                      member_limittype := Some "bitmask"; member_isArray := false |});
         ("sizes", {| member_name := "sizes"; member_type := "uint32_t";
                      member_limittype := Some "max"; member_isArray := true |})]];
     alias_lists := [["VkSample"]] |}.

Definition assign_struct : VulkanStruct :=
  {| struct_name := "VkSample"; struct_sType := None; struct_extends := [];
     struct_members := 0; struct_aliases := 0;
     struct_definedByVersion := None; struct_definedByExtensions := [] |}.

(** [str] on the integers and the strings of the samples. *)
Definition sample_str (v : json) : string :=
  match v with
  | JInt z => str_of_Z z
  | JStr s => s
  | _ => ""
  end.

(** A value without arrays in which no object has a key twice, as the
    objects that [json.load] gives. *)
Fixpoint scalar_tree_items (recur : json -> bool) (items : list (string * json))
  : bool :=
  match items with
  | [] => true
  | (key, val) :: rest =>
      negb (dict_mem key rest) && recur val && scalar_tree_items recur rest
  end.

Fixpoint scalar_tree (v : json) : bool :=
  match v with
  | JList _ => false
  | JDict items => scalar_tree_items scalar_tree items
  | _ => true
  end.

(** * Properties *)

(** ** The regular expressions *)

Example re_version_number_ex :
  map re_version_number ["1.2"; "1.10"; "1.2.0"; "0.9"; "1."; "12.0"; "1.2x"]
  = [true; true; false; false; false; true; false].
Proof. reflexivity. Qed.

Example re_api_version_ex :
  map re_api_version ["1.2.0"; "1.2"; "1.2.198"; "1.1-beta"; "01.2.0"; "1.23"]
  = [Some "1.2"; None; Some "1.2"; Some "1.1"; None; None].
Proof. reflexivity. Qed.


(** ** The sample registry *)

Lemma sample_registry_loaded : VulkanRegistry_init sample_xml = Ok sample_registry.
Proof. vm_compute. reflexivity. Qed.

(** ** Loops *)

Lemma for_each_app {A S : Type} (body : S -> A -> outcome S) (xs ys : list A) (st : S) :
  for_each body (xs ++ ys) st = do st' <- for_each body xs st; for_each body ys st'.
Proof.
  revert st. induction xs as [|x xs IH]; intros st; simpl; [reflexivity|].
  destruct (body st x); simpl; auto.
Qed.

(** A loop whose body only ever raises [e] raises [e] as soon as one
    iteration does. *)
Lemma for_each_raises {A S : Type} (body : S -> A -> outcome S) (e : pyexc)
    (bad : A -> Prop) (xs : list A) :
  (forall st x, bad x -> body st x = Raised e) ->
  (forall st x, ~ bad x -> exists st', body st x = Ok st') ->
  (forall x, bad x \/ ~ bad x) ->
  (exists x, In x xs /\ bad x) ->
  forall st, for_each body xs st = Raised e.
Proof.
  intros Hbad Hgood Hdec.
  induction xs as [|x xs IH]; intros [y [Hin Hy]] st.
  - destruct Hin.
  - simpl. destruct (Hdec x) as [Hx|Hx].
    + rewrite (Hbad st x Hx). reflexivity.
    + destruct (Hgood st x Hx) as [st' ->]. simpl.
      apply IH. exists y. destruct Hin as [->|Hin]; [contradiction|auto].
Qed.

(** ** C6: a feature number that is not a version number *)

(** C6 (code at the failing inputs). When some top-level feature node has a
    number that the version pattern does not match, [parseVersionInfo] ends
    with a [TypeError], the one of calling [Log.f] with two arguments, and
    so does the whole registry load: no fatal error carrying the number is
    raised. *)
Theorem parseVersionInfo_bad_number_TypeError :
  forall (xml : XmlRegistry) (self : VulkanRegistry),
    (exists feature, In feature (xml_features xml)
                     /\ re_version_number (feature_number feature) = false) ->
    parseVersionInfo xml self = Raised TypeError
    /\ VulkanRegistry_init xml = Raised TypeError.
Proof.
  intros xml self Hbad.
  assert (Hloop : forall acc,
             for_each
               (fun acc feature =>
                  if re_version_number (feature_number feature)
                  then Ok (dict_set (feature_number feature)
                             (VulkanVersion_init feature) acc)
                  else Log.f ["Unsupported feature with number '{0}'";
                              feature_number feature])
               (xml_features xml) acc = Raised TypeError).
  { apply (for_each_raises _ TypeError
             (fun feature => re_version_number (feature_number feature) = false)).
    - intros st x Hx. rewrite Hx. reflexivity.
    - intros st x Hx. destruct (re_version_number (feature_number x)); eauto.
      contradiction Hx; reflexivity.
    - intros x. destruct (re_version_number (feature_number x)); auto.
    - exact Hbad. }
  split.
  - unfold parseVersionInfo. rewrite Hloop. reflexivity.
  - unfold VulkanRegistry_init, parseVersionInfo. rewrite Hloop. reflexivity.
Qed.

Lemma parseVersionInfo_bad_number_TypeError_witness :
  (exists feature, In feature (xml_features bad_version_xml)
                   /\ re_version_number (feature_number feature) = false)
  /\ parseVersionInfo bad_version_xml empty_registry = Raised TypeError
  /\ VulkanRegistry_init bad_version_xml = Raised TypeError.
Proof.
  assert (H : exists feature, In feature (xml_features bad_version_xml)
                   /\ re_version_number (feature_number feature) = false).
  { exists {| feature_name := "VK_VERSION_1_3_0"; feature_number := "1.3.0";
              feature_enums := []; feature_types := [] |}.
    split; [simpl; tauto | reflexivity]. }
  split; [exact H|].
  exact (parseVersionInfo_bad_number_TypeError bad_version_xml empty_registry H).
Defined.

(** ** C10: an API version without a third component *)

Lemma span_digits_all (s : string) :
  all_digits s = true -> span_digits s = (s, EmptyString).
Proof.
  induction s as [|c r IH]; simpl; [reflexivity|].
  intros H. apply andb_prop in H as [Hc Hr]. rewrite Hc, (IH Hr). reflexivity.
Qed.

Lemma span_digits_stop (ds : string) (x : ascii) (r : string) :
  all_digits ds = true -> is_digit x = false ->
  span_digits (ds +:+ String x r) = (ds, String x r).
Proof.
  intros Hds Hx. induction ds as [|c ds IH]; simpl.
  - rewrite Hx. reflexivity.
  - simpl in Hds. apply andb_prop in Hds as [Hc Hr].
    rewrite Hc, (IH Hr). reflexivity.
Qed.

Lemma re_api_version_major_minor (major minor : string) :
  all_digits major = true -> all_digits minor = true ->
  re_api_version (major +:+ "." +:+ minor) = None.
Proof.
  intros Hmaj Hmin. unfold re_api_version, match_major_minor.
  destruct major as [|c major]; simpl.
  - reflexivity.
  - destruct (is_digit19 c); [|reflexivity].
    simpl in Hmaj. apply andb_prop in Hmaj as [_ Hmaj].
    change (major +:+ "." +:+ minor) with (major +:+ String "."%char minor).
    rewrite (span_digits_stop major "."%char minor Hmaj eq_refl).
    simpl. rewrite (span_digits_all minor Hmin).
    destruct minor; reflexivity.
Qed.

(** C10. A profile whose api-version is a bare major.minor pair (digits, a
    dot, digits) does not resolve: the requirements step ends with the fatal
    error for an invalid version number, and so does the resolution of the
    profile once its capabilities have been merged. *)
Theorem bare_major_minor_is_invalid :
  forall (registry : VulkanRegistry) (name : string) (data : ProfileData)
         (caps : dict CapabilityData) (major minor : string),
    all_digits major = true -> all_digits minor = true ->
    data_api_version data = major +:+ "." +:+ minor ->
    (forall capabilities,
        collectCompileTimeRequirements registry name (data_api_version data)
          capabilities
        = Fatal (invalid_version_msg (data_api_version data) name))
    /\ (forall capabilities,
           VulkanProfileCapabilities_init registry data caps = Ok capabilities ->
           VulkanProfile_init registry name data caps
           = Fatal (invalid_version_msg (data_api_version data) name))
    /\ is_ok (VulkanProfile_init registry name data caps) = false.
Proof.
  intros registry name data caps major minor Hmaj Hmin Hapi.
  assert (Hc : forall capabilities,
             collectCompileTimeRequirements registry name (data_api_version data)
               capabilities
             = Fatal (invalid_version_msg (data_api_version data) name)).
  { intros capabilities. unfold collectCompileTimeRequirements.
    rewrite Hapi, (re_api_version_major_minor major minor Hmaj Hmin).
    reflexivity. }
  split; [exact Hc|]. split.
  - intros capabilities Hcaps. unfold VulkanProfile_init.
    rewrite Hcaps. simpl. rewrite Hc. reflexivity.
  - unfold VulkanProfile_init.
    destruct (VulkanProfileCapabilities_init registry data caps); simpl;
      try reflexivity.
    rewrite Hc. reflexivity.
Qed.

Lemma bare_major_minor_is_invalid_witness :
  VulkanProfile_init sample_registry "VP_SAMPLE_baseline"
    (sample_profile_data "1.2" ["baseline"]) sample_caps
  = Fatal "Invalid version number '1.2' in profile 'VP_SAMPLE_baseline'".
Proof.
  refine (proj1 (proj2 (bare_major_minor_is_invalid sample_registry
            "VP_SAMPLE_baseline" (sample_profile_data "1.2" ["baseline"])
            sample_caps "1" "2" eq_refl eq_refl eq_refl)) _ _).
  vm_compute. reflexivity.
Defined.

(** ** Strings *)

Lemma append_assoc (a b c : string) : (a +:+ b) +:+ c = a +:+ (b +:+ c).
Proof.
  induction a as [|x a IH]; [reflexivity|].
  change (String x ((a +:+ b) +:+ c) = String x (a +:+ (b +:+ c))).
  rewrite IH. reflexivity.
Qed.

Lemma append_nil_r (a : string) : a +:+ "" = a.
Proof.
  induction a as [|x a IH]; [reflexivity|].
  change (String x (a +:+ "") = String x a). rewrite IH. reflexivity.
Qed.

(** ** C8: the guard of a profile on API version 1.2.0 without extensions *)

Lemma for_each_nil {A S : Type} (body : S -> A -> outcome S) (st : S) :
  for_each body [] st = Ok st.
Proof. reflexivity. Qed.

(** The text for the profiles of a dictionary is the text for the first
    ones followed by the text for the others. *)
Lemma gen_profileDefs_from (upper : string -> string)
    (profiles : dict VulkanProfile) (gen : string) :
  fold_left (fun gen item => gen +:+ gen_profileDef upper (fst item) (snd item))
    profiles gen
  = gen +:+ gen_profileDefs upper profiles.
Proof.
  unfold gen_profileDefs. revert gen.
  induction profiles as [|item profiles IH]; intros gen.
  - simpl. symmetry. apply append_nil_r.
  - cbn [fold_left]. rewrite IH, (IH ("" +:+ _)), append_assoc. reflexivity.
Qed.

Lemma gen_profileDefs_app (upper : string -> string)
    (before after : dict VulkanProfile) :
  gen_profileDefs upper (before ++ after)
  = gen_profileDefs upper before +:+ gen_profileDefs upper after.
Proof.
  unfold gen_profileDefs at 1. rewrite fold_left_app.
  fold (gen_profileDefs upper before). apply gen_profileDefs_from.
Qed.

(** C8. A resolved profile whose api-version is "1.2.0" and whose merged
    extension set is empty has a single requirement, the name of the
    registry version numbered "1.2"; in the header that [gen_profileDefs]
    emits for a dictionary of profiles, the text for the profiles before it
    is followed by its block, which opens with the guard
    [#if defined(<that name>)] alone and defines its minimum API version as
    [VK_MAKE_VERSION(1, 2, 0)], and then by the text for the profiles after
    it. *)
Theorem profile_1_2_0_guard :
  forall (upper : string -> string) (registry : VulkanRegistry) (name : string)
         (data : ProfileData) (caps : dict CapabilityData) (p : VulkanProfile)
         (before after : dict VulkanProfile) (key : string),
    VulkanProfile_init registry name data caps = Ok p ->
    data_api_version data = "1.2.0" ->
    caps_extensions (profile_capabilities p) = [] ->
    exists v,
      dict_get "1.2" (versions registry) = Some v
      /\ profile_requirements p = [version_name v]
      /\ gen_profileDefs upper (before ++ (key, p) :: after)
         = gen_profileDefs upper before
           +:+ (nl
                +:+ "#if defined(" +:+ version_name v +:+ ")" +:+ nl
                +:+ "#define " +:+ key +:+ " 1" +:+ nl
                +:+ "#define " +:+ upper key +:+ "_NAME " +:+ quoted key +:+ nl
                +:+ "#define " +:+ upper key +:+ "_SPEC_VERSION "
                    +:+ str_of_Z (data_version data) +:+ nl
                +:+ "#define " +:+ upper key
                    +:+ "_MIN_API_VERSION VK_MAKE_VERSION(1, 2, 0)" +:+ nl
                +:+ "#endif" +:+ nl)
           +:+ gen_profileDefs upper after.
Proof.
  intros upper registry name data caps p before after key Hinit Hapi Hext.
  unfold VulkanProfile_init in Hinit.
  destruct (VulkanProfileCapabilities_init registry data caps)
    as [capabilities| |]; simpl in Hinit; try discriminate.
  destruct (collectCompileTimeRequirements registry name (data_api_version data)
              capabilities) as [requirements| |] eqn:Hreq;
    simpl in Hinit; try discriminate.
  destruct (validate registry name (data_api_version data) capabilities);
    simpl in Hinit; try discriminate.
  injection Hinit as <-. simpl in Hext.
  unfold collectCompileTimeRequirements in Hreq.
  rewrite Hapi, Hext in Hreq.
  change (re_api_version "1.2.0") with (Some "1.2") in Hreq.
  cbv beta iota in Hreq.
  destruct (dict_get "1.2" (versions registry)) as [v|] eqn:Hv;
    try rewrite Hv in Hreq; simpl in Hreq; try discriminate.
  injection Hreq as <-.
  exists v. split; [reflexivity|]. split; [reflexivity|].
  assert (Hguard : gen_requirements true [version_name v]
                   = "#if defined(" +:+ version_name v +:+ ")" +:+ nl).
  { cbn [gen_requirements]. rewrite append_nil_r. reflexivity. }
  rewrite gen_profileDefs_app.
  change ((key, ?x) :: after) with ([(key, x)] ++ after).
  rewrite gen_profileDefs_app. f_equal. f_equal.
  unfold gen_profileDefs. cbn [fold_left fst snd]. unfold gen_profileDef.
  cbn [profile_requirements profile_version profile_apiVersion].
  rewrite Hguard, Hapi. rewrite !append_assoc. reflexivity.
Qed.

Lemma profile_1_2_0_guard_witness :
  exists p,
    VulkanProfile_init sample_registry "VP_SAMPLE_baseline"
      (sample_profile_data "1.2.0" ["baseline"]) sample_caps = Ok p
    /\ gen_profileDefs ascii_upper [("VP_SAMPLE_baseline", p)]
       = nl +:+ "#if defined(VK_VERSION_1_2)" +:+ nl
         +:+ "#define VP_SAMPLE_baseline 1" +:+ nl
         +:+ "#define VP_SAMPLE_BASELINE_NAME " +:+ quoted "VP_SAMPLE_baseline" +:+ nl
         +:+ "#define VP_SAMPLE_BASELINE_SPEC_VERSION 1" +:+ nl
         +:+ "#define VP_SAMPLE_BASELINE_MIN_API_VERSION VK_MAKE_VERSION(1, 2, 0)" +:+ nl
         +:+ "#endif" +:+ nl.
Proof.
  destruct (VulkanProfile_init sample_registry "VP_SAMPLE_baseline"
              (sample_profile_data "1.2.0" ["baseline"]) sample_caps)
    as [p| |] eqn:Hp; [|vm_compute in Hp; discriminate..].
  exists p. split; [reflexivity|].
  destruct (profile_1_2_0_guard ascii_upper sample_registry "VP_SAMPLE_baseline"
              (sample_profile_data "1.2.0" ["baseline"]) sample_caps p [] []
              "VP_SAMPLE_baseline" Hp eq_refl)
    as [v [Hv [_ Hgen]]].
  - vm_compute in Hp. injection Hp as <-. reflexivity.
  - change ([("VP_SAMPLE_baseline", p)])
      with ([] ++ ("VP_SAMPLE_baseline", p) :: ([] : dict VulkanProfile)).
    rewrite Hgen. vm_compute in Hv. injection Hv as <-. reflexivity.
Defined.

(** ** Dictionaries *)

Lemma dict_get_set_eq {V : Type} (k : string) (v : V) (d : dict V) :
  dict_get k (dict_set k v d) = Some v.
Proof.
  induction d as [|[k' v'] d IH]; simpl.
  - rewrite String.eqb_refl. reflexivity.
  - destruct (String.eqb k k') eqn:E; simpl.
    + rewrite String.eqb_refl. reflexivity.
    + rewrite E. exact IH.
Qed.

Lemma dict_get_set_ne {V : Type} (k k' : string) (v : V) (d : dict V) :
  k <> k' -> dict_get k (dict_set k' v d) = dict_get k d.
Proof.
  intros Hne. apply String.eqb_neq in Hne.
  induction d as [|[k2 v2] d IH]; simpl.
  - rewrite Hne. reflexivity.
  - destruct (String.eqb k' k2) eqn:E; simpl.
    + apply String.eqb_eq in E. subst k2. rewrite Hne. reflexivity.
    + rewrite IH. reflexivity.
Qed.

Lemma dict_get_set {V : Type} (k k' : string) (v : V) (d : dict V) :
  dict_get k (dict_set k' v d) = if String.eqb k k' then Some v else dict_get k d.
Proof.
  destruct (String.eqb k k') eqn:E.
  - apply String.eqb_eq in E. subst. apply dict_get_set_eq.
  - apply String.eqb_neq in E. apply dict_get_set_ne. exact E.
Qed.

Lemma dict_mem_set {V : Type} (k k' : string) (v : V) (d : dict V) :
  dict_mem k (dict_set k' v d) = String.eqb k k' || dict_mem k d.
Proof.
  unfold dict_mem. rewrite dict_get_set. destruct (String.eqb k k'); reflexivity.
Qed.

(** Storing the value that is already there changes nothing. *)
Lemma dict_set_same {V : Type} (k : string) (v : V) (d : dict V) :
  dict_get k d = Some v -> dict_set k v d = d.
Proof.
  induction d as [|[k' v'] d IH]; simpl; [discriminate|].
  destruct (String.eqb k k') eqn:E.
  - apply String.eqb_eq in E. subst k'. intros [= ->]. reflexivity.
  - intros H. rewrite (IH H). reflexivity.
Qed.

Lemma dict_get_In {V : Type} (k : string) (v : V) (d : dict V) :
  dict_get k d = Some v -> In k (dict_keys d).
Proof.
  induction d as [|[k' v'] d IH]; simpl; [discriminate|].
  destruct (String.eqb k k') eqn:E.
  - apply String.eqb_eq in E. auto.
  - auto.
Qed.

Lemma dict_keys_get {V : Type} (k : string) (d : dict V) :
  In k (dict_keys d) -> exists v, dict_get k d = Some v.
Proof.
  induction d as [|[k' v'] d IH]; simpl; [tauto|].
  intros [->|H].
  - rewrite String.eqb_refl. eauto.
  - destruct (String.eqb k k'); eauto.
Qed.

(** ** C2: merging capability data *)

(** One step of the loop of [mergeProfileCapData] over the items of the
    source dictionary. *)
Lemma mergeProfileCapData_items (d : dict json) (items : list (string * json)) :
  mergeProfileCapData (JDict d) (JDict items)
  = do d' <- merge_items mergeProfileCapData items d; Ok (JDict d').
Proof. reflexivity. Qed.

Lemma bind_assoc {A B C : Type} (c : outcome A) (f : A -> outcome B)
    (g : B -> outcome C) :
  bind (bind c f) g = bind c (fun a => bind (f a) g).
Proof. destruct c; reflexivity. Qed.

Lemma mergeProfileCapData_step (d : dict json) (key : string) (val : json)
    (rest : list (string * json)) :
  mergeProfileCapData (JDict d) (JDict ((key, val) :: rest))
  = match val with
    | JDict _ =>
        let d1 := if dict_mem key d then d else dict_set key (JDict []) d in
        do sub <- dict_item key d1;
        do merged <- mergeProfileCapData sub val;
        mergeProfileCapData (JDict (dict_set key merged d1)) (JDict rest)
    | JList l =>
        let d1 := if dict_mem key d then d else dict_set key (JList []) d in
        do cur <- dict_item key d1;
        match cur with
        | JList old =>
            mergeProfileCapData (JDict (dict_set key (JList (old ++ l)) d1))
              (JDict rest)
        | _ => Raised AttributeError
        end
    | _ =>
        match dict_get key d with
        | Some cur =>
            if negb (pytype_eqb (type_of cur) (type_of val)) then
              Log.f [conflict_msg (type_of val) (type_of cur)]
            else mergeProfileCapData (JDict (dict_set key val d)) (JDict rest)
        | None => mergeProfileCapData (JDict (dict_set key val d)) (JDict rest)
        end
    end.
Proof.
  rewrite mergeProfileCapData_items.
  destruct val; cbn [merge_items];
    try (destruct (dict_get key d) as [cur|]; [|reflexivity];
         destruct (negb (pytype_eqb (type_of cur) _)); reflexivity).
  - cbv zeta. rewrite bind_assoc.
    destruct (dict_item key (if dict_mem key d then d else dict_set key (JList []) d))
      as [cur| |]; try reflexivity.
    destruct cur; reflexivity.
  - cbv zeta. rewrite !bind_assoc.
    destruct (dict_item key (if dict_mem key d then d else dict_set key (JDict []) d))
      as [sub| |]; try reflexivity.
    cbn [bind]. rewrite bind_assoc. reflexivity.
Qed.

Lemma mergeProfileCapData_done (d : dict json) :
  mergeProfileCapData (JDict d) (JDict []) = Ok (JDict d).
Proof. reflexivity. Qed.

(** A scalar or boolean overwrites a value of its own type, or is added. *)
Lemma merge_scalar_overwrites (d : dict json) (key : string) (val : json)
    (rest : list (string * json)) :
  is_scalar val = true ->
  (forall cur, dict_get key d = Some cur -> type_of cur = type_of val) ->
  mergeProfileCapData (JDict d) (JDict ((key, val) :: rest))
  = mergeProfileCapData (JDict (dict_set key val d)) (JDict rest).
Proof.
  intros Hs Hty. rewrite mergeProfileCapData_step.
  destruct (dict_get key d) as [cur|] eqn:Hget.
  - rewrite (Hty cur eq_refl).
    destruct val; try discriminate; reflexivity.
  - destruct val; try discriminate; reflexivity.
Qed.

(** Two fragments that set the same scalar member: the later value stays. *)
Lemma merge_same_scalar_later_wins (d : dict json) (key : string) (v1 v2 : json) :
  is_scalar v1 = true -> is_scalar v2 = true -> type_of v1 = type_of v2 ->
  dict_get key d = None ->
  (do d1 <- mergeProfileCapData (JDict d) (JDict [(key, v1)]);
   mergeProfileCapData d1 (JDict [(key, v2)]))
  = Ok (JDict (dict_set key v2 (dict_set key v1 d)))
  /\ dict_get key (dict_set key v2 (dict_set key v1 d)) = Some v2.
Proof.
  intros H1 H2 Hty Hnone. split; [|apply dict_get_set_eq].
  rewrite merge_scalar_overwrites, mergeProfileCapData_done; auto.
  - cbn [bind]. rewrite merge_scalar_overwrites, mergeProfileCapData_done; auto.
    intros cur. rewrite dict_get_set_eq. intros [= <-]. exact Hty.
  - intros cur. rewrite Hnone. discriminate.
Qed.

(** A scalar of another type than the value in place is a conflict. *)
Lemma merge_scalar_conflict (d : dict json) (key : string) (val cur : json)
    (rest : list (string * json)) :
  is_scalar val = true -> dict_get key d = Some cur -> type_of cur <> type_of val ->
  mergeProfileCapData (JDict d) (JDict ((key, val) :: rest))
  = Fatal (conflict_msg (type_of val) (type_of cur)).
Proof.
  intros Hs Hget Hty. rewrite mergeProfileCapData_step, Hget.
  assert (E : pytype_eqb (type_of cur) (type_of val) = false).
  { destruct (type_of cur), (type_of val); try reflexivity; contradiction Hty;
      reflexivity. }
  rewrite E. destruct val; try discriminate; reflexivity.
Qed.

(** An object merged onto a value that is not an object is a conflict. *)
Lemma merge_object_conflict (d : dict json) (key : string)
    (items : list (string * json)) (cur : json) (rest : list (string * json)) :
  dict_get key d = Some cur -> type_of cur <> dict_t ->
  mergeProfileCapData (JDict d) (JDict ((key, JDict items) :: rest))
  = Fatal (conflict_msg dict_t (type_of cur)).
Proof.
  intros Hget Hty. rewrite mergeProfileCapData_step.
  unfold dict_mem, dict_item. rewrite Hget. cbv zeta. rewrite Hget. simpl.
  destruct cur; try reflexivity. contradiction Hty; reflexivity.
Qed.

(** An object merged onto an object, or onto nothing, recurses. *)
Lemma merge_object_recurses (d : dict json) (key : string)
    (items : list (string * json)) (rest : list (string * json)) :
  (forall cur, dict_get key d = Some cur -> exists sub, cur = JDict sub) ->
  mergeProfileCapData (JDict d) (JDict ((key, JDict items) :: rest))
  = do merged <- mergeProfileCapData
                   (match dict_get key d with Some sub => sub | None => JDict [] end)
                   (JDict items);
    mergeProfileCapData
      (JDict (dict_set key merged
                (if dict_mem key d then d else dict_set key (JDict []) d)))
      (JDict rest).
Proof.
  intros Hcur. rewrite mergeProfileCapData_step.
  unfold dict_mem, dict_item. destruct (dict_get key d) as [cur|] eqn:Hget;
    cbv zeta.
  - rewrite Hget. reflexivity.
  - rewrite dict_get_set_eq. reflexivity.
Qed.

(** An array is appended to the array in place, or to a new empty one. *)
Lemma merge_array_concatenates (d : dict json) (key : string) (l : list json)
    (rest : list (string * json)) :
  (forall cur, dict_get key d = Some cur -> exists old, cur = JList old) ->
  mergeProfileCapData (JDict d) (JDict ((key, JList l) :: rest))
  = mergeProfileCapData
      (JDict (dict_set key
                (JList (match dict_get key d with
                        | Some (JList old) => old
                        | _ => []
                        end ++ l))
                (if dict_mem key d then d else dict_set key (JList []) d)))
      (JDict rest).
Proof.
  intros Hcur. rewrite mergeProfileCapData_step.
  unfold dict_mem, dict_item. destruct (dict_get key d) as [cur|] eqn:Hget;
    cbv zeta.
  - rewrite Hget. destruct (Hcur cur eq_refl) as [old ->]. reflexivity.
  - rewrite dict_get_set_eq. reflexivity.
Qed.

(** C2 (code at the failing inputs). An array merged onto a value in place
    that is not an array ends with an [AttributeError], that of calling
    [extend] on the value in place: no conflict error is raised, whereas a
    scalar or an object in the same situation raises one
    ([merge_scalar_conflict], [merge_object_conflict]). *)
Theorem merge_array_onto_other_AttributeError :
  forall (d : dict json) (key : string) (cur : json) (l : list json)
         (rest : list (string * json)),
    dict_get key d = Some cur -> type_of cur <> list_t ->
    mergeProfileCapData (JDict d) (JDict ((key, JList l) :: rest))
    = Raised AttributeError.
Proof.
  intros d key cur l rest Hget Hty. rewrite mergeProfileCapData_step.
  unfold dict_mem, dict_item. rewrite Hget. cbv zeta. rewrite Hget. simpl.
  destruct cur; try reflexivity. contradiction Hty; reflexivity.
Qed.

Lemma merge_array_onto_other_AttributeError_witness :
  mergeProfileCapData (JDict [("maxColorAttachments", JInt 8)])
    (JDict [("maxColorAttachments", JList [JInt 8])])
  = Raised AttributeError.
Proof.
  apply (merge_array_onto_other_AttributeError
           [("maxColorAttachments", JInt 8)] "maxColorAttachments" (JInt 8)
           [JInt 8] []).
  - reflexivity.
  - discriminate.
Defined.

(** The same through the resolution of a profile: the second capability
    block gives an array where the first gave an integer. *)
Example profile_array_onto_scalar :
  VulkanProfile_init sample_registry "VP_SAMPLE_limits"
    (sample_profile_data "1.2.0" ["limits"; "limits_as_list"]) sample_caps
  = Raised AttributeError.
Proof. vm_compute. reflexivity. Qed.

Example profile_scalar_onto_array :
  VulkanProfile_init sample_registry "VP_SAMPLE_limits"
    (sample_profile_data "1.2.0" ["limits_as_list"; "limits"]) sample_caps
  = Fatal (conflict_msg int_t list_t).
Proof. vm_compute. reflexivity. Qed.

(** ** More on loops *)

Lemma for_each_map {A B S : Type} (body : S -> B -> outcome S) (g : A -> B)
    (xs : list A) (st : S) :
  for_each body (map g xs) st = for_each (fun st x => body st (g x)) xs st.
Proof.
  revert st. induction xs as [|x xs IH]; intros st; simpl; [reflexivity|].
  destruct (body st (g x)); simpl; auto.
Qed.

Lemma for_each_invariant {A S : Type} (body : S -> A -> outcome S) (P : S -> Prop)
    (xs : list A) :
  (forall st x st', P st -> body st x = Ok st' -> P st') ->
  forall st st', P st -> for_each body xs st = Ok st' -> P st'.
Proof.
  intros Hstep. induction xs as [|x xs IH]; intros st st' HP; simpl.
  - intros [= <-]. exact HP.
  - destruct (body st x) as [st1| |] eqn:E; simpl; try discriminate.
    apply IH. exact (Hstep st x st1 HP E).
Qed.

(** A loop whose body returns or is fatal is fatal as soon as one iteration
    is. *)
Lemma for_each_fatal {A S : Type} (body : S -> A -> outcome S) (bad : A -> bool)
    (xs : list A) :
  (forall st x, bad x = true -> fatal (body st x)) ->
  (forall st x, bad x = false -> (exists st', body st x = Ok st') \/ fatal (body st x)) ->
  (exists x, In x xs /\ bad x = true) ->
  forall st, fatal (for_each body xs st).
Proof.
  intros Hbad Hgood.
  induction xs as [|x xs IH]; intros [y [Hin Hy]] st.
  - destruct Hin.
  - simpl. destruct (bad x) eqn:Hx.
    + destruct (Hbad st x Hx) as [msg ->]. exists msg. reflexivity.
    + destruct (Hgood st x Hx) as [[st' ->]|[msg ->]].
      * simpl. apply IH. exists y. destruct Hin as [->|Hin]; [congruence|auto].
      * exists msg. reflexivity.
Qed.

Lemma for_each_unit {A : Type} (f : A -> outcome unit) (xs : list A) :
  for_each (fun _ x => f x) xs tt = Ok tt -> forall x, In x xs -> f x = Ok tt.
Proof.
  induction xs as [|x xs IH]; simpl; [tauto|].
  destruct (f x) as [[]| |] eqn:E; simpl; try discriminate.
  intros H y [<-|Hy]; auto.
Qed.

(** ** C5: profile names defined in several files *)

Lemma loadFromDir_definitions_from (registry : VulkanRegistry)
    (entries : list DirEntry) (profiles : dict VulkanProfile) :
  for_each
    (fun profiles entry =>
       if entry_isfile entry && has_json_extension (entry_filename entry) then
         parseProfiles registry profiles
           (file_profiles (entry_json entry)) (file_capabilities (entry_json entry))
       else Ok profiles)
    entries profiles
  = for_each (register_definition registry) (profile_definitions entries) profiles.
Proof.
  revert profiles. induction entries as [|e entries IH]; intros profiles;
    [reflexivity|].
  unfold profile_definitions. simpl.
  fold (profile_definitions entries). rewrite for_each_app.
  destruct (entry_isfile e && has_json_extension (entry_filename e)).
  - unfold parseProfiles. rewrite for_each_map.
    assert (E : forall A (xs : list A) f g (st : dict VulkanProfile),
               (forall st x, f st x = g st x) -> for_each f xs st = for_each g xs st).
    { intros A xs f g st Hfg. revert st.
      induction xs as [|x xs IHx]; intros st; simpl; [reflexivity|].
      rewrite Hfg. destruct (g st x); simpl; auto. }
    rewrite (E _ _ _ (fun st x =>
               register_definition registry st
                 (x.1, x.2, file_capabilities (entry_json e)))).
    + destruct (for_each _ (file_profiles (entry_json e)) profiles); simpl; auto.
    + intros st [name data]. reflexivity.
  - simpl. apply IH.
Qed.

Lemma loadFromDir_definitions (registry : VulkanRegistry) (entries : list DirEntry) :
  loadFromDir registry entries
  = for_each (register_definition registry) (profile_definitions entries) [].
Proof. apply loadFromDir_definitions_from. Qed.

Lemma register_all (registry : VulkanRegistry)
    (definitions : list (string * ProfileData * dict CapabilityData)) :
  (forall name data caps,
      In (name, data, caps) definitions ->
      is_ok (VulkanProfile_init registry name data caps) = true) ->
  forall acc,
  exists profiles,
    for_each (register_definition registry) definitions acc = Ok profiles
    /\ (forall name, ~ In name (map (fun d => fst (fst d)) definitions) ->
                     dict_get name profiles = dict_get name acc)
    /\ (forall before name data caps after p,
           definitions = before ++ (name, data, caps) :: after ->
           ~ In name (map (fun d => fst (fst d)) after) ->
           VulkanProfile_init registry name data caps = Ok p ->
           dict_get name profiles = Some p).
Proof.
  induction definitions as [|[[n d] c] definitions IH]; intros Hall acc.
  - exists acc. split; [reflexivity|]. split; [reflexivity|].
    intros before name data caps after p H. destruct before; discriminate.
  - assert (Hn : is_ok (VulkanProfile_init registry n d c) = true)
      by (apply Hall; left; reflexivity).
    destruct (VulkanProfile_init registry n d c) as [p0| |] eqn:Ep0;
      try discriminate.
    destruct (IH (fun name data caps H => Hall name data caps (or_intror H))
                 (dict_set n p0 acc)) as [profiles [Hrun [Hother Hlast]]].
    exists profiles. split; [|split].
    + simpl. unfold register_definition at 1. simpl. rewrite Ep0. simpl. exact Hrun.
    + intros name Hnot. simpl in Hnot.
      rewrite Hother by tauto. apply dict_get_set_ne. intros ->. tauto.
    + intros before name data caps after p Hsplit Hnot Hp.
      destruct before as [|b before]; simpl in Hsplit.
      * injection Hsplit as E1 E2 E3 E4. subst n d c definitions.
        rewrite Hother by exact Hnot. rewrite dict_get_set_eq. congruence.
      * injection Hsplit as _ Hsplit.
        exact (Hlast before name data caps after p Hsplit Hnot Hp).
Qed.

(** C5 (amended). Loading a directory does not look for profile names that
    are defined more than once: when every profile entry of every loaded
    file resolves, the load succeeds, and each name is mapped to the
    resolution of the last entry that defines it, in the order of the
    directory listing. *)
Theorem loadFromDir_last_definition_wins :
  forall (registry : VulkanRegistry) (entries : list DirEntry),
    (forall name data caps,
        In (name, data, caps) (profile_definitions entries) ->
        is_ok (VulkanProfile_init registry name data caps) = true) ->
    exists profiles,
      loadFromDir registry entries = Ok profiles
      /\ (forall before name data caps after p,
             profile_definitions entries = before ++ (name, data, caps) :: after ->
             ~ In name (map (fun d => fst (fst d)) after) ->
             VulkanProfile_init registry name data caps = Ok p ->
             dict_get name profiles = Some p).
Proof.
  intros registry entries Hall.
  destruct (register_all registry (profile_definitions entries) Hall [])
    as [profiles [Hrun [_ Hlast]]].
  exists profiles. split; [|exact Hlast].
  rewrite loadFromDir_definitions. exact Hrun.
Qed.

Lemma loadFromDir_last_definition_wins_witness :
  exists profiles,
    loadFromDir sample_registry duplicate_entries = Ok profiles
    /\ (forall before name data caps after p,
           profile_definitions duplicate_entries
           = before ++ (name, data, caps) :: after ->
           ~ In name (map (fun d => fst (fst d)) after) ->
           VulkanProfile_init sample_registry name data caps = Ok p ->
           dict_get name profiles = Some p).
Proof.
  apply (loadFromDir_last_definition_wins sample_registry duplicate_entries).
  intros name data caps Hin.
  vm_compute in Hin.
  destruct Hin as [H|[H|[]]]; injection H as <- <- <-; vm_compute; reflexivity.
Defined.

(** C5 (counterexample). Two files of the directory define the profile
    [VP_SAMPLE_baseline]; the load succeeds, and the definition of the
    second file has replaced that of the first. *)
Lemma loadFromDir_duplicate_not_rejected :
  exists profiles p,
    loadFromDir sample_registry duplicate_entries = Ok profiles
    /\ map (fun d => fst (fst d)) (profile_definitions duplicate_entries)
       = ["VP_SAMPLE_baseline"; "VP_SAMPLE_baseline"]
    /\ dict_get "VP_SAMPLE_baseline" profiles = Some p
    /\ profile_version p = 2%Z
    /\ profile_apiVersion p = "1.2.0".
Proof.
  destruct (loadFromDir sample_registry duplicate_entries) as [profiles| |] eqn:E;
    [|vm_compute in E; discriminate..].
  vm_compute in E. injection E as <-.
  eexists. eexists. split; [reflexivity|]. split; [reflexivity|].
  split; [reflexivity|]. split; reflexivity.
Qed.

(** ** C7: instance and device extensions *)

Lemma opt_is_true (o : option string) (s : string) :
  opt_is o s = true <-> o = Some s.
Proof.
  destruct o as [x|]; simpl.
  - rewrite String.eqb_eq. split; [intros ->; reflexivity|intros [= ->]; reflexivity].
  - split; discriminate.
Qed.

Lemma extension_kind_unique (registry : VulkanRegistry) (extName k1 k2 : string) :
  extension_kind registry extName k1 -> extension_kind registry extName k2 -> k1 = k2.
Proof. intros [e1 [H1 K1]] [e2 [H2 K2]]. congruence. Qed.

Lemma mergeProfileExtensions_classified (registry : VulkanRegistry)
    (data : CapabilityData) (self self' : VulkanProfileCapabilities) :
  extensions_classified registry self ->
  mergeProfileExtensions registry data self = Ok self' ->
  extensions_classified registry self'.
Proof.
  unfold mergeProfileExtensions.
  destruct (data_extensions data) as [exts|]; [|intros H [= <-]; exact H].
  apply for_each_invariant. clear self self'.
  intros self [extName specVer] self' Hinv.
  destruct (dict_get extName (extensions registry)) as [extInfo|] eqn:Hget;
    [|discriminate].
  destruct (opt_is (extension_type extInfo) "instance") eqn:Hi;
    [|destruct (opt_is (extension_type extInfo) "device") eqn:Hd; [|discriminate]];
    intros [= <-]; intros e; destruct (Hinv e) as [H1 [H2 H3]]; simpl;
    rewrite ?dict_mem_set; repeat split; intros H;
    try (apply orb_prop in H as [H|H]); auto.
  - apply String.eqb_eq in H. subst e. exists extInfo. split; [exact Hget|].
    apply opt_is_true. exact Hi.
  - apply String.eqb_eq in H. subst e. left. rewrite String.eqb_refl. reflexivity.
  - destruct (H3 H) as [H'|H']; [left; rewrite H'; apply orb_true_r|right; exact H'].
  - apply String.eqb_eq in H. subst e. exists extInfo. split; [exact Hget|].
    apply opt_is_true. exact Hd.
  - apply String.eqb_eq in H. subst e. right. rewrite String.eqb_refl. reflexivity.
  - destruct (H3 H) as [H'|H']; [left; exact H'|right; rewrite H'; apply orb_true_r].
Qed.

Lemma mergeCaps_classified (registry : VulkanRegistry) (caps : CapabilityData)
    (self self' : VulkanProfileCapabilities) :
  extensions_classified registry self ->
  mergeCaps registry caps self = Ok self' ->
  extensions_classified registry self'.
Proof.
  intros Hinv. unfold mergeCaps.
  destruct (mergeProfileExtensions registry caps self) as [s1| |] eqn:E1;
    simpl; try discriminate.
  apply (mergeProfileExtensions_classified _ _ _ _ Hinv) in E1.
  unfold mergeProfileFeatures.
  destruct (merge_into (caps_features s1) (data_features caps)); simpl;
    try discriminate.
  unfold mergeProfileProperties. simpl.
  destruct (merge_into (caps_properties s1) (data_properties caps)); simpl;
    try discriminate.
  unfold mergeProfileFormats. simpl.
  destruct (merge_into (caps_formats s1) (data_formats caps)); simpl;
    try discriminate.
  unfold mergeProfileMemoryProperties, mergeProfileQueueFamiliesProperties.
  destruct (data_queueFamiliesProperties caps); simpl;
    destruct (merge_into (caps_memoryProperties s1) (data_memoryProperties caps));
    simpl; try discriminate; intros [= <-]; exact E1.
Qed.

Lemma capabilities_classified (registry : VulkanRegistry) (data : ProfileData)
    (caps : dict CapabilityData) (capabilities : VulkanProfileCapabilities) :
  VulkanProfileCapabilities_init registry data caps = Ok capabilities ->
  extensions_classified registry capabilities.
Proof.
  unfold VulkanProfileCapabilities_init.
  apply for_each_invariant.
  - intros st capName st' Hinv.
    destruct (dict_get capName caps) as [c|].
    + apply mergeCaps_classified. exact Hinv.
    + destruct (data_name data); discriminate.
  - intros e. repeat split; discriminate.
Qed.

Lemma profile_capabilities_init (registry : VulkanRegistry) (name : string)
    (data : ProfileData) (caps : dict CapabilityData) (p : VulkanProfile) :
  VulkanProfile_init registry name data caps = Ok p ->
  VulkanProfileCapabilities_init registry data caps = Ok (profile_capabilities p)
  /\ collectCompileTimeRequirements registry name (data_api_version data)
       (profile_capabilities p) = Ok (profile_requirements p)
  /\ validate registry name (data_api_version data) (profile_capabilities p) = Ok tt
  /\ profile_apiVersion p = data_api_version data.
Proof.
  unfold VulkanProfile_init.
  destruct (VulkanProfileCapabilities_init registry data caps) as [c| |];
    simpl; try discriminate.
  destruct (collectCompileTimeRequirements registry name (data_api_version data) c)
    as [r| |] eqn:Er; simpl; try discriminate.
  destruct (validate registry name (data_api_version data) c) as [[]| |] eqn:Ev;
    simpl; try discriminate.
  intros [= <-]. simpl. auto.
Qed.

(** C7. In a resolved profile every extension of the merged extension set is
    in exactly one of the instance and the device extension dictionaries,
    the one of its kind in the registry; and merging a capability block that
    names an extension which the registry does not record, or records with
    another kind, is fatal. *)
Theorem extensions_in_exactly_one_kind :
  forall (registry : VulkanRegistry),
    (forall name data caps p extName,
        VulkanProfile_init registry name data caps = Ok p ->
        dict_mem extName (caps_extensions (profile_capabilities p)) = true ->
        (extension_kind registry extName "instance"
         /\ dict_mem extName (caps_instanceExtensions (profile_capabilities p)) = true
         /\ dict_mem extName (caps_deviceExtensions (profile_capabilities p)) = false)
        \/ (extension_kind registry extName "device"
            /\ dict_mem extName (caps_instanceExtensions (profile_capabilities p)) = false
            /\ dict_mem extName (caps_deviceExtensions (profile_capabilities p)) = true))
    /\ (forall data self exts,
           data_extensions data = Some exts ->
           (exists item, In item exts
                         /\ extension_unclassified registry (fst item) = true) ->
           fatal (mergeProfileExtensions registry data self)).
Proof.
  intros registry. split.
  - intros name data caps p extName Hinit Hmem.
    apply profile_capabilities_init in Hinit as [Hcaps _].
    apply capabilities_classified in Hcaps.
    destruct (Hcaps extName) as [Hi [Hd Hany]].
    destruct (dict_mem extName (caps_instanceExtensions (profile_capabilities p)))
      eqn:Ei;
      destruct (dict_mem extName (caps_deviceExtensions (profile_capabilities p)))
        eqn:Ed.
    + pose proof (extension_kind_unique _ _ _ _ (Hi eq_refl) (Hd eq_refl)).
      discriminate.
    + left. auto.
    + right. auto.
    + destruct (Hany Hmem); discriminate.
  - intros data self exts Hexts Hbad. unfold mergeProfileExtensions.
    rewrite Hexts.
    apply (for_each_fatal _ (fun item => extension_unclassified registry (fst item))).
    + intros st [extName specVer]. unfold extension_unclassified. simpl.
      destruct (dict_get extName (extensions registry)) as [extInfo|].
      * intros H. apply andb_prop in H as [H1 H2].
        apply negb_true_iff in H1, H2. rewrite H1, H2. eexists. reflexivity.
      * intros _. eexists. reflexivity.
    + intros st [extName specVer] _.
      destruct (dict_get extName (extensions registry)) as [extInfo|].
      * destruct (opt_is (extension_type extInfo) "instance");
          [left; eexists; reflexivity|].
        destruct (opt_is (extension_type extInfo) "device");
          [left; eexists; reflexivity|right; eexists; reflexivity].
      * right. eexists. reflexivity.
    + exact Hbad.
Qed.

Lemma extensions_in_exactly_one_kind_witness :
  (exists p,
      VulkanProfile_init sample_registry "VP_SAMPLE_presentation"
        (sample_profile_data "1.2.0" ["presentation"]) sample_caps = Ok p
      /\ extension_kind sample_registry "VK_KHR_swapchain" "device"
      /\ dict_mem "VK_KHR_swapchain"
           (caps_instanceExtensions (profile_capabilities p)) = false
      /\ dict_mem "VK_KHR_swapchain"
           (caps_deviceExtensions (profile_capabilities p)) = true)
  /\ fatal (mergeProfileExtensions sample_registry unknown_extension_caps
              empty_capabilities).
Proof.
  split.
  - destruct (VulkanProfile_init sample_registry "VP_SAMPLE_presentation"
                (sample_profile_data "1.2.0" ["presentation"]) sample_caps)
      as [p| |] eqn:Hp; [|vm_compute in Hp; discriminate..].
    exists p. split; [reflexivity|].
    destruct (proj1 (extensions_in_exactly_one_kind sample_registry)
                "VP_SAMPLE_presentation"
                (sample_profile_data "1.2.0" ["presentation"]) sample_caps p
                "VK_KHR_swapchain" Hp) as [[K _]|H].
    + vm_compute in Hp. injection Hp as <-. reflexivity.
    + destruct K as [extInfo [Hget Hkind]]. vm_compute in Hget.
      injection Hget as <-. discriminate.
    + exact H.
  - apply (proj2 (extensions_in_exactly_one_kind sample_registry)
             unknown_extension_caps empty_capabilities
             [("VK_KHR_surface", 25%Z); ("VK_SAMPLE_unknown", 1%Z)] eq_refl).
    exists ("VK_SAMPLE_unknown", 1%Z). split; [simpl; tauto|reflexivity].
Defined.

(** ** C3: the structures that a profile refers to *)

Lemma dependency_found_met (registry : VulkanRegistry) (apiVersion : string)
    (capabilities : VulkanProfileCapabilities) (structName : string)
    (structDef : VulkanStruct) :
  dict_get structName (structs registry) = Some structDef ->
  dependency_found apiVersion capabilities structDef = true ->
  dependency_met registry apiVersion capabilities structName.
Proof.
  intros Hget Hfound. exists structDef. split; [exact Hget|].
  unfold dependency_found in Hfound. apply orb_prop in Hfound as [H|H].
  - left. destruct (struct_definedByVersion structDef) as [v|]; [|discriminate].
    exists v. auto.
  - right. apply existsb_exists in H as [e [Hin He]]. exists e. auto.
Qed.

Lemma dependency_met_found (registry : VulkanRegistry) (apiVersion : string)
    (capabilities : VulkanProfileCapabilities) (structName : string) :
  dependency_met registry apiVersion capabilities structName ->
  exists structDef,
    dict_get structName (structs registry) = Some structDef
    /\ dependency_found apiVersion capabilities structDef = true.
Proof.
  intros [structDef [Hget H]]. exists structDef. split; [exact Hget|].
  unfold dependency_found. destruct H as [[v [Hv Hle]]|[e [Hin He]]].
  - rewrite Hv, Hle. reflexivity.
  - apply orb_true_iff. right. apply existsb_exists. exists e. auto.
Qed.

(** The test as the code makes it, on every structure that a profile
    names.  Every structure named in the merged features, properties, queue
    family records or memory properties of a resolved profile is registered,
    and its version string is at most the api-version string in the order
    of strings, or one of its defining extensions is in the merged extension
    set; and a profile whose capabilities merge and whose requirements are
    collected, but which names a structure without that, ends in a fatal
    error instead of resolving. *)
Lemma struct_dependencies_checked :
  forall (registry : VulkanRegistry) (name : string) (data : ProfileData)
         (caps : dict CapabilityData),
    (forall p structName,
        VulkanProfile_init registry name data caps = Ok p ->
        In structName (referenced_structs (profile_capabilities p)) ->
        dependency_met registry (profile_apiVersion p) (profile_capabilities p)
          structName)
    /\ (forall capabilities requirements structName,
           VulkanProfileCapabilities_init registry data caps = Ok capabilities ->
           collectCompileTimeRequirements registry name (data_api_version data)
             capabilities = Ok requirements ->
           In structName (referenced_structs capabilities) ->
           ~ dependency_met registry (data_api_version data) capabilities structName ->
           fatal (VulkanProfile_init registry name data caps)).
Proof.
  intros registry name data caps. split.
  - intros p structName Hinit Hin.
    apply profile_capabilities_init in Hinit as [_ [_ [Hval Hapi]]].
    rewrite Hapi. unfold validate, validateStructDependencies in Hval.
    pose proof (for_each_unit _ _ Hval structName Hin) as H.
    unfold validateStructDependency in H.
    destruct (dict_get structName (structs registry)) as [structDef|] eqn:Hget;
      [|discriminate].
    destruct (dependency_found (data_api_version data) (profile_capabilities p)
                structDef) eqn:Hfound; [|discriminate].
    exact (dependency_found_met _ _ _ _ _ Hget Hfound).
  - intros capabilities requirements structName Hcaps Hreq Hin Hnot.
    unfold VulkanProfile_init. rewrite Hcaps. simpl. rewrite Hreq. simpl.
    assert (Hf : fatal (validate registry name (data_api_version data) capabilities)).
    { unfold validate, validateStructDependencies.
      apply (for_each_fatal _
               (fun s => match dict_get s (structs registry) with
                         | Some structDef =>
                             negb (dependency_found (data_api_version data)
                                     capabilities structDef)
                         | None => true
                         end)).
      - intros [] s. unfold validateStructDependency.
        destruct (dict_get s (structs registry)) as [structDef|].
        + intros H. apply negb_true_iff in H. rewrite H. eexists. reflexivity.
        + intros _. eexists. reflexivity.
      - intros [] s. unfold validateStructDependency.
        destruct (dict_get s (structs registry)) as [structDef|].
        + intros H. apply negb_false_iff in H. rewrite H. left. exists tt. reflexivity.
        + discriminate.
      - exists structName. split; [exact Hin|].
        destruct (dict_get structName (structs registry)) as [structDef|] eqn:Hget;
          [|reflexivity].
        apply negb_true_iff.
        destruct (dependency_found (data_api_version data) capabilities structDef)
          eqn:Hfound; [|reflexivity].
        contradiction Hnot. exact (dependency_found_met _ _ _ _ _ Hget Hfound). }
    destruct Hf as [msg ->]. exists msg. reflexivity.
Qed.

Example struct_dependencies_checked_sample :
  (exists p,
      VulkanProfile_init sample_registry "VP_SAMPLE_baseline"
        (sample_profile_data "1.2.0" ["baseline"; "limits"]) sample_caps = Ok p
      /\ dependency_met sample_registry "1.2.0" (profile_capabilities p)
           "VkPhysicalDeviceProperties")
  /\ fatal (VulkanProfile_init sample_registry "VP_SAMPLE_pointers"
              (sample_profile_data "1.2.0" ["variable_pointers"]) sample_caps).
Proof.
  split.
  - destruct (VulkanProfile_init sample_registry "VP_SAMPLE_baseline"
                (sample_profile_data "1.2.0" ["baseline"; "limits"]) sample_caps)
      as [p| |] eqn:Hp; [|vm_compute in Hp; discriminate..].
    exists p. split; [reflexivity|].
    pose proof (proj1 (struct_dependencies_checked sample_registry "VP_SAMPLE_baseline"
                  (sample_profile_data "1.2.0" ["baseline"; "limits"]) sample_caps)
                  p "VkPhysicalDeviceProperties" Hp) as H.
    assert (Hapi : profile_apiVersion p = "1.2.0")
      by (vm_compute in Hp; injection Hp as <-; reflexivity).
    rewrite Hapi in H. apply H.
    vm_compute in Hp. injection Hp as <-. simpl. tauto.
  - destruct (VulkanProfileCapabilities_init sample_registry
                (sample_profile_data "1.2.0" ["variable_pointers"]) sample_caps)
      as [capabilities| |] eqn:Hc; [|vm_compute in Hc; discriminate..].
    destruct (collectCompileTimeRequirements sample_registry "VP_SAMPLE_pointers"
                "1.2.0" capabilities) as [requirements| |] eqn:Hr;
      [|vm_compute in Hc; injection Hc as <-; vm_compute in Hr; discriminate..].
    apply (proj2 (struct_dependencies_checked sample_registry "VP_SAMPLE_pointers"
                    (sample_profile_data "1.2.0" ["variable_pointers"]) sample_caps)
             capabilities requirements
             "VkPhysicalDeviceVariablePointersFeaturesKHR" Hc Hr).
    + vm_compute in Hc. injection Hc as <-. simpl. tauto.
    + intros Hmet. apply dependency_met_found in Hmet as [structDef [Hget Hfound]].
      vm_compute in Hc. injection Hc as <-.
      vm_compute in Hget. injection Hget as <-. vm_compute in Hfound. discriminate.
Qed.

(** C3. The test of [validateStructDependency] on the version of a
    structure is the comparison of the two strings, not of the versions: a
    registered structure that no merged extension defines passes exactly
    when its version string is at most the api-version string in the order
    of strings.  So a structure of version 1.10 passes for a profile on
    1.2.0, and a structure of version 1.2 is refused for a profile on
    1.10.0. *)
Theorem struct_dependency_compares_strings :
  forall (registry : VulkanRegistry) (name apiVersion : string)
         (capabilities : VulkanProfileCapabilities) (structName : string)
         (structDef : VulkanStruct) (definedByVersion : string),
    dict_get structName (structs registry) = Some structDef ->
    struct_definedByVersion structDef = Some definedByVersion ->
    existsb (fun definedByExtension =>
               dict_mem definedByExtension (caps_extensions capabilities))
      (struct_definedByExtensions structDef) = false ->
    validateStructDependency registry name apiVersion capabilities structName
    = if String.leb definedByVersion apiVersion then Ok tt
      else Fatal (unexpected_struct_msg structName name).
Proof.
  intros registry name apiVersion capabilities structName structDef
    definedByVersion Hget Hversion Hext.
  unfold validateStructDependency, dependency_found.
  rewrite Hget, Hversion, Hext, orb_false_r.
  destruct (String.leb definedByVersion apiVersion); reflexivity.
Qed.

Lemma struct_dependency_compares_strings_witness :
  (version_le "1.10" "1.2.0" = false
   /\ validateStructDependency tenth_registry "VP_SAMPLE_tenth" "1.2.0"
        (tenth_merged (sample_profile_data "1.2.0" ["tenth"]))
        "VkSampleTenthFeatures" = Ok tt
   /\ is_ok (VulkanProfile_init tenth_registry "VP_SAMPLE_tenth"
               (sample_profile_data "1.2.0" ["tenth"]) tenth_caps) = true)
  /\ (version_le "1.2" "1.10.0" = true
      /\ validateStructDependency tenth_registry "VP_SAMPLE_vulkan11" "1.10.0"
           (tenth_merged (sample_profile_data "1.10.0" ["vulkan11"]))
           "VkPhysicalDeviceVulkan11Properties"
         = Fatal (unexpected_struct_msg "VkPhysicalDeviceVulkan11Properties"
                    "VP_SAMPLE_vulkan11")
      /\ VulkanProfile_init tenth_registry "VP_SAMPLE_vulkan11"
           (sample_profile_data "1.10.0" ["vulkan11"]) tenth_caps
         = Fatal (unexpected_struct_msg "VkPhysicalDeviceVulkan11Properties"
                    "VP_SAMPLE_vulkan11")).
Proof.
  split; (split; [reflexivity|]); (split; [|vm_compute; reflexivity]).
  - destruct (dict_get "VkSampleTenthFeatures" (structs tenth_registry))
      as [structDef|] eqn:Hget; [|vm_compute in Hget; discriminate].
    rewrite (struct_dependency_compares_strings tenth_registry "VP_SAMPLE_tenth"
               "1.2.0" (tenth_merged (sample_profile_data "1.2.0" ["tenth"]))
               "VkSampleTenthFeatures" structDef "1.10" Hget);
      [reflexivity| |];
      vm_compute in Hget; injection Hget as <-; reflexivity.
  - destruct (dict_get "VkPhysicalDeviceVulkan11Properties"
                (structs tenth_registry))
      as [structDef|] eqn:Hget; [|vm_compute in Hget; discriminate].
    rewrite (struct_dependency_compares_strings tenth_registry
               "VP_SAMPLE_vulkan11" "1.10.0"
               (tenth_merged (sample_profile_data "1.10.0" ["vulkan11"]))
               "VkPhysicalDeviceVulkan11Properties" structDef "1.2" Hget);
      [reflexivity| |];
      vm_compute in Hget; injection Hget as <-; reflexivity.
Defined.

(** ** C1: the comparison synthesizer and the table *)

(** Induction on JSON values, through the lists and dictionaries. *)
Lemma json_rect_nested (P : json -> Prop) :
  P JNull ->
  (forall b, P (JBool b)) ->
  (forall z, P (JInt z)) ->
  (forall s, P (JFloat s)) ->
  (forall s, P (JStr s)) ->
  (forall l, Forall P l -> P (JList l)) ->
  (forall d, Forall (fun item => P (snd item)) d -> P (JDict d)) ->
  forall v, P v.
Proof.
  intros HNull HBool HInt HFloat HStr HList HDict.
  fix IH 1. intros [| b | z | s | s | l | d].
  - exact HNull.
  - apply HBool.
  - apply HInt.
  - apply HFloat.
  - apply HStr.
  - apply HList. induction l as [|x l IHl]; constructor; [apply IH|exact IHl].
  - apply HDict. induction d as [|[k x] d IHd]; constructor; [apply IH|exact IHd].
Qed.

Lemma select_outside_table (limittype : option string) (member structName : string) :
  table_limittype limittype = false ->
  select_comparePredFmt limittype member structName
  = Fatal (unsupported_limittype_msg limittype member structName).
Proof.
  destruct limittype as [l|]; [|discriminate].
  unfold table_limittype, select_comparePredFmt, opt_is.
  destruct (String.eqb l "bitmask"); [discriminate|].
  destruct (String.eqb l "max"); [discriminate|].
  destruct (String.eqb l "min"); [discriminate|].
  destruct (String.eqb l "range"); [discriminate|].
  destruct (String.eqb l "noauto"); [discriminate|].
  destruct (String.eqb l "struct"); [discriminate|].
  reflexivity.
Qed.

(** Inside the table the format chosen by the source is the list of the two
    range predicates for [range], and the predicate of the table for every
    other limittype. *)
Lemma select_inside_table (limittype : option string) (member structName : string) :
  table_limittype limittype = true ->
  (opt_is limittype "range" = true
   /\ select_comparePredFmt limittype member structName
      = Ok (fmt_list [pred_le; pred_ge])
   /\ table_predicate limittype None = None
   /\ forall i, table_predicate limittype (Some i) = [pred_le; pred_ge] !! i)
  \/ (opt_is limittype "range" = false
      /\ exists p,
          select_comparePredFmt limittype member structName = Ok (fmt_str p)
          /\ forall index, table_predicate limittype index = Some p).
Proof.
  destruct limittype as [l|].
  - unfold table_limittype, select_comparePredFmt, table_predicate, opt_is.
    destruct (String.eqb_spec l "bitmask") as [->|_];
      [intros _; right; split; [reflexivity|eexists; split; reflexivity]|].
    destruct (String.eqb_spec l "max") as [->|_];
      [intros _; right; split; [reflexivity|eexists; split; reflexivity]|].
    destruct (String.eqb_spec l "min") as [->|_];
      [intros _; right; split; [reflexivity|eexists; split; reflexivity]|].
    destruct (String.eqb_spec l "range") as [->|_].
    + intros _. left. repeat split; try (intros [|[|i]]; reflexivity).
    + destruct (String.eqb_spec l "noauto") as [->|_];
        [intros _; right; split; [reflexivity|eexists; split; reflexivity]|].
      destruct (String.eqb_spec l "struct") as [->|_];
        [intros _; right; split; [reflexivity|eexists; split; reflexivity]|].
      discriminate.
  - intros _. right. split; [reflexivity|]. exists pred_eq. split; reflexivity.
Qed.

Lemma compare_elements_table (fmt : format1) (limittype : option string)
    (c : comparePredFmt) (deviceVar profileVar member : string) (value : list json) :
  (opt_is limittype "range" = true
   /\ c = fmt_list [pred_le; pred_ge]
   /\ forall i, table_predicate limittype (Some i) = [pred_le; pred_ge] !! i)
  \/ (opt_is limittype "range" = false
      /\ exists p, c = fmt_str p
                   /\ forall index, table_predicate limittype index = Some p) ->
  forall i s,
    spec_elements fmt limittype deviceVar profileVar member i value = Some s ->
    compare_elements fmt limittype c deviceVar profileVar member i value = Ok s.
Proof.
  intros Hc. induction value as [|x value IH]; intros i s; simpl.
  - intros [= <-]. reflexivity.
  - destruct (table_predicate limittype (Some i)) as [p|] eqn:Hp; [|discriminate].
    destruct (spec_elements fmt limittype deviceVar profileVar member (S i) value)
      as [r|] eqn:Hr; [|discriminate].
    intros [= <-]. rewrite (IH (S i) r Hr).
    destruct Hc as [[Hrange [-> Htab]]|[Hrange [q [-> Htab]]]]; rewrite Hrange.
    + simpl. rewrite <- Htab, Hp. reflexivity.
    + simpl. rewrite Htab in Hp. injection Hp as ->. reflexivity.
Qed.

Lemma compare_items_table (registry : VulkanRegistry) (fmt : format1)
    (items : list (string * json)) :
  Forall (fun item =>
            forall structDef deviceVar profileVar o,
              spec_compareStructVar registry fmt structDef deviceVar profileVar
                (snd item) = Some o ->
              gen_compareStructVar registry fmt structDef deviceVar profileVar
                (snd item) = o) items ->
  forall structDef deviceVar profileVar o,
    spec_items (spec_compareStructVar registry fmt) registry fmt structDef
      deviceVar profileVar items = Some o ->
    compare_items (gen_compareStructVar registry fmt) registry fmt structDef
      deviceVar profileVar items = o.
Proof.
  induction 1 as [|[member value] items Hhead _ IH];
    intros structDef deviceVar profileVar o.
  - simpl. intros [= <-]. reflexivity.
  - cbn [spec_items compare_items snd] in *.
    set (specHead := match dict_get member (members_of registry structDef) with
                     | Some memberInfo => _
                     | None => _
                     end).
    set (codeHead := match dict_get member (members_of registry structDef) with
                     | Some memberInfo => _
                     | None => _
                     end).
    assert (Hh : forall h, specHead = Some h -> codeHead = h).
    { subst codeHead specHead.
      destruct (dict_get member (members_of registry structDef)) as [memberInfo|];
        [|intros h [= <-]; reflexivity].
      cbv zeta.
      destruct (opt_is (member_limittype memberInfo) "IGNORE");
        [intros h [= <-]; reflexivity|].
      destruct (table_limittype (member_limittype memberInfo)) eqn:Htab; simpl.
      2:{ intros h [= <-]. rewrite select_outside_table by exact Htab. reflexivity. }
      destruct (select_inside_table (member_limittype memberInfo) member
                  (struct_name structDef) Htab)
        as [[Hrange [Hsel [Hwhole Hidx]]]|[Hrange [p [Hsel Htable]]]];
        rewrite Hsel; simpl.
      - destruct value as [| b | z | s | s | l | d];
          try (unfold spec_whole; rewrite Hwhole; discriminate).
        + destruct (member_isArray memberInfo).
          * intros h Hspec.
            destruct (spec_elements fmt (member_limittype memberInfo) deviceVar
                        profileVar member 0 l) as [s|] eqn:Hs; [|discriminate].
            injection Hspec as <-.
            apply (compare_elements_table fmt (member_limittype memberInfo)); auto.
          * unfold spec_whole; rewrite Hwhole; discriminate.
        + destruct (dict_get (member_type memberInfo) (structs registry))
            as [memberDef|]; [|intros h [= <-]; reflexivity].
          intros h Hspec. apply Hhead. exact Hspec.
      - destruct value as [| b | z | s | s | l | d];
          try (unfold spec_whole; rewrite Htable; intros h [= <-]; reflexivity).
        + destruct (member_isArray memberInfo).
          * intros h Hspec.
            destruct (spec_elements fmt (member_limittype memberInfo) deviceVar
                        profileVar member 0 l) as [s|] eqn:Hs; [|discriminate].
            injection Hspec as <-.
            apply (compare_elements_table fmt (member_limittype memberInfo)).
            -- right. split; [exact Hrange|]. exists p. auto.
            -- exact Hs.
          * unfold spec_whole; rewrite Htable; intros h [= <-]; reflexivity.
        + destruct (dict_get (member_type memberInfo) (structs registry))
            as [memberDef|]; [|intros h [= <-]; reflexivity].
          intros h Hspec. apply Hhead. exact Hspec. }
    clearbody codeHead specHead.
    destruct specHead as [[gen|msg|e]|]; try discriminate.
    + rewrite (Hh _ eq_refl). cbn [bind].
      destruct (spec_items (spec_compareStructVar registry fmt) registry fmt
                  structDef deviceVar profileVar items) as [[r|msg|e]|] eqn:Hrest;
        try discriminate; intros [= <-];
        rewrite (IH structDef deviceVar profileVar _ Hrest); reflexivity.
    + intros [= <-]. rewrite (Hh _ eq_refl). reflexivity.
    + intros [= <-]. rewrite (Hh _ eq_refl). reflexivity.
Qed.

Lemma spec_elements_defined (fmt : format1) (limittype : option string)
    (deviceVar profileVar member : string) (value : list json) :
  table_limittype limittype = true ->
  forall i,
    opt_is limittype "range" = false \/ i + length value <= 2 ->
    exists s, spec_elements fmt limittype deviceVar profileVar member i value = Some s.
Proof.
  intros Htab. induction value as [|x value IH]; intros i Hok.
  - exists "". reflexivity.
  - cbn [spec_elements].
    destruct (IH (S i)) as [r ->].
    { destruct Hok as [H|H]; [left; exact H|right; cbn [length] in H; lia]. }
    destruct (select_inside_table limittype member "" Htab)
      as [[Hrange [_ [_ Hidx]]]|[_ [p [_ Hall]]]].
    + destruct Hok as [H|H]; [congruence|].
      rewrite Hidx. cbn [length] in H.
      destruct i as [|[|i]]; [eexists; reflexivity..|lia].
    + rewrite Hall. eexists. reflexivity.
Qed.

Lemma spec_items_defined (registry : VulkanRegistry) (fmt : format1)
    (items : list (string * json)) :
  Forall (fun item =>
            forall structDef deviceVar profileVar,
              ranges_ok registry structDef (snd item) = true ->
              exists o, spec_compareStructVar registry fmt structDef deviceVar
                          profileVar (snd item) = Some o) items ->
  forall structDef deviceVar profileVar,
    ranges_ok_items (ranges_ok registry) registry structDef items = true ->
    exists o, spec_items (spec_compareStructVar registry fmt) registry fmt structDef
                deviceVar profileVar items = Some o.
Proof.
  induction 1 as [|[member value] items Hhead _ IH];
    intros structDef deviceVar profileVar Hok.
  - eexists. reflexivity.
  - cbn [ranges_ok_items] in Hok. apply andb_prop in Hok as [Hhd Hrest].
    destruct (IH structDef deviceVar profileVar Hrest) as [orest Hspec].
    cbn [spec_items snd] in *. rewrite Hspec.
    set (specHead := match dict_get member (members_of registry structDef) with
                     | Some memberInfo => _
                     | None => _
                     end).
    assert (Hh : exists h, specHead = Some h).
    { subst specHead.
      destruct (dict_get member (members_of registry structDef)) as [memberInfo|];
        [|eexists; reflexivity].
      cbv zeta. apply andb_prop in Hhd as [Hval Hnested].
      destruct (opt_is (member_limittype memberInfo) "IGNORE");
        [eexists; reflexivity|].
      destruct (table_limittype (member_limittype memberInfo)) eqn:Htab;
        cbn [negb]; [|eexists; reflexivity].
      assert (Hwhole : opt_is (member_limittype memberInfo) "range" = false ->
                       exists h, spec_whole fmt (member_limittype memberInfo)
                                   deviceVar profileVar member = Some h).
      { intros Hr. unfold spec_whole.
        destruct (select_inside_table (member_limittype memberInfo) member ""
                    Htab) as [[Hrange _]|[_ [p [_ Hall]]]]; [congruence|].
        rewrite Hall. eexists. reflexivity. }
      destruct value as [| b | z | s | s | l | d]; cbn [range_value_ok] in Hval;
        try (apply Hwhole; apply negb_true_iff; exact Hval).
      - destruct (member_isArray memberInfo).
        + destruct (spec_elements_defined fmt (member_limittype memberInfo)
                      deviceVar profileVar member l Htab 0) as [s ->].
          { apply orb_prop in Hval as [H|H].
            - left. apply negb_true_iff. exact H.
            - right. apply Nat.leb_le in H. cbn in *. lia. }
          eexists. reflexivity.
        + apply Hwhole. rewrite orb_false_r in Hval.
          apply negb_true_iff. exact Hval.
      - destruct (dict_get (member_type memberInfo) (structs registry))
          as [memberDef|]; [|eexists; reflexivity].
        apply Hhead. exact Hnested. }
    destruct Hh as [h ->].
    destruct h as [gen|msg|e]; [|eexists; reflexivity..].
    destruct orest as [r|msg|e]; eexists; reflexivity.
Qed.

(** C1 (amended). Wherever the table of the specification has an entry for
    every member that is reached, the synthesizer produces what the table
    prescribes: the predicate of the limittype of each member, nothing for
    [IGNORE], a fatal error for a limittype outside the table, the nested
    structure for an object value, and one predicate per index for an array
    value of an [is_array] member.  The table has these entries whenever
    every [range] member of the value tree is an [is_array] member given an
    array of at most two elements. *)
Theorem gen_compareStructVar_follows_table :
  forall (registry : VulkanRegistry) (fmt : format1) (values : json)
         (structDef : VulkanStruct) (deviceVar profileVar : string),
    (forall o,
        spec_compareStructVar registry fmt structDef deviceVar profileVar values
        = Some o ->
        gen_compareStructVar registry fmt structDef deviceVar profileVar values = o)
    /\ (ranges_ok registry structDef values = true ->
        exists o,
          spec_compareStructVar registry fmt structDef deviceVar profileVar values
          = Some o).
Proof.
  intros registry fmt values.
  induction values as [| b | z | s | s | l _ | d IH] using json_rect_nested;
    intros structDef deviceVar profileVar; split; try discriminate.
  - cbn [spec_compareStructVar gen_compareStructVar].
    apply compare_items_table.
    eapply Forall_impl; [exact IH|]. intros item H sd dv pv. apply H.
  - cbn [spec_compareStructVar ranges_ok].
    apply spec_items_defined.
    eapply Forall_impl; [exact IH|]. intros item H sd dv pv. apply H.
Qed.

Lemma gen_compareStructVar_follows_table_witness :
  ranges_ok synthetic_registry (synthetic_struct "VkSynthetic" 0) synthetic_values
  = true
  /\ gen_compareStructVar synthetic_registry synthetic_fmt
       (synthetic_struct "VkSynthetic" 0) "d." "p." synthetic_values
     = Ok synthetic_comparator.
Proof.
  split; [reflexivity|].
  apply (proj1 (gen_compareStructVar_follows_table synthetic_registry synthetic_fmt
                  synthetic_values (synthetic_struct "VkSynthetic" 0) "d." "p.")).
  vm_compute. reflexivity.
Defined.

(** C1 (counterexample). The range member of the synthetic structure, an
    [is_array] member, with an array of three elements: no predicate is
    emitted and no fatal error is raised, the run ends with an
    [IndexError]; with a value that is not an array it ends with an
    [AttributeError]. *)
Lemma gen_compareStructVar_range_of_three :
  gen_compareStructVar synthetic_registry synthetic_fmt
    (synthetic_struct "VkSynthetic" 0) "d." "p."
    (JDict [("mRange", JList [JFloat "1.0"; JFloat "2.0"; JFloat "64.0"])])
  = Raised IndexError
  /\ gen_compareStructVar synthetic_registry synthetic_fmt
       (synthetic_struct "VkSynthetic" 0) "d." "p."
       (JDict [("mRange", JFloat "1.0")])
     = Raised AttributeError.
Proof. split; vm_compute; reflexivity. Qed.

Example gen_compareStructVar_other_limittype :
  gen_compareStructVar synthetic_registry synthetic_fmt
    (synthetic_struct "VkSynthetic" 0) "d." "p." (JDict [("mOther", JInt 1)])
  = Fatal "Unsupported limittype 'exact' in member 'mOther' of structure 'VkSynthetic'".
Proof. vm_compute. reflexivity. Qed.

(** ** C9: the workaround pass *)

Lemma table_of_insert (tables : list (dict VulkanStructMember)) (h h' : nat)
    (t : dict VulkanStructMember) :
  table_of (<[h := t]> tables) h'
  = if decide (h = h' /\ h < length tables) then t else table_of tables h'.
Proof.
  unfold table_of. destruct (decide (h = h' /\ h < length tables)) as [[<- Hlt]|Hn].
  - rewrite list_lookup_insert_eq by exact Hlt. reflexivity.
  - destruct (decide (h = h')) as [<-|Hne].
    + rewrite list_insert_ge by lia. reflexivity.
    + rewrite list_lookup_insert_ne by exact Hne. reflexivity.
Qed.

Lemma table_of_out_of_range (tables : list (dict VulkanStructMember)) (h : nat) :
  length tables <= h -> table_of tables h = [].
Proof.
  intros H. unfold table_of. rewrite lookup_ge_None_2 by exact H. reflexivity.
Qed.

(** Writing back the dictionary that is there changes nothing. *)
Lemma insert_table_of (tables : list (dict VulkanStructMember)) (h : nat) :
  <[h := table_of tables h]> tables = tables.
Proof.
  unfold table_of. destruct (tables !! h) as [t|] eqn:E; simpl.
  - apply list_insert_id. exact E.
  - apply list_insert_ge. apply lookup_ge_None. exact E.
Qed.

Lemma with_limittype_same (m : VulkanStructMember) (l : option string) :
  member_limittype m = l -> with_limittype m l = m.
Proof. destruct m. simpl. intros ->. reflexivity. Qed.

Lemma with_member_tables_same (self : VulkanRegistry) :
  with_member_tables self (member_tables self) = self.
Proof. destruct self. reflexivity. Qed.

Lemma patch_member_idempotent (m : VulkanStructMember) :
  patch_member (patch_member m) = patch_member m.
Proof.
  unfold patch_member. destruct (is_bool_bitmask m) eqn:E; [|rewrite E; reflexivity].
  reflexivity.
Qed.

Lemma patch_member_clean (m : VulkanStructMember) :
  is_bool_bitmask (patch_member m) = false.
Proof.
  unfold patch_member. destruct (is_bool_bitmask m) eqn:E; [reflexivity|exact E].
Qed.

Lemma patch_member_limittype (m : VulkanStructMember) (v : string) :
  member_limittype m = Some v -> v <> "bitmask" -> patch_member m = m.
Proof.
  intros Hl Hv. unfold patch_member, is_bool_bitmask. rewrite Hl. simpl.
  apply String.eqb_neq in Hv. rewrite Hv. reflexivity.
Qed.

Lemma patch_members_cons (n : string) (names : list string)
    (members : dict VulkanStructMember) :
  patch_members (n :: names) members
  = patch_members names
      match dict_get n members with
      | Some memberDef =>
          if is_bool_bitmask memberDef
          then dict_set n (with_limittype memberDef (Some "noauto")) members
          else members
      | None => members
      end.
Proof. reflexivity. Qed.

Lemma patch_structs_cons (n : string) (names : list string) (self : VulkanRegistry) :
  patch_structs (n :: names) self
  = patch_structs names
      match dict_get n (structs self) with
      | Some structDef =>
          with_member_tables self
            (<[struct_members structDef :=
                 patch_members (dict_keys (members_of self structDef))
                   (members_of self structDef)]> (member_tables self))
      | None => self
      end.
Proof. reflexivity. Qed.

(** The inner loop of the second pass patches the members it is given the
    names of, and no other. *)
Lemma patch_members_get (names : list string) (k : string) :
  forall members,
    dict_get k (patch_members names members)
    = if in_dec string_dec k names then option_map patch_member (dict_get k members)
      else dict_get k members.
Proof.
  induction names as [|n names IH]; intros members.
  - reflexivity.
  - rewrite patch_members_cons, IH.
    assert (Hstep : dict_get k
               match dict_get n members with
               | Some memberDef =>
                   if is_bool_bitmask memberDef
                   then dict_set n (with_limittype memberDef (Some "noauto")) members
                   else members
               | None => members
               end
             = if decide (k = n) then option_map patch_member (dict_get k members)
               else dict_get k members).
    { destruct (decide (k = n)) as [->|Hne].
      - destruct (dict_get n members) as [memberDef|] eqn:Hget; [|rewrite Hget; reflexivity].
        cbn [option_map]. unfold patch_member. destruct (is_bool_bitmask memberDef).
        + rewrite dict_get_set_eq. reflexivity.
        + rewrite Hget. reflexivity.
      - destruct (dict_get n members) as [memberDef|]; [|reflexivity].
        destruct (is_bool_bitmask memberDef); [|reflexivity].
        apply dict_get_set_ne. exact Hne. }
    rewrite Hstep.
    destruct (in_dec string_dec k names) as [Hin|Hnin];
      destruct (in_dec string_dec k (n :: names)) as [Hin'|Hnin'];
      destruct (decide (k = n)) as [Heq|Hne];
      try reflexivity; try (exfalso; simpl in *; intuition congruence).
    destruct (dict_get k members); simpl; [|reflexivity].
    rewrite patch_member_idempotent. reflexivity.
Qed.

Lemma patch_members_own_keys (members : dict VulkanStructMember) (k : string) :
  dict_get k (patch_members (dict_keys members) members)
  = option_map patch_member (dict_get k members).
Proof.
  rewrite patch_members_get.
  destruct (in_dec string_dec k (dict_keys members)) as [Hin|Hnin]; [reflexivity|].
  destruct (dict_get k members) as [m|] eqn:Hget; [|reflexivity].
  contradiction Hnin. exact (dict_get_In _ _ _ Hget).
Qed.

(** A dictionary without a boolean member of limittype [bitmask] is left as
    it is. *)
Lemma patch_members_clean (names : list string) (members : dict VulkanStructMember) :
  (forall k m, dict_get k members = Some m -> is_bool_bitmask m = false) ->
  patch_members names members = members.
Proof.
  intros Hclean. induction names as [|n names IH]; [reflexivity|].
  rewrite patch_members_cons.
  destruct (dict_get n members) as [m|] eqn:Hget; [|exact IH].
  rewrite (Hclean n m Hget). exact IH.
Qed.

Lemma patch_structs_structs (names : list string) (self : VulkanRegistry) :
  structs (patch_structs names self) = structs self
  /\ versions (patch_structs names self) = versions self
  /\ extensions (patch_structs names self) = extensions self
  /\ platforms (patch_structs names self) = platforms self
  /\ alias_lists (patch_structs names self) = alias_lists self.
Proof.
  revert self. induction names as [|n names IH]; intros self; [auto|].
  rewrite patch_structs_cons.
  destruct (dict_get n (structs self)) as [structDef|]; [|apply IH].
  destruct (IH (with_member_tables self
                  (<[struct_members structDef :=
                       patch_members (dict_keys (members_of self structDef))
                         (members_of self structDef)]> (member_tables self))))
    as [H1 [H2 [H3 [H4 H5]]]].
  rewrite H1, H2, H3, H4, H5. auto.
Qed.

(** After the second pass, the dictionaries of the structures that were
    visited are patched, the others are as before. *)
Lemma patch_structs_get (names : list string) (h : nat) (k : string) :
  forall self,
    dict_get k (table_of (member_tables (patch_structs names self)) h)
    = if in_dec Nat.eq_dec h (visited_tables (structs self) names)
      then option_map patch_member (dict_get k (table_of (member_tables self) h))
      else dict_get k (table_of (member_tables self) h).
Proof.
  induction names as [|n names IH]; intros self.
  - reflexivity.
  - rewrite patch_structs_cons.
    change (visited_tables (structs self) (n :: names))
      with (match option_map struct_members (dict_get n (structs self)) with
            | Some h0 => h0 :: visited_tables (structs self) names
            | None => visited_tables (structs self) names
            end).
    destruct (dict_get n (structs self)) as [structDef|] eqn:Hget; cbn [option_map].
    2:{ rewrite IH. destruct (in_dec Nat.eq_dec h (visited_tables (structs self) names));
          reflexivity. }
    rewrite IH. cbn [structs member_tables with_member_tables].
    set (h0 := struct_members structDef).
    unfold members_of. fold h0.
    assert (Hstep : dict_get k
              (table_of (<[h0 := patch_members
                                   (dict_keys (table_of (member_tables self) h0))
                                   (table_of (member_tables self) h0)]>
                           (member_tables self)) h)
             = if decide (h0 = h)
               then option_map patch_member
                      (dict_get k (table_of (member_tables self) h))
               else dict_get k (table_of (member_tables self) h)).
    { rewrite table_of_insert.
      destruct (decide (h0 = h)) as [<-|Hne].
      - destruct (decide (h0 = h0 /\ h0 < length (member_tables self)))
          as [_|Hn].
        + apply patch_members_own_keys.
        + rewrite table_of_out_of_range by lia. reflexivity.
      - destruct (decide (h0 = h /\ h0 < length (member_tables self)))
          as [[? _]|_]; [contradiction|reflexivity]. }
    rewrite Hstep.
    destruct (in_dec Nat.eq_dec h (visited_tables (structs self) names)) as [Hin|Hnin];
      destruct (decide (h0 = h)) as [Heq|Hne];
      destruct (in_dec Nat.eq_dec h (h0 :: visited_tables (structs self) names))
        as [Hor|Hnor]; try reflexivity; try (simpl in *; tauto).
    destruct (dict_get k (table_of (member_tables self) h)); simpl; [|reflexivity].
    rewrite patch_member_idempotent. reflexivity.
Qed.

Lemma visited_tables_In (ss : dict VulkanStruct) (names : list string)
    (structName : string) (structDef : VulkanStruct) :
  In structName names -> dict_get structName ss = Some structDef ->
  In (struct_members structDef) (visited_tables ss names).
Proof.
  intros Hin Hget. unfold visited_tables.
  apply list_elem_of_In. apply list_elem_of_omap. exists structName.
  split; [apply list_elem_of_In; exact Hin|]. rewrite Hget. reflexivity.
Qed.

(** A second pass over patched dictionaries changes nothing. *)
Lemma patch_structs_clean (names : list string) (self : VulkanRegistry) :
  (forall structName structDef k m,
      dict_get structName (structs self) = Some structDef ->
      dict_get k (members_of self structDef) = Some m ->
      is_bool_bitmask m = false) ->
  patch_structs names self = self.
Proof.
  intros Hclean. induction names as [|n names IH]; [reflexivity|].
  rewrite patch_structs_cons.
  destruct (dict_get n (structs self)) as [structDef|] eqn:Hget; [|exact IH].
  rewrite patch_members_clean by (intros k m; apply (Hclean n structDef k m Hget)).
  unfold members_of. rewrite insert_table_of, with_member_tables_same. exact IH.
Qed.

Lemma set_limittype_inv (self self' : VulkanRegistry) (structName memberName v : string) :
  set_limittype self (structName, memberName, v) = Ok self' ->
  exists structDef memberDef,
    dict_get structName (structs self) = Some structDef
    /\ dict_get memberName (members_of self structDef) = Some memberDef
    /\ self' = with_member_tables self
                 (<[struct_members structDef :=
                      dict_set memberName (with_limittype memberDef (Some v))
                        (members_of self structDef)]> (member_tables self)).
Proof.
  unfold set_limittype, dict_item.
  destruct (dict_get structName (structs self)) as [structDef|] eqn:Hs;
    [|discriminate].
  cbn [bind].
  destruct (dict_get memberName (members_of self structDef)) as [memberDef|] eqn:Hm;
    [|discriminate].
  cbn [bind]. intros [= <-]. exists structDef, memberDef. auto.
Qed.

Lemma table_in_range (tables : list (dict VulkanStructMember)) (h : nat) (k : string)
    (m : VulkanStructMember) :
  dict_get k (table_of tables h) = Some m -> h < length tables.
Proof.
  intros H. destruct (decide (h < length tables)) as [Hlt|Hge]; [exact Hlt|].
  rewrite table_of_out_of_range in H by lia. discriminate.
Qed.

(** The first pass: the structures stay, the members of other names stay,
    and every assignment of the list is in force at the end, the member
    names of the list being distinct. *)
Lemma set_limittypes (ws : list (string * string * string)) :
  NoDup (map (fun w => snd (fst w)) ws) ->
  forall self self',
    for_each set_limittype ws self = Ok self' ->
    structs self' = structs self
    /\ (forall h k, ~ In k (map (fun w => snd (fst w)) ws) ->
                    dict_get k (table_of (member_tables self') h)
                    = dict_get k (table_of (member_tables self) h))
    /\ (forall structName memberName v,
           In (structName, memberName, v) ws ->
           exists structDef memberDef,
             dict_get structName (structs self') = Some structDef
             /\ dict_get memberName (members_of self' structDef) = Some memberDef
             /\ member_limittype memberDef = Some v).
Proof.
  induction ws as [|[[s0 m0] v0] ws IH]; intros Hnd self self'.
  - simpl. intros [= <-]. repeat split; auto. intros ? ? ? [].
  - cbn [for_each].
    destruct (set_limittype self (s0, m0, v0)) as [self1| |] eqn:Hstep;
      cbn [bind]; try discriminate.
    intros Hrest.
    apply set_limittype_inv in Hstep as [structDef [memberDef [Hs [Hm ->]]]].
    inversion Hnd as [|? ? Hnotin Hnd']; subst.
    rewrite list_elem_of_In in Hnotin.
    destruct (IH Hnd' _ _ Hrest) as [Hstructs [Hother Hall]].
    cbn [structs member_tables with_member_tables] in *.
    split; [exact Hstructs|]. split.
    + intros h k Hk. cbn [map fst snd] in Hk.
      rewrite Hother by (intros ?; apply Hk; right; assumption).
      rewrite table_of_insert.
      destruct (decide (struct_members structDef = h
                        /\ struct_members structDef < length (member_tables self)))
        as [[<- _]|_]; [|reflexivity].
      apply dict_get_set_ne. intros ->. apply Hk. left. reflexivity.
    + intros structName memberName v [Heq|Hin].
      * injection Heq as <- <- <-.
        exists structDef. rewrite Hstructs.
        unfold members_of. rewrite Hother by exact Hnotin.
        rewrite table_of_insert.
        destruct (decide (struct_members structDef = struct_members structDef
                          /\ struct_members structDef < length (member_tables self)))
          as [_|Hn].
        -- rewrite dict_get_set_eq. eexists. split; [exact Hs|].
           split; reflexivity.
        -- contradiction Hn. split; [reflexivity|].
           exact (table_in_range _ _ _ _ Hm).
      * exact (Hall structName memberName v Hin).
Qed.

Lemma workarounds_distinct_members :
  NoDup (map (fun w => snd (fst w)) workarounds).
Proof.
  apply (bool_decide_unpack _). vm_compute. exact I.
Qed.

Lemma workarounds_not_bitmask :
  forall structName memberName v,
    In (structName, memberName, v) workarounds -> v <> "bitmask".
Proof.
  intros structName memberName v Hin. simpl in Hin.
  repeat (destruct Hin as [Hin|Hin]; [injection Hin as <- <- <-; discriminate|]).
  destruct Hin.
Qed.

Lemma for_each_fixed {A S : Type} (body : S -> A -> outcome S) (xs : list A) (st : S) :
  (forall x, In x xs -> body st x = Ok st) -> for_each body xs st = Ok st.
Proof.
  induction xs as [|x xs IH]; intros H; [reflexivity|].
  simpl. rewrite (H x) by (left; reflexivity). simpl.
  apply IH. intros y Hy. apply H. right. exact Hy.
Qed.

(** The workaround pass changes nothing in a registry that it has
    produced. *)
Lemma applyWorkarounds_idempotent (self self' : VulkanRegistry) :
  applyWorkarounds self = Ok self' -> applyWorkarounds self' = Ok self'.
Proof.
  unfold applyWorkarounds.
  destruct (for_each set_limittype workarounds self) as [self1| |] eqn:Hpass1;
    cbn [bind]; try discriminate.
  intros [= <-].
  destruct (set_limittypes workarounds workarounds_distinct_members _ _ Hpass1)
    as [_ [_ Hall]].
  set (self' := patch_structs (dict_keys (structs self1)) self1).
  destruct (patch_structs_structs (dict_keys (structs self1)) self1)
    as [Hstructs _]. fold self' in Hstructs.
  assert (HA : forall structName memberName v,
             In (structName, memberName, v) workarounds ->
             exists structDef memberDef,
               dict_get structName (structs self') = Some structDef
               /\ dict_get memberName (members_of self' structDef) = Some memberDef
               /\ member_limittype memberDef = Some v).
  { intros structName memberName v Hin.
    destruct (Hall structName memberName v Hin) as [structDef [memberDef [Hs [Hm Hv]]]].
    exists structDef, memberDef. rewrite Hstructs. split; [exact Hs|].
    split; [|exact Hv].
    unfold members_of, self'. rewrite patch_structs_get.
    unfold members_of in Hm. rewrite Hm. cbn [option_map].
    rewrite (patch_member_limittype memberDef v Hv
               (workarounds_not_bitmask _ _ _ Hin)).
    destruct (in_dec Nat.eq_dec _ _); reflexivity. }
  assert (HB : forall structName structDef k m,
             dict_get structName (structs self') = Some structDef ->
             dict_get k (members_of self' structDef) = Some m ->
             is_bool_bitmask m = false).
  { intros structName structDef k m Hs Hm. rewrite Hstructs in Hs.
    unfold members_of, self' in Hm. rewrite patch_structs_get in Hm.
    destruct (in_dec Nat.eq_dec _ _) as [_|Hn].
    - destruct (dict_get k (table_of (member_tables self1) (struct_members structDef)))
        as [m0|]; [|discriminate].
      injection Hm as <-. apply patch_member_clean.
    - contradiction Hn.
      apply (visited_tables_In _ _ structName); [|exact Hs].
      exact (dict_get_In _ _ _ Hs). }
  rewrite for_each_fixed.
  - cbn [bind]. rewrite patch_structs_clean by exact HB. reflexivity.
  - intros [[structName memberName] v] Hin.
    destruct (HA structName memberName v Hin) as [structDef [memberDef [Hs [Hm Hv]]]].
    unfold set_limittype, dict_item. rewrite Hs. cbn [bind]. rewrite Hm. cbn [bind].
    rewrite (with_limittype_same memberDef (Some v) Hv).
    rewrite (dict_set_same _ _ _ Hm).
    unfold members_of. rewrite insert_table_of, with_member_tables_same.
    reflexivity.
Qed.

(** C9. In a registry that has been loaded, running the workaround pass
    again succeeds and leaves the registry as it is: every member keeps its
    limittype. *)
Theorem applyWorkarounds_again :
  forall (xml : XmlRegistry) (registry : VulkanRegistry),
    VulkanRegistry_init xml = Ok registry ->
    applyWorkarounds registry = Ok registry.
Proof.
  intros xml registry. unfold VulkanRegistry_init.
  destruct (parseVersionInfo xml (parsePlatformInfo xml empty_registry))
    as [r1| |]; cbn [bind]; try discriminate.
  destruct (parseExtensionInfo xml r1) as [r2| |]; cbn [bind]; try discriminate.
  destruct (parseStructInfo xml r2) as [r3| |]; cbn [bind]; try discriminate.
  destruct (parseAliases xml (parsePrerequisites xml r3)) as [r5| |];
    cbn [bind]; try discriminate.
  apply applyWorkarounds_idempotent.
Qed.

Lemma applyWorkarounds_again_witness :
  applyWorkarounds sample_registry = Ok sample_registry
  /\ option_map member_limittype
       (dict_get "timestampComputeAndGraphics"
          (table_of (member_tables sample_registry) 0))
     = Some (Some "noauto")
  /\ option_map member_limittype
       (dict_get "maxColorAttachments"
          (table_of (member_tables sample_registry) 0))
     = Some (Some "max").
Proof.
  split.
  - exact (applyWorkarounds_again sample_xml sample_registry sample_registry_loaded).
  - split; vm_compute; reflexivity.
Defined.

(** ** C4: aliases of structures *)

Lemma fold_left_invariant {A B : Type} (f : A -> B -> A) (P : A -> Prop)
    (l : list B) :
  (forall a x, P a -> P (f a x)) -> forall a, P a -> P (fold_left f l a).
Proof.
  intros Hstep. induction l as [|x l IH]; intros a Ha; simpl; [exact Ha|].
  apply IH. apply Hstep. exact Ha.
Qed.

Lemma applyWorkarounds_keeps (self self' : VulkanRegistry) :
  applyWorkarounds self = Ok self' ->
  structs self' = structs self
  /\ versions self' = versions self
  /\ extensions self' = extensions self.
Proof.
  unfold applyWorkarounds.
  destruct (for_each set_limittype workarounds self) as [self1| |] eqn:Hpass1;
    cbn [bind]; try discriminate.
  intros [= <-].
  destruct (patch_structs_structs (dict_keys (structs self1)) self1)
    as [H1 [H2 [H3 _]]].
  rewrite H1, H2, H3.
  apply (for_each_invariant set_limittype
           (fun st => structs st = structs self /\ versions st = versions self
                      /\ extensions st = extensions self)
           workarounds) with (st := self); [|auto|exact Hpass1].
  intros st [[structName memberName] v] st' [Hs [Hv He]] Hstep.
  apply set_limittype_inv in Hstep as [structDef [memberDef [_ [_ ->]]]].
  simpl. auto.
Qed.

Lemma sTypeAlias_in_versions_found (vs : dict VulkanVersion) (keys : list string)
    (definedByVersion sType alias : string) :
  sTypeAlias_in_versions vs keys definedByVersion sType = Some alias ->
  exists number v,
    dict_get number vs = Some v
    /\ String.leb number definedByVersion = true
    /\ dict_get sType (version_sTypeAliases v) = Some alias.
Proof.
  induction keys as [|version keys IH]; simpl; [discriminate|].
  destruct (String.leb version definedByVersion) eqn:Hle; [|exact IH].
  destruct (dict_get version vs) as [v|] eqn:Hv; [|exact IH].
  destruct (dict_get sType (version_sTypeAliases v)) as [a|] eqn:Ha; [|exact IH].
  intros [= <-]. exists version, v. auto.
Qed.

Lemma sTypeAlias_in_extensions_found (es : dict VulkanExtension)
    (names : list string) (sType alias : string) :
  sTypeAlias_in_extensions es names sType = Ok (Some alias) ->
  exists extName e,
    In extName names
    /\ dict_get extName es = Some e
    /\ dict_get sType (extension_sTypeAliases e) = Some alias.
Proof.
  induction names as [|extName names IH]; simpl; [discriminate|].
  unfold dict_item. destruct (dict_get extName es) as [e|] eqn:He;
    cbn [bind]; [|discriminate].
  destruct (dict_get sType (extension_sTypeAliases e)) as [a|] eqn:Ha.
  - intros [= <-]. exists extName, e. auto.
  - intros H. destruct (IH H) as [x [e' [Hin H']]]. exists x, e'. auto.
Qed.

(** One struct node that is not an alias leaves the registry as it is. *)
Lemma parseAlias_not_alias (self : VulkanRegistry) (t : XmlType) :
  xtype_alias t = None -> parseAlias self t = Ok self.
Proof. intros H. unfold parseAlias. rewrite H. reflexivity. Qed.

(** One alias node: the structure of its name takes the member dictionary,
    the alias list and the extends list of its base, and an alias of the
    sType of the base when the base has one; no other structure changes. *)
Lemma parseAlias_alias (self self' : VulkanRegistry) (t : XmlType) (base : string) :
  xtype_alias t = Some base ->
  parseAlias self t = Ok self' ->
  versions self' = versions self
  /\ extensions self' = extensions self
  /\ (forall k, k <> xtype_name t ->
                dict_get k (structs self') = dict_get k (structs self))
  /\ exists baseDef aliasDef0 aliasDef,
      dict_get base (structs self) = Some baseDef
      /\ dict_get (xtype_name t) (structs self) = Some aliasDef0
      /\ dict_get (xtype_name t) (structs self') = Some aliasDef
      /\ struct_members aliasDef = struct_members baseDef
      /\ struct_aliases aliasDef = struct_aliases baseDef
      /\ struct_extends aliasDef = struct_extends baseDef
      /\ match struct_sType baseDef with
         | Some sType =>
             exists alias, struct_sType aliasDef = Some alias
                           /\ sType_alias_of self' aliasDef sType alias
         | None => struct_sType aliasDef = struct_sType aliasDef0
         end.
Proof.
  intros Halias. unfold parseAlias. rewrite Halias.
  destruct (dict_get base (structs self)) as [baseDef|] eqn:Hbase; [|discriminate].
  unfold dict_item.
  destruct (dict_get (xtype_name t) (structs self)) as [aliasDef0|] eqn:Hown;
    cbn [bind]; [|discriminate].
  destruct (struct_sType baseDef) as [sType|] eqn:HsType.
  - set (inVersions := match struct_definedByVersion _ with
                       | Some definedByVersion => _
                       | None => None
                       end).
    destruct inVersions as [a|] eqn:HinV; cbn [bind].
    + intros [= <-]. cbn [versions extensions structs with_structs].
      split; [reflexivity|]. split; [reflexivity|]. split.
      * intros k Hk. rewrite !dict_get_set_ne by exact Hk. reflexivity.
      * exists baseDef, aliasDef0. eexists.
        split; [reflexivity|]. split; [reflexivity|].
        split; [apply dict_get_set_eq|].
        rewrite HsType.
        split; [reflexivity|]. split; [reflexivity|]. split; [reflexivity|].
        exists a. split; [reflexivity|].
        left. subst inVersions. cbn in HinV.
        destruct (struct_definedByVersion aliasDef0) as [dbv|] eqn:Hdbv;
          [|discriminate].
        apply sTypeAlias_in_versions_found in HinV as [number [v [H1 [_ H3]]]].
        exists number, v, dbv. cbn. auto.
    + destruct (sTypeAlias_in_extensions (extensions self)
                  (struct_definedByExtensions (share_with_base aliasDef0 baseDef))
                  sType) as [[a|]| |] eqn:HinE; cbn [bind]; try discriminate.
      intros [= <-]. cbn [versions extensions structs with_structs].
      split; [reflexivity|]. split; [reflexivity|]. split.
      * intros k Hk. rewrite !dict_get_set_ne by exact Hk. reflexivity.
      * exists baseDef, aliasDef0. eexists.
        split; [reflexivity|]. split; [reflexivity|].
        split; [apply dict_get_set_eq|].
        rewrite HsType.
        split; [reflexivity|]. split; [reflexivity|]. split; [reflexivity|].
        exists a. split; [reflexivity|].
        right. apply sTypeAlias_in_extensions_found in HinE
          as [extName [e [H1 [H2 H3]]]].
        exists extName, e. cbn in *. auto.
  - intros [= <-]. cbn [versions extensions structs].
    split; [reflexivity|]. split; [reflexivity|]. split.
    + intros k Hk. rewrite dict_get_set_ne by exact Hk. reflexivity.
    + exists baseDef, aliasDef0. eexists.
      split; [reflexivity|]. split; [reflexivity|].
      split; [apply dict_get_set_eq|].
      rewrite HsType. cbn. auto.
Qed.

(** A run of alias nodes leaves alone every structure that none of them
    names. *)
Lemma parseAliases_other (nodes : list XmlType) :
  forall self self',
    for_each parseAlias nodes self = Ok self' ->
    versions self' = versions self
    /\ extensions self' = extensions self
    /\ (forall k,
           (forall t, In t nodes -> xtype_alias t <> None -> xtype_name t <> k) ->
           dict_get k (structs self') = dict_get k (structs self)).
Proof.
  induction nodes as [|t nodes IH]; intros self self'.
  - simpl. intros [= <-]. auto.
  - cbn [for_each].
    destruct (parseAlias self t) as [self1| |] eqn:Hstep; cbn [bind];
      try discriminate.
    intros Hrest. destruct (IH _ _ Hrest) as [Hv [He Hk]].
    destruct (xtype_alias t) as [base|] eqn:Halias.
    + destruct (parseAlias_alias _ _ _ _ Halias Hstep) as [Hv1 [He1 [Hk1 _]]].
      split; [congruence|]. split; [congruence|].
      intros k Hnames. rewrite Hk by (intros t' Ht'; apply Hnames; right; exact Ht').
      apply Hk1. intros ->.
      apply (Hnames t); [left; reflexivity|rewrite Halias; discriminate|reflexivity].
    + rewrite parseAlias_not_alias in Hstep by exact Halias.
      injection Hstep as <-.
      split; [exact Hv|]. split; [exact He|].
      intros k Hnames. apply Hk. intros t' Ht'. apply Hnames. right. exact Ht'.
Qed.

Lemma parseStruct_inv (self self' : VulkanRegistry) (t : XmlType) :
  parseStruct self t = Ok self' ->
  exists structDef,
    structs self' = dict_set (xtype_name t) structDef (structs self)
    /\ struct_sType structDef = find_sType (xtype_members t).
Proof.
  unfold parseStruct.
  destruct (parseStructMembers (xtype_members t)) as [members| |]; cbn [bind];
    try discriminate.
  intros [= <-]. eexists. split; reflexivity.
Qed.










(** The chain of the counterexample is what the condition on the order of
    the alias nodes excludes; the same chain with the bases first meets
    it. *)
Example chain_xml_alias_before_base :
  aliases_follow_bases_from (xml_structs chain_xml) = false
  /\ aliases_follow_bases_from (xml_structs ordered_chain_xml) = true.
Proof. split; reflexivity. Qed.

(** ** Scenarios on the sample registry *)

(** The comparison of [validateStructDependency] is the one of strings,
    character by character. *)
Example version_order_is_lexicographic :
  String.leb "1.2" "1.2.0" = true
  /\ String.leb "1.3" "1.2.198" = false
  /\ String.leb "1.10" "1.2.0" = true.
Proof. repeat split. Qed.

(** An extension that the registry records as a device extension is listed
    in the device array, not in the instance array. *)
Example swapchain_in_device_array :
  exists p,
    VulkanProfile_init sample_registry "VP_SAMPLE_presentation"
      (sample_profile_data "1.2.0" ["presentation"]) sample_caps = Ok p
    /\ gen_extensionData sample_registry "device" p
       = Ok (nl +:+ "static const VkExtensionProperties _deviceExtensions[] = {" +:+ nl
             +:+ "    VkExtensionProperties{ VK_KHR_SWAPCHAIN_EXTENSION_NAME, 70 },"
             +:+ nl +:+ "};" +:+ nl)
    /\ gen_extensionData sample_registry "instance" p
       = Ok (nl +:+ "static const VkExtensionProperties _instanceExtensions[] = {" +:+ nl
             +:+ "    VkExtensionProperties{ VK_KHR_SURFACE_EXTENSION_NAME, 25 },"
             +:+ nl +:+ "};" +:+ nl)
    /\ profile_requirements p
       = ["VK_VERSION_1_2"; "VK_KHR_surface"; "VK_KHR_swapchain"].
Proof.
  destruct (VulkanProfile_init sample_registry "VP_SAMPLE_presentation"
              (sample_profile_data "1.2.0" ["presentation"]) sample_caps)
    as [p| |] eqn:Hp; [|vm_compute in Hp; discriminate..].
  exists p. split; [reflexivity|].
  vm_compute in Hp. injection Hp as <-.
  repeat split; vm_compute; reflexivity.
Qed.

(** Two capability blocks that set two members of one structure are merged
    into one value tree with both members. *)
Example two_fragments_one_structure :
  option_map caps_features
    (match VulkanProfileCapabilities_init sample_registry
             (sample_profile_data "1.2.0" ["baseline"; "tessellation"]) sample_caps
     with Ok c => Some c | _ => None end)
  = Some [("VkPhysicalDeviceFeatures",
           JDict [("geometryShader", JBool true);
                  ("tessellationShader", JBool true)])].
Proof. vm_compute. reflexivity. Qed.

(** * Further properties of the loader, the resolver and the emitter *)

(** ** The version patterns *)

Lemma span_digits_spec (s a b : string) :
  span_digits s = (a, b) ->
  s = a +:+ b
  /\ all_digits a = true
  /\ match b with String x _ => is_digit x = false | EmptyString => True end.
Proof.
  revert a b. induction s as [|c r IH]; intros a b; simpl.
  - intros [= <- <-]. auto.
  - destruct (is_digit c) eqn:Hc.
    + destruct (span_digits r) as [a' b'] eqn:Hr.
      intros [= <- <-]. destruct (IH a' b' eq_refl) as [H1 [H2 H3]].
      split; [|split].
      * change (String c r = String c (a' +:+ b')). rewrite <- H1. reflexivity.
      * simpl. rewrite Hc, H2. reflexivity.
      * exact H3.
    + intros [= <- <-]. split; [reflexivity|]. split; [reflexivity|exact Hc].
Qed.

Lemma match_major_minor_spec (s g rest : string) :
  match_major_minor s = Some (g, rest) ->
  exists c major minor,
    is_digit19 c = true /\ all_digits major = true /\ all_digits minor = true
    /\ minor <> EmptyString
    /\ g = String c major +:+ "." +:+ minor
    /\ s = g +:+ rest
    /\ match rest with String x _ => is_digit x = false | EmptyString => True end.
Proof.
  unfold match_major_minor. destruct s as [|c r]; [discriminate|].
  destruct (is_digit19 c) eqn:Hc; [|discriminate].
  destruct (span_digits r) as [major r1] eqn:Hr.
  destruct r1 as [|d r2]; [discriminate|].
  destruct (Ascii.eqb_spec d ".") as [->|_]; [|discriminate].
  destruct (span_digits r2) as [minor r3] eqn:Hr2.
  destruct minor as [|m0 minor']; [discriminate|].
  intros [= <- <-].
  destruct (span_digits_spec _ _ _ Hr) as [H1 [H2 _]].
  destruct (span_digits_spec _ _ _ Hr2) as [H3 [H4 H5]].
  exists c, major, (String m0 minor').
  split; [exact Hc|]. split; [exact H2|]. split; [exact H4|].
  split; [discriminate|]. split; [reflexivity|]. split; [|exact H5].
  rewrite H1, H3.
  change (String c (major +:+ String "."%char (String m0 minor' +:+ r3))
          = String c ((major +:+ String "."%char (String m0 minor')) +:+ r3)).
  rewrite append_assoc. reflexivity.
Qed.

Lemma is_digit19_digit (c : ascii) : is_digit19 c = true -> is_digit c = true.
Proof.
  destruct c as [[] [] [] [] [] [] [] []]; intros H; try reflexivity;
    vm_compute in H; discriminate.
Qed.

Lemma match_major_minor_complete (c : ascii) (major minor rest : string) :
  is_digit19 c = true -> all_digits major = true -> all_digits minor = true ->
  minor <> EmptyString ->
  match rest with String x _ => is_digit x = false | EmptyString => True end ->
  match_major_minor ((String c major +:+ "." +:+ minor) +:+ rest)
  = Some (String c major +:+ "." +:+ minor, rest).
Proof.
  intros Hc Hmaj Hmin Hne Hrest. unfold match_major_minor.
  change ((String c major +:+ "." +:+ minor) +:+ rest)
    with (String c ((major +:+ String "."%char minor) +:+ rest)).
  cbv beta iota. rewrite Hc, append_assoc.
  change (String "."%char minor +:+ rest) with (String "."%char (minor +:+ rest)).
  rewrite (span_digits_stop major "."%char (minor +:+ rest) Hmaj eq_refl).
  change (Ascii.eqb "." ".") with true. cbv iota.
  assert (Hspan : span_digits (minor +:+ rest) = (minor, rest)).
  { destruct rest as [|x rest'].
    - rewrite append_nil_r. apply span_digits_all. exact Hmin.
    - apply span_digits_stop; assumption. }
  rewrite Hspan. destruct minor; [contradiction|reflexivity].
Qed.

Lemma re_version_number_complete (c : ascii) (major minor : string) :
  is_digit19 c = true -> all_digits major = true -> all_digits minor = true ->
  minor <> EmptyString ->
  re_version_number (String c major +:+ "." +:+ minor) = true.
Proof.
  intros Hc Hmaj Hmin Hne. unfold re_version_number.
  rewrite <- (append_nil_r (String c major +:+ "." +:+ minor)).
  rewrite match_major_minor_complete; auto.
Qed.

(** X1. The version pattern of the registry accepts exactly the strings made
    of a digit from 1 to 9, digits, a dot and at least one digit, with at
    most one newline after them. *)
Theorem re_version_number_language :
  forall s : string,
    re_version_number s = true
    <-> exists c major minor,
        is_digit19 c = true /\ all_digits major = true /\ all_digits minor = true
        /\ minor <> EmptyString
        /\ (s = String c major +:+ "." +:+ minor
            \/ s = (String c major +:+ "." +:+ minor) +:+ nl).
Proof.
  intros s. unfold re_version_number. split.
  - destruct (match_major_minor s) as [[g rest]|] eqn:Hm; [|discriminate].
    destruct (match_major_minor_spec _ _ _ Hm)
      as [c [major [minor [Hc [Hmaj [Hmin [Hne [Hg [Hs _]]]]]]]]].
    intros Hd. exists c, major, minor. repeat split; auto.
    destruct rest as [|x [|y rest]]; simpl in Hd; try discriminate.
    + left. rewrite Hs, append_nil_r. exact Hg.
    + right. apply Ascii.eqb_eq in Hd. subst x. rewrite Hs, Hg. reflexivity.
  - intros [c [major [minor [Hc [Hmaj [Hmin [Hne [->| ->]]]]]]]].
    + rewrite <- (append_nil_r (String c major +:+ "." +:+ minor)).
      rewrite match_major_minor_complete; auto.
    + rewrite match_major_minor_complete; auto. reflexivity.
Qed.

(** X2. When the api-version of a profile is accepted, the version number
    taken from it is a proper prefix of it, the rest begins with a character
    that is not a digit, and the number satisfies the version pattern of
    the registry. *)
Theorem re_api_version_prefix :
  forall s g : string,
    re_api_version s = Some g ->
    re_version_number g = true
    /\ exists x rest, s = g +:+ String x rest /\ is_digit x = false.
Proof.
  intros s g. unfold re_api_version.
  destruct (match_major_minor s) as [[g' rest]|] eqn:Hm; [|discriminate].
  destruct rest as [|x rest]; [discriminate|].
  destruct (is_digit x) eqn:Hx; [discriminate|].
  destruct (span_line rest) as [line tail].
  destruct (at_dollar tail); [|discriminate].
  intros [= <-].
  destruct (match_major_minor_spec _ _ _ Hm)
    as [c [major [minor [Hc [Hmaj [Hmin [Hne [Hg [Hs _]]]]]]]]].
  split.
  - rewrite Hg. apply re_version_number_complete; assumption.
  - exists x, rest. auto.
Qed.

Lemma re_api_version_prefix_witness :
  re_version_number "1.2" = true
  /\ exists x rest, "1.2.198" = "1.2" +:+ String x rest /\ is_digit x = false.
Proof. apply (re_api_version_prefix "1.2.198" "1.2"). reflexivity. Defined.

(** ** The registry loader: versions, extensions, members *)

Lemma for_each_invariant_In {A S : Type} (body : S -> A -> outcome S) (P : S -> Prop)
    (xs : list A) :
  (forall st x st', In x xs -> P st -> body st x = Ok st' -> P st') ->
  forall st st', P st -> for_each body xs st = Ok st' -> P st'.
Proof.
  induction xs as [|x xs IH]; intros Hstep st st' HP; simpl.
  - intros [= <-]. exact HP.
  - destruct (body st x) as [st1| |] eqn:E; simpl; try discriminate.
    apply IH.
    + intros s y s' Hy. apply Hstep. right. exact Hy.
    + apply (Hstep st x st1); auto. left. reflexivity.
Qed.

(** Case analysis on the outcome of the loop in the goal. *)
Ltac destruct_loop st H :=
  match goal with
  | |- context [for_each ?body ?xs ?acc] =>
      destruct (for_each body xs acc) as [st| |] eqn:H; cbn [bind];
      try discriminate
  end.

(** A loop that returns has returned at every iteration. *)
Lemma for_each_ok_each {A S : Type} (body : S -> A -> outcome S) (good : A -> Prop)
    (xs : list A) :
  (forall st x st', body st x = Ok st' -> good x) ->
  forall st st', for_each body xs st = Ok st' -> forall x, In x xs -> good x.
Proof.
  intros Hgood. induction xs as [|x xs IH]; intros st st'; simpl; [tauto|].
  destruct (body st x) as [st1| |] eqn:E; simpl; try discriminate.
  intros Hrest y [<-|Hy]; [exact (Hgood _ _ _ E)|exact (IH _ _ Hrest y Hy)].
Qed.

(** X3. A registry whose versions were read has only version numbers that
    the version pattern accepts: every feature node has such a number, and
    every recorded version is stored under its own number, built from a
    feature node of the document; nothing else of the registry is touched. *)
Theorem parseVersionInfo_versions :
  forall (xml : XmlRegistry) (self self' : VulkanRegistry),
    parseVersionInfo xml self = Ok self' ->
    (forall feature, In feature (xml_features xml) ->
                     re_version_number (feature_number feature) = true)
    /\ (forall number v,
           dict_get number (versions self') = Some v ->
           re_version_number number = true
           /\ version_number v = number
           /\ exists feature, In feature (xml_features xml)
                              /\ v = VulkanVersion_init feature)
    /\ structs self' = structs self
    /\ extensions self' = extensions self
    /\ member_tables self' = member_tables self.
Proof.
  intros xml self self'. unfold parseVersionInfo.
  destruct_loop vs Hloop.
  intros [= <-]. cbn [versions structs extensions member_tables].
  split; [|split; [|auto]].
  - intros feature Hin.
    eapply (for_each_ok_each _
              (fun f => re_version_number (feature_number f) = true));
      [|exact Hloop|exact Hin].
    intros st x st' H. cbv beta in H.
    destruct (re_version_number (feature_number x)); [reflexivity|discriminate].
  - revert Hloop.
    apply (for_each_invariant_In _
             (fun vs : dict VulkanVersion =>
                forall number v,
                  dict_get number vs = Some v ->
                  re_version_number number = true
                  /\ version_number v = number
                  /\ exists feature, In feature (xml_features xml)
                                     /\ v = VulkanVersion_init feature)).
    + intros st x st' Hx Hst.
      destruct (re_version_number (feature_number x)) eqn:Hre; [|discriminate].
      intros [= <-] number v. rewrite dict_get_set.
      destruct (String.eqb_spec number (feature_number x)) as [->|_].
      * intros [= <-]. split; [exact Hre|]. split; [reflexivity|].
        exists x. auto.
      * apply Hst.
    + intros number v. discriminate.
Qed.

Lemma parseVersionInfo_versions_witness :
  exists v,
    dict_get "1.2" (versions sample_registry) = Some v
    /\ re_version_number "1.2" = true /\ version_number v = "1.2".
Proof.
  destruct (parseVersionInfo sample_xml (parsePlatformInfo sample_xml empty_registry))
    as [r| |] eqn:Hr; [|vm_compute in Hr; discriminate..].
  destruct (parseVersionInfo_versions _ _ _ Hr) as [_ [H _]].
  assert (Hv : versions r = versions sample_registry)
    by (vm_compute in Hr; injection Hr as <-; reflexivity).
  rewrite Hv in H.
  destruct (dict_get "1.2" (versions sample_registry)) as [v|] eqn:Hget;
    [|vm_compute in Hget; discriminate].
  exists v. split; [reflexivity|].
  destruct (H "1.2" v Hget) as [H1 [H2 _]]. auto.
Defined.

Lemma scope_parseAliases_from (enums : list XmlEnum) :
  forall (acc : dict string) (alias name : string),
    dict_get alias
      (fold_left
         (fun sTypeAliases sTypeAlias =>
            match enum_alias sTypeAlias with
            | Some alias =>
                if re_structure_type (enum_name sTypeAlias)
                then dict_set alias (enum_name sTypeAlias) sTypeAliases
                else sTypeAliases
            | None => sTypeAliases
            end) enums acc) = Some name ->
    dict_get alias acc = Some name
    \/ (re_structure_type name = true
        /\ exists e, In e enums /\ enum_alias e = Some alias /\ enum_name e = name).
Proof.
  induction enums as [|e enums IH]; intros acc alias name; simpl; [auto|].
  intros H. apply IH in H as [H|[Hre [e' [Hin [Ha Hn]]]]].
  - destruct (enum_alias e) as [a|] eqn:Ha; [|auto].
    destruct (re_structure_type (enum_name e)) eqn:Hre; [|auto].
    rewrite dict_get_set in H.
    destruct (String.eqb_spec alias a) as [->|_]; [|auto].
    injection H as <-. right. split; [exact Hre|]. exists e. auto.
  - right. split; [exact Hre|]. exists e'. auto.
Qed.

(** X4. The sType alias table of a version or an extension maps an sType
    only to the name of an enum of that scope that is declared as its alias
    and whose name begins with [VK_STRUCTURE_TYPE_]. *)
Theorem scope_parseAliases_sound :
  forall (enums : list XmlEnum) (sType name : string),
    dict_get sType (scope_parseAliases enums) = Some name ->
    re_structure_type name = true
    /\ exists e, In e enums /\ enum_alias e = Some sType /\ enum_name e = name.
Proof.
  intros enums sType name H. unfold scope_parseAliases in H.
  apply scope_parseAliases_from in H as [H|H]; [discriminate|exact H].
Qed.

Lemma scope_parseAliases_sound_witness :
  re_structure_type "VK_STRUCTURE_TYPE_PHYSICAL_DEVICE_VARIABLE_POINTERS_FEATURES_KHR"
  = true
  /\ exists e,
      In e [ xml_name_enum "VK_KHR_VARIABLE_POINTERS_EXTENSION_NAME"
               "VK_KHR_variable_pointers";
             xml_alias_enum
               "VK_STRUCTURE_TYPE_PHYSICAL_DEVICE_VARIABLE_POINTERS_FEATURES_KHR"
               "VK_STRUCTURE_TYPE_PHYSICAL_DEVICE_VARIABLE_POINTERS_FEATURES" ]
      /\ enum_alias e
         = Some "VK_STRUCTURE_TYPE_PHYSICAL_DEVICE_VARIABLE_POINTERS_FEATURES"
      /\ enum_name e
         = "VK_STRUCTURE_TYPE_PHYSICAL_DEVICE_VARIABLE_POINTERS_FEATURES_KHR".
Proof.
  apply (scope_parseAliases_sound _
           "VK_STRUCTURE_TYPE_PHYSICAL_DEVICE_VARIABLE_POINTERS_FEATURES").
  reflexivity.
Defined.

Lemma substring_split (s : string) :
  forall n m, n + m = String.length s ->
              String.substring 0 n s +:+ String.substring n m s = s.
Proof.
  induction s as [|c s IH]; intros n m H; simpl in H.
  - assert (n = 0) by lia. assert (m = 0) by lia. subst. reflexivity.
  - destruct n as [|n].
    + simpl in H. subst m. simpl.
      change (String c (String.substring 0 (String.length s) s) = String c s).
      f_equal. specialize (IH 0 (String.length s) eq_refl). simpl in IH.
      destruct s; [reflexivity|].
      exact IH.
    + simpl.
      change (String c (String.substring 0 n s +:+ String.substring n m s)
              = String c s).
      f_equal. apply IH. lia.
Qed.

(** What [endswith] cuts off is what [drop_last] leaves out. *)
Lemma endswith_drop_last (p s : string) :
  endswith p s = true -> drop_last (String.length p) s +:+ p = s.
Proof.
  unfold endswith, drop_last. intros H. apply andb_prop in H as [Hlen Heq].
  apply Nat.leb_le in Hlen. apply String.eqb_eq in Heq.
  rewrite <- Heq at 2. apply substring_split. lia.
Qed.

(** X5. Every extension that the registry records comes from an extension
    node of the document with that name and [supported="vulkan"], keeps the
    kind of that node, and its short name followed by [_EXTENSION_NAME] is
    the name of an enum of the node whose value is the quoted extension
    name. *)
Theorem parseExtensionInfo_recorded :
  forall (xml : XmlRegistry) (self self' : VulkanRegistry) (name : string)
         (e : VulkanExtension),
    parseExtensionInfo xml self = Ok self' ->
    dict_get name (extensions self') = Some e ->
    exists ext,
      In ext (xml_extensions xml)
      /\ xext_name ext = name
      /\ xext_supported ext = Some "vulkan"
      /\ extension_name e = name
      /\ extension_type e = xext_type ext
      /\ exists enum,
          In enum (xext_enums ext)
          /\ enum_value enum = Some (quoted name)
          /\ enum_name enum = extension_upperCaseName e +:+ EXTENSION_NAME.
Proof.
  intros xml self self' name e. unfold parseExtensionInfo.
  destruct_loop es Hloop.
  intros [= <-]. cbn [extensions]. revert name e. revert Hloop.
  apply (for_each_invariant_In _
           (fun es : dict VulkanExtension =>
              forall name e,
                dict_get name es = Some e ->
                exists ext,
                  In ext (xml_extensions xml)
                  /\ xext_name ext = name
                  /\ xext_supported ext = Some "vulkan"
                  /\ extension_name e = name
                  /\ extension_type e = xext_type ext
                  /\ exists enum,
                      In enum (xext_enums ext)
                      /\ enum_value enum = Some (quoted name)
                      /\ enum_name enum
                         = extension_upperCaseName e +:+ EXTENSION_NAME)).
  - intros st x st' Hx Hst.
    destruct (opt_is (xext_supported x) "vulkan") eqn:Hsup;
      [|intros [= <-]; exact Hst].
    destruct (List.find _ _) as [m|] eqn:Hfind; [|discriminate].
    intros [= <-] name e. rewrite dict_get_set.
    destruct (String.eqb_spec name (xext_name x)) as [->|_]; [|apply Hst].
    intros [= <-]. exists x. split; [exact Hx|]. split; [reflexivity|].
    split; [apply opt_is_true; exact Hsup|]. split; [reflexivity|].
    split; [reflexivity|].
    apply find_some in Hfind as [Hin Hends]. apply filter_In in Hin as [Hin Hval].
    exists m. split; [exact Hin|]. split.
    + destruct (enum_value m) as [v|]; [|discriminate].
      apply String.eqb_eq in Hval. rewrite Hval. reflexivity.
    + cbn [extension_upperCaseName VulkanExtension_init].
      symmetry. exact (endswith_drop_last EXTENSION_NAME (enum_name m) Hends).
  - intros name e. discriminate.
Qed.

Lemma parseExtensionInfo_recorded_witness :
  exists ext,
    In ext (xml_extensions sample_xml)
    /\ xext_name ext = "VK_KHR_swapchain"
    /\ xext_supported ext = Some "vulkan"
    /\ exists enum,
        In enum (xext_enums ext)
        /\ enum_value enum = Some (quoted "VK_KHR_swapchain")
        /\ enum_name enum = "VK_KHR_SWAPCHAIN" +:+ EXTENSION_NAME.
Proof.
  destruct (parseExtensionInfo sample_xml empty_registry) as [r| |] eqn:Hr;
    [|vm_compute in Hr; discriminate..].
  destruct (dict_get "VK_KHR_swapchain" (extensions r)) as [e|] eqn:He;
    [|vm_compute in Hr; injection Hr as <-; vm_compute in He; discriminate].
  destruct (parseExtensionInfo_recorded sample_xml empty_registry r
              "VK_KHR_swapchain" e Hr He)
    as [ext [H1 [H2 [H3 [_ [_ [enum [H6 [H7 H8]]]]]]]]].
  exists ext. split; [exact H1|]. split; [exact H2|]. split; [exact H3|].
  exists enum. split; [exact H6|]. split; [exact H7|].
  vm_compute in Hr. injection Hr as <-. vm_compute in He. injection He as <-.
  exact H8.
Defined.

(** X6. The member dictionary of a struct node never has the members
    [sType] and [pNext]; every entry is stored under its own name and comes
    from a member node of that name, with its type and limittype, and it is
    flagged as an array only if the text after the name of that node begins
    with a bracket. *)
Theorem parseStructMembers_members :
  forall (members : list XmlMember) (d : dict VulkanStructMember)
         (k : string) (m : VulkanStructMember),
    parseStructMembers members = Ok d ->
    dict_get k d = Some m ->
    k <> "sType" /\ k <> "pNext"
    /\ member_name m = k
    /\ exists x,
        In x members
        /\ xmember_name x = k
        /\ member_type m = xmember_type x
        /\ member_limittype m = xmember_limittype x
        /\ (member_isArray m = true ->
            exists tail, xmember_tail x = Some (String "[" tail)).
Proof.
  intros members d k m Hparse. revert k m. revert Hparse.
  unfold parseStructMembers.
  apply (for_each_invariant_In _
           (fun d : dict VulkanStructMember =>
              forall k m,
                dict_get k d = Some m ->
                k <> "sType" /\ k <> "pNext"
                /\ member_name m = k
                /\ exists x,
                    In x members
                    /\ xmember_name x = k
                    /\ member_type m = xmember_type x
                    /\ member_limittype m = xmember_limittype x
                    /\ (member_isArray m = true ->
                        exists tail, xmember_tail x = Some (String "[" tail)))).
  - intros st x st' Hx Hst.
    destruct (String.eqb_spec (xmember_name x) "sType") as [_|Hs];
      [intros [= <-]; exact Hst|].
    destruct (String.eqb_spec (xmember_name x) "pNext") as [_|Hp];
      [intros [= <-]; exact Hst|].
    cbn [negb andb].
    assert (Hentry : forall isArray,
               (isArray = true ->
                exists tail, xmember_tail x = Some (String "[" tail)) ->
               forall k m,
                 dict_get k
                   (dict_set (xmember_name x)
                      {| member_name := xmember_name x;
                         member_type := xmember_type x;
                         member_limittype := xmember_limittype x;
                         member_isArray := isArray |} st) = Some m ->
                 k <> "sType" /\ k <> "pNext"
                 /\ member_name m = k
                 /\ exists x0,
                     In x0 members
                     /\ xmember_name x0 = k
                     /\ member_type m = xmember_type x0
                     /\ member_limittype m = xmember_limittype x0
                     /\ (member_isArray m = true ->
                         exists tail, xmember_tail x0 = Some (String "[" tail))).
    { intros isArray Harr k m. rewrite dict_get_set.
      destruct (String.eqb_spec k (xmember_name x)) as [->|_]; [|apply Hst].
      intros [= <-]. split; [exact Hs|]. split; [exact Hp|].
      split; [reflexivity|]. exists x. cbn. auto. }
    destruct (xmember_tail x) as [[|c tail]|] eqn:Htail; try discriminate.
    + destruct (Ascii.eqb_spec c "[") as [->|_]; intros [= <-].
      * apply (Hentry true). intros _. exists tail. reflexivity.
      * apply (Hentry false). discriminate.
    + intros [= <-]. apply (Hentry false). discriminate.
  - intros k m. discriminate.
Qed.

Lemma parseStructMembers_members_witness :
  exists d m,
    parseStructMembers (xtype_members sample_limits) = Ok d
    /\ dict_get "pointSizeRange" d = Some m
    /\ member_name m = "pointSizeRange"
    /\ member_isArray m = true
    /\ exists x, In x (xtype_members sample_limits)
                 /\ xmember_name x = "pointSizeRange"
                 /\ member_limittype m = xmember_limittype x.
Proof.
  destruct (parseStructMembers (xtype_members sample_limits)) as [d| |] eqn:Hd;
    [|vm_compute in Hd; discriminate..].
  destruct (dict_get "pointSizeRange" d) as [m|] eqn:Hm;
    [|vm_compute in Hd; injection Hd as <-; vm_compute in Hm; discriminate].
  exists d, m. split; [reflexivity|]. split; [exact Hm|].
  destruct (parseStructMembers_members _ d "pointSizeRange" m Hd Hm)
    as [_ [_ [Hn [x [H1 [H2 [_ [H4 _]]]]]]]].
  split; [exact Hn|]. split.
  - vm_compute in Hd. injection Hd as <-. vm_compute in Hm. injection Hm as <-.
    reflexivity.
  - exists x. auto.
Defined.

(** ** The registry loader: prerequisites *)

Lemma require_fold_get (g : VulkanStruct -> VulkanStruct) (rts : list string)
    (n : string) :
  forall ss,
    dict_get n
      (fold_left
         (fun ss requireType =>
            match dict_get requireType ss with
            | Some s => dict_set requireType (g s) ss
            | None => ss
            end) rts ss)
    = option_map (Nat.iter (count_occ string_dec rts n) g) (dict_get n ss).
Proof.
  induction rts as [|rt rts IH]; intros ss.
  - simpl. destruct (dict_get n ss); reflexivity.
  - cbn [fold_left]. rewrite IH. cbn [count_occ].
    destruct (string_dec rt n) as [->|Hne].
    + destruct (dict_get n ss) as [s|] eqn:Hget.
      * rewrite dict_get_set_eq. cbn [option_map]. rewrite Nat.iter_succ_r.
        reflexivity.
      * rewrite Hget. reflexivity.
    + destruct (dict_get rt ss) as [s|]; [|reflexivity].
      rewrite dict_get_set_ne by congruence. reflexivity.
Qed.

Lemma iter_set_definedByVersion (k : nat) (v : option string) (s : VulkanStruct) :
  struct_definedByVersion (Nat.iter k (fun s => set_definedByVersion s v) s)
  = (if Nat.eqb k 0 then struct_definedByVersion s else v)
  /\ struct_definedByExtensions (Nat.iter k (fun s => set_definedByVersion s v) s)
     = struct_definedByExtensions s
  /\ struct_sType (Nat.iter k (fun s => set_definedByVersion s v) s) = struct_sType s
  /\ struct_members (Nat.iter k (fun s => set_definedByVersion s v) s)
     = struct_members s.
Proof.
  induction k as [|k [H1 [H2 [H3 H4]]]]; [auto|].
  cbn [Nat.iter Nat.eqb set_definedByVersion struct_definedByVersion
         struct_definedByExtensions struct_sType struct_members].
  auto.
Qed.

Lemma iter_add_definedByExtension (k : nat) (e : string) (s : VulkanStruct) :
  struct_definedByVersion (Nat.iter k (fun s => add_definedByExtension s e) s)
  = struct_definedByVersion s
  /\ struct_definedByExtensions (Nat.iter k (fun s => add_definedByExtension s e) s)
     = struct_definedByExtensions s ++ repeat e k.
Proof.
  induction k as [|k [H1 H2]].
  - simpl. rewrite app_nil_r. auto.
  - rewrite Nat.iter_succ.
    cbn [add_definedByExtension struct_definedByVersion struct_definedByExtensions].
    split; [exact H1|]. rewrite H2, <- app_assoc. f_equal.
    symmetry. apply repeat_cons.
Qed.

Lemma count_occ_zero_not_In (l : list string) (n : string) :
  Nat.eqb (count_occ string_dec l n) 0 = true <-> ~ In n l.
Proof.
  rewrite Nat.eqb_eq. symmetry. apply count_occ_not_In.
Qed.

(** The loop over the feature nodes, seen from one registered structure. *)
Lemma features_fold_get (n : string) (fs : list XmlFeature) :
  forall ss s,
    dict_get n ss = Some s ->
    exists s',
      dict_get n
        (fold_left
           (fun ss feature =>
              fold_left
                (fun ss requireType =>
                   match dict_get requireType ss with
                   | Some s =>
                       dict_set requireType
                         (set_definedByVersion s (Some (feature_number feature))) ss
                   | None => ss
                   end) (feature_types feature) ss) fs ss) = Some s'
      /\ struct_definedByExtensions s' = struct_definedByExtensions s
      /\ ((forall f, In f fs -> ~ In n (feature_types f)) ->
          struct_definedByVersion s' = struct_definedByVersion s)
      /\ (forall before f after,
             fs = before ++ f :: after ->
             In n (feature_types f) ->
             (forall f', In f' after -> ~ In n (feature_types f')) ->
             struct_definedByVersion s' = Some (feature_number f)).
Proof.
  induction fs as [|f0 fs IH]; intros ss s Hget.
  - exists s. repeat split; auto. intros before f after H.
    destruct before; discriminate.
  - cbn [fold_left].
    pose proof (require_fold_get
                  (fun s => set_definedByVersion s (Some (feature_number f0)))
                  (feature_types f0) n ss) as Hinner.
    rewrite Hget in Hinner. cbn [option_map] in Hinner.
    destruct (IH _ _ Hinner) as [s' [Hs' [Hdbe [Hnone Hlast]]]].
    destruct (iter_set_definedByVersion
                (count_occ string_dec (feature_types f0) n)
                (Some (feature_number f0)) s) as [Hv [He _]].
    exists s'. split; [exact Hs'|]. split; [congruence|]. split.
    + intros Hno. rewrite Hnone by (intros f Hf; apply Hno; right; exact Hf).
      rewrite Hv.
      assert (H0 : Nat.eqb (count_occ string_dec (feature_types f0) n) 0 = true)
        by (apply count_occ_zero_not_In; apply Hno; left; reflexivity).
      rewrite H0. reflexivity.
    + intros before f after Hsplit Hin Hafter.
      destruct before as [|b before]; simpl in Hsplit.
      * injection Hsplit as -> ->. rewrite Hnone by exact Hafter. rewrite Hv.
        destruct (Nat.eqb (count_occ string_dec (feature_types f) n) 0) eqn:H0;
          [|reflexivity].
        apply count_occ_zero_not_In in H0. contradiction.
      * injection Hsplit as _ ->. exact (Hlast before f after eq_refl Hin Hafter).
Qed.

(** The loop over the extension nodes, seen from one registered structure. *)
Lemma extensions_fold_get (n : string) (es : list XmlExtension) :
  forall ss s,
    dict_get n ss = Some s ->
    exists s',
      dict_get n
        (fold_left
           (fun ss extension =>
              fold_left
                (fun ss requireType =>
                   match dict_get requireType ss with
                   | Some s =>
                       dict_set requireType
                         (add_definedByExtension s (xext_name extension)) ss
                   | None => ss
                   end) (xext_types extension) ss) es ss) = Some s'
      /\ struct_definedByVersion s' = struct_definedByVersion s
      /\ struct_definedByExtensions s'
         = struct_definedByExtensions s
           ++ flat_map (fun ext => repeat (xext_name ext)
                                     (count_occ string_dec (xext_types ext) n)) es.
Proof.
  induction es as [|e0 es IH]; intros ss s Hget.
  - exists s. simpl. rewrite app_nil_r. auto.
  - cbn [fold_left flat_map].
    pose proof (require_fold_get
                  (fun s => add_definedByExtension s (xext_name e0))
                  (xext_types e0) n ss) as Hinner.
    rewrite Hget in Hinner. cbn [option_map] in Hinner.
    destruct (IH _ _ Hinner) as [s' [Hs' [Hdbv Hdbe]]].
    destruct (iter_add_definedByExtension
                (count_occ string_dec (xext_types e0) n) (xext_name e0) s)
      as [Hv He].
    exists s'. split; [exact Hs'|]. split; [congruence|].
    rewrite Hdbe, He, <- app_assoc. reflexivity.
Qed.

(** X7. The version that defines a structure is the number of the last
    feature node of the document that requires it: a later feature node
    replaces the number that an earlier one has set. *)
Theorem parsePrerequisites_last_feature :
  forall (xml : XmlRegistry) (self : VulkanRegistry) (n : string) (s : VulkanStruct)
         (before : list XmlFeature) (feature : XmlFeature) (after : list XmlFeature),
    dict_get n (structs self) = Some s ->
    xml_features xml = before ++ feature :: after ->
    In n (feature_types feature) ->
    (forall f', In f' after -> ~ In n (feature_types f')) ->
    exists s',
      dict_get n (structs (parsePrerequisites xml self)) = Some s'
      /\ struct_definedByVersion s' = Some (feature_number feature).
Proof.
  intros xml self n s before feature after Hget Hsplit Hin Hafter.
  unfold parsePrerequisites. cbn [structs with_structs].
  destruct (features_fold_get n (xml_features xml) _ _ Hget)
    as [s1 [Hs1 [_ [_ Hlast]]]].
  destruct (extensions_fold_get n (xml_extensions xml) _ _ Hs1)
    as [s2 [Hs2 [Hdbv _]]].
  exists s2. split; [exact Hs2|].
  rewrite Hdbv. exact (Hlast before feature after Hsplit Hin Hafter).
Qed.

(** X8. The extensions that define a structure are, after those it had, the
    names of the extension nodes of the document that require it, supported
    or not, in document order and once per requirement; a structure that no
    feature node requires keeps its version. *)
Theorem parsePrerequisites_extensions :
  forall (xml : XmlRegistry) (self : VulkanRegistry) (n : string) (s : VulkanStruct),
    dict_get n (structs self) = Some s ->
    exists s',
      dict_get n (structs (parsePrerequisites xml self)) = Some s'
      /\ struct_definedByExtensions s'
         = struct_definedByExtensions s
           ++ flat_map (fun ext => repeat (xext_name ext)
                                     (count_occ string_dec (xext_types ext) n))
                (xml_extensions xml)
      /\ (forall e,
             In e (struct_definedByExtensions s') <->
             In e (struct_definedByExtensions s)
             \/ exists ext, In ext (xml_extensions xml)
                            /\ xext_name ext = e /\ In n (xext_types ext))
      /\ ((forall f, In f (xml_features xml) -> ~ In n (feature_types f)) ->
          struct_definedByVersion s' = struct_definedByVersion s).
Proof.
  intros xml self n s Hget.
  unfold parsePrerequisites. cbn [structs with_structs].
  destruct (features_fold_get n (xml_features xml) _ _ Hget)
    as [s1 [Hs1 [Hdbe1 [Hnone _]]]].
  destruct (extensions_fold_get n (xml_extensions xml) _ _ Hs1)
    as [s2 [Hs2 [Hdbv Hdbe]]].
  exists s2. split; [exact Hs2|]. rewrite Hdbe1 in Hdbe.
  split; [exact Hdbe|]. split.
  - intros e. rewrite Hdbe, in_app_iff, in_flat_map. split.
    + intros [H|[ext [Hin Hrep]]]; [left; exact H|right].
      exists ext. split; [exact Hin|].
      apply repeat_spec in Hrep as Heq. split; [auto|].
      destruct (in_dec string_dec n (xext_types ext)) as [Hn|Hn]; [exact Hn|].
      apply (count_occ_not_In string_dec) in Hn. rewrite Hn in Hrep. destruct Hrep.
    + intros [H|[ext [Hin [<- Hn]]]]; [left; exact H|right].
      exists ext. split; [exact Hin|].
      apply (count_occ_In string_dec) in Hn.
      destruct (count_occ string_dec (xext_types ext) n) as [|k]; [lia|].
      left. reflexivity.
  - intros Hno. rewrite Hdbv. exact (Hnone Hno).
Qed.

Lemma parsePrerequisites_last_feature_witness :
  exists s',
    dict_get "VkPhysicalDeviceLimits"
      (structs (parsePrerequisites required_again_xml sample_parsed)) = Some s'
    /\ struct_definedByVersion s' = Some "1.3".
Proof.
  destruct (dict_get "VkPhysicalDeviceLimits" (structs sample_parsed)) as [s|] eqn:Hs;
    [|vm_compute in Hs; discriminate].
  apply (parsePrerequisites_last_feature required_again_xml sample_parsed
           "VkPhysicalDeviceLimits" s (xml_features sample_xml) required_again []
           Hs eq_refl).
  - simpl. tauto.
  - intros f' [].
Defined.

Lemma parsePrerequisites_extensions_witness :
  exists s',
    dict_get "VkPhysicalDeviceVariablePointersFeaturesKHR"
      (structs (parsePrerequisites sample_xml sample_parsed)) = Some s'
    /\ struct_definedByExtensions s' = ["VK_KHR_variable_pointers"].
Proof.
  destruct (dict_get "VkPhysicalDeviceVariablePointersFeaturesKHR"
              (structs sample_parsed)) as [s|] eqn:Hs;
    [|vm_compute in Hs; discriminate].
  destruct (parsePrerequisites_extensions sample_xml sample_parsed
              "VkPhysicalDeviceVariablePointersFeaturesKHR" s Hs)
    as [s' [H1 [H2 _]]].
  exists s'. split; [exact H1|]. rewrite H2.
  vm_compute in Hs. injection Hs as <-. reflexivity.
Defined.

(** ** The registry loader: aliases and workarounds *)

Lemma dict_keys_set_present {V : Type} (k : string) (v v' : V) (d : dict V) :
  dict_get k d = Some v' -> dict_keys (dict_set k v d) = dict_keys d.
Proof.
  induction d as [|[k0 v0] d IH]; simpl; [discriminate|].
  destruct (String.eqb_spec k k0) as [->|_]; simpl; [reflexivity|].
  intros H. rewrite (IH H). reflexivity.
Qed.

Lemma parseAlias_keys (self self' : VulkanRegistry) (t : XmlType) :
  parseAlias self t = Ok self' ->
  dict_keys (structs self') = dict_keys (structs self)
  /\ forall base, xtype_alias t = Some base -> In base (dict_keys (structs self)).
Proof.
  unfold parseAlias. destruct (xtype_alias t) as [alias|];
    [|intros [= <-]; split; [reflexivity|discriminate]].
  destruct (dict_get alias (structs self)) as [baseDef|] eqn:Hbase; [|discriminate].
  unfold dict_item.
  destruct (dict_get (xtype_name t) (structs self)) as [aliasDef0|] eqn:Hown;
    cbn [bind]; [|discriminate].
  assert (Hbase' : forall base, Some alias = Some base ->
                                In base (dict_keys (structs self)))
    by (intros base [= <-]; exact (dict_get_In _ _ _ Hbase)).
  destruct (struct_sType baseDef) as [sType|].
  - match goal with
    | |- context [bind ?c _] => destruct c as [[a|]| |]; cbn [bind];
                                try discriminate
    end.
    intros [= <-]. cbn [structs with_structs]. split; [|exact Hbase'].
    rewrite (dict_keys_set_present _ _ (share_with_base aliasDef0 baseDef))
      by apply dict_get_set_eq.
    apply (dict_keys_set_present _ _ aliasDef0). exact Hown.
  - intros [= <-]. cbn [structs]. split; [|exact Hbase'].
    apply (dict_keys_set_present _ _ aliasDef0). exact Hown.
Qed.

(** X9. Reading the aliases neither adds nor removes a structure, and it
    succeeds only if the base of every alias node is a registered
    structure. *)
Theorem parseAliases_targets_registered :
  forall (xml : XmlRegistry) (self self' : VulkanRegistry),
    parseAliases xml self = Ok self' ->
    dict_keys (structs self') = dict_keys (structs self)
    /\ forall t base,
        In t (xml_structs xml) -> xtype_alias t = Some base ->
        In base (dict_keys (structs self')).
Proof.
  intros xml self self'. unfold parseAliases.
  generalize (xml_structs xml) as nodes. intros nodes. revert self.
  induction nodes as [|t0 nodes IH]; intros self.
  - simpl. intros [= <-]. split; [reflexivity|]. intros t base [].
  - cbn [for_each].
    destruct (parseAlias self t0) as [self1| |] eqn:Hstep; cbn [bind];
      try discriminate.
    intros Hrest. destruct (IH _ Hrest) as [Hkeys Hall].
    destruct (parseAlias_keys _ _ _ Hstep) as [Hkeys1 Hbase].
    split; [congruence|].
    intros t base [<-|Hin] Halias.
    + rewrite Hkeys, Hkeys1. exact (Hbase base Halias).
    + exact (Hall t base Hin Halias).
Qed.

Lemma parseAliases_targets_registered_witness :
  In "VkPhysicalDeviceVariablePointersFeatures" (dict_keys (structs sample_aliased)).
Proof.
  assert (Hr : parseAliases sample_xml (parsePrerequisites sample_xml sample_parsed)
               = Ok sample_aliased) by (vm_compute; reflexivity).
  exact (proj2 (parseAliases_targets_registered sample_xml
                  (parsePrerequisites sample_xml sample_parsed) sample_aliased Hr)
           (xml_alias "VkPhysicalDeviceVariablePointersFeaturesKHR"
              "VkPhysicalDeviceVariablePointersFeatures")
           "VkPhysicalDeviceVariablePointersFeatures"
           ltac:(simpl; tauto) eq_refl).
Defined.

Lemma set_limittype_present (self : VulkanRegistry) (w : string * string * string) :
  workaround_present self w = true ->
  exists self',
    set_limittype self w = Ok self'
    /\ forall w', workaround_present self' w' = workaround_present self w'.
Proof.
  destruct w as [[structName memberName] v]. unfold workaround_present.
  cbn [fst snd].
  destruct (dict_get structName (structs self)) as [structDef|] eqn:Hs;
    [|discriminate].
  unfold dict_mem.
  destruct (dict_get memberName (members_of self structDef)) as [memberDef|] eqn:Hm;
    [|discriminate].
  intros _. eexists. split.
  - unfold set_limittype, dict_item. rewrite Hs. cbn [bind]. rewrite Hm.
    reflexivity.
  - intros [[s' m'] v']. cbn [fst snd structs with_member_tables].
    destruct (dict_get s' (structs self)) as [sd'|]; [|reflexivity].
    unfold members_of. cbn [member_tables with_member_tables].
    rewrite table_of_insert.
    destruct (decide (struct_members structDef = struct_members sd'
                      /\ struct_members structDef < length (member_tables self)))
      as [[Heq _]|_]; [|reflexivity].
    rewrite dict_get_set. rewrite <- Heq.
    destruct (String.eqb_spec m' memberName) as [->|_]; [|reflexivity].
    unfold members_of in Hm. rewrite Hm. reflexivity.
Qed.

Lemma set_limittype_absent (self : VulkanRegistry) (w : string * string * string) :
  workaround_present self w = false -> set_limittype self w = Raised KeyError.
Proof.
  destruct w as [[structName memberName] v]. unfold workaround_present, set_limittype.
  cbn [fst snd]. unfold dict_item, dict_mem.
  destruct (dict_get structName (structs self)) as [structDef|]; [|reflexivity].
  cbn [bind].
  destruct (dict_get memberName (members_of self structDef)); [discriminate|].
  reflexivity.
Qed.

Lemma set_limittypes_present (ws : list (string * string * string)) :
  forall self,
    if forallb (workaround_present self) ws
    then exists self', for_each set_limittype ws self = Ok self'
    else for_each set_limittype ws self = Raised KeyError.
Proof.
  induction ws as [|w ws IH]; intros self.
  - simpl. eauto.
  - cbn [forallb for_each].
    destruct (workaround_present self w) eqn:Hw.
    + destruct (set_limittype_present self w Hw) as [self1 [-> Hsame]].
      cbn [bind andb]. specialize (IH self1).
      assert (Hext : forallb (workaround_present self1) ws
                     = forallb (workaround_present self) ws).
      { clear IH. induction ws as [|w' ws IHws]; [reflexivity|].
        cbn [forallb]. rewrite Hsame, IHws. reflexivity. }
      rewrite Hext in IH. exact IH.
    + rewrite (set_limittype_absent self w Hw). reflexivity.
Qed.

(** X10. The workaround pass needs every structure and member that its
    assignments name: it succeeds when they are all registered, and ends
    with a [KeyError] as soon as one is not. *)
Theorem applyWorkarounds_needs_members :
  forall self : VulkanRegistry,
    if forallb (workaround_present self) workarounds
    then is_ok (applyWorkarounds self) = true
    else applyWorkarounds self = Raised KeyError.
Proof.
  intros self. unfold applyWorkarounds.
  pose proof (set_limittypes_present workarounds self) as H.
  destruct (forallb (workaround_present self) workarounds).
  - destruct H as [self' ->]. reflexivity.
  - rewrite H. reflexivity.
Qed.

(** X11. After the workaround pass, every assignment of its table is in
    force, and no member of a registered structure is a [VkBool32] of
    limittype [bitmask]. *)
Theorem applyWorkarounds_overrides :
  forall self self' : VulkanRegistry,
    applyWorkarounds self = Ok self' ->
    (forall structName memberName v,
        In (structName, memberName, v) workarounds ->
        exists structDef memberDef,
          dict_get structName (structs self') = Some structDef
          /\ dict_get memberName (members_of self' structDef) = Some memberDef
          /\ member_limittype memberDef = Some v)
    /\ (forall structName structDef k m,
           dict_get structName (structs self') = Some structDef ->
           dict_get k (members_of self' structDef) = Some m ->
           ~ (member_type m = "VkBool32" /\ member_limittype m = Some "bitmask")).
Proof.
  intros self self'. unfold applyWorkarounds.
  destruct (for_each set_limittype workarounds self) as [self1| |] eqn:Hpass1;
    cbn [bind]; try discriminate.
  intros [= <-].
  destruct (set_limittypes workarounds workarounds_distinct_members _ _ Hpass1)
    as [_ [_ Hall]].
  destruct (patch_structs_structs (dict_keys (structs self1)) self1)
    as [Hstructs _].
  split.
  - intros structName memberName v Hin.
    destruct (Hall structName memberName v Hin) as [structDef [memberDef [Hs [Hm Hv]]]].
    exists structDef, memberDef. rewrite Hstructs. split; [exact Hs|].
    split; [|exact Hv].
    unfold members_of. rewrite patch_structs_get.
    unfold members_of in Hm. rewrite Hm. cbn [option_map].
    rewrite (patch_member_limittype memberDef v Hv
               (workarounds_not_bitmask _ _ _ Hin)).
    destruct (in_dec Nat.eq_dec _ _); reflexivity.
  - intros structName structDef k m Hs Hm [Htype Hlimit].
    rewrite Hstructs in Hs.
    unfold members_of in Hm. rewrite patch_structs_get in Hm.
    assert (Hclean : is_bool_bitmask m = false).
    { destruct (in_dec Nat.eq_dec _ _) as [_|Hn].
      - destruct (dict_get k (table_of (member_tables self1) (struct_members structDef)))
          as [m0|]; [|discriminate].
        injection Hm as <-. apply patch_member_clean.
      - contradiction Hn.
        apply (visited_tables_In _ _ structName); [|exact Hs].
        exact (dict_get_In _ _ _ Hs). }
    unfold is_bool_bitmask in Hclean. rewrite Htype, Hlimit in Hclean.
    discriminate.
Qed.

Lemma applyWorkarounds_overrides_witness :
  exists structDef memberDef,
    dict_get "VkPhysicalDeviceLimits" (structs sample_registry) = Some structDef
    /\ dict_get "maxColorAttachments" (members_of sample_registry structDef)
       = Some memberDef
    /\ member_limittype memberDef = Some "max".
Proof.
  assert (Hr : applyWorkarounds sample_aliased = Ok sample_registry)
    by (vm_compute; reflexivity).
  exact (proj1 (applyWorkarounds_overrides sample_aliased sample_registry Hr)
           "VkPhysicalDeviceLimits" "maxColorAttachments" "max"
           ltac:(unfold workarounds; simpl; tauto)).
Defined.

Lemma member_shape_patch_member (m : VulkanStructMember) :
  member_shape (patch_member m) = member_shape m.
Proof. unfold patch_member. destruct (is_bool_bitmask m); reflexivity. Qed.

(** X12. The workaround pass touches limittypes only: the structures, the
    versions, the extensions and the alias lists stay, every member
    dictionary keeps its keys and the name, type and array flag of each
    member, and a member that the table does not name and that is not a
    [VkBool32] of limittype [bitmask] is left as it is. *)
Theorem applyWorkarounds_only_limittypes :
  forall self self' : VulkanRegistry,
    applyWorkarounds self = Ok self' ->
    structs self' = structs self
    /\ versions self' = versions self
    /\ extensions self' = extensions self
    /\ alias_lists self' = alias_lists self
    /\ (forall h k,
           option_map member_shape (dict_get k (table_of (member_tables self') h))
           = option_map member_shape (dict_get k (table_of (member_tables self) h)))
    /\ (forall h k m,
           ~ In k (map (fun w => snd (fst w)) workarounds) ->
           dict_get k (table_of (member_tables self) h) = Some m ->
           is_bool_bitmask m = false ->
           dict_get k (table_of (member_tables self') h) = Some m).
Proof.
  intros self self'. unfold applyWorkarounds.
  destruct (for_each set_limittype workarounds self) as [self1| |] eqn:Hpass1;
    cbn [bind]; try discriminate.
  intros [= <-].
  destruct (patch_structs_structs (dict_keys (structs self1)) self1)
    as [H1 [H2 [H3 [_ H5]]]].
  rewrite H1, H2, H3, H5.
  assert (Hinv : structs self1 = structs self /\ versions self1 = versions self
                 /\ extensions self1 = extensions self
                 /\ alias_lists self1 = alias_lists self
                 /\ forall h k,
                     option_map member_shape
                       (dict_get k (table_of (member_tables self1) h))
                     = option_map member_shape
                         (dict_get k (table_of (member_tables self) h))).
  { apply (for_each_invariant set_limittype
             (fun st => structs st = structs self /\ versions st = versions self
                        /\ extensions st = extensions self
                        /\ alias_lists st = alias_lists self
                        /\ forall h k,
                            option_map member_shape
                              (dict_get k (table_of (member_tables st) h))
                            = option_map member_shape
                                (dict_get k (table_of (member_tables self) h)))
             workarounds) with (st := self); [|auto 6|exact Hpass1].
    intros st [[structName memberName] v] st' [Hs [Hv [He [Ha Hshape]]]] Hstep.
    apply set_limittype_inv in Hstep as [structDef [memberDef [_ [Hm ->]]]].
    cbn [structs versions extensions alias_lists member_tables with_member_tables].
    split; [exact Hs|]. split; [exact Hv|]. split; [exact He|].
    split; [exact Ha|].
    intros h k. rewrite <- Hshape, table_of_insert.
    destruct (decide (struct_members structDef = h
                      /\ struct_members structDef < length (member_tables st)))
      as [[<- _]|_]; [|reflexivity].
    rewrite dict_get_set. unfold members_of in *.
    destruct (String.eqb_spec k memberName) as [->|_]; [|reflexivity].
    rewrite Hm. reflexivity. }
  destruct Hinv as [Hs [Hv [He [Ha Hshape]]]].
  split; [exact Hs|]. split; [exact Hv|]. split; [exact He|].
  split; [exact Ha|]. split.
  - intros h k. rewrite patch_structs_get, <- Hshape.
    destruct (in_dec Nat.eq_dec _ _); [|reflexivity].
    destruct (dict_get k (table_of (member_tables self1) h)) as [m|];
      [|reflexivity].
    cbn [option_map]. rewrite member_shape_patch_member. reflexivity.
  - intros h k m Hk Hm Hclean.
    destruct (set_limittypes workarounds workarounds_distinct_members _ _ Hpass1)
      as [_ [Hother _]].
    rewrite patch_structs_get, (Hother h k Hk), Hm. cbn [option_map].
    unfold patch_member. rewrite Hclean.
    destruct (in_dec Nat.eq_dec _ _); reflexivity.
Qed.

Lemma applyWorkarounds_only_limittypes_witness :
  structs sample_registry = structs sample_aliased
  /\ option_map member_shape
       (dict_get "maxColorAttachments" (table_of (member_tables sample_registry) 0))
     = option_map member_shape
         (dict_get "maxColorAttachments" (table_of (member_tables sample_aliased) 0)).
Proof.
  assert (Hr : applyWorkarounds sample_aliased = Ok sample_registry)
    by (vm_compute; reflexivity).
  destruct (applyWorkarounds_only_limittypes sample_aliased sample_registry Hr)
    as [H1 [_ [_ [_ [H5 _]]]]].
  split; [exact H1|exact (H5 0 "maxColorAttachments")].
Defined.

(** ** The registry loader: what a loaded registry holds *)

(** A loop that stores one entry per selected element: the keys at the end
    are the keys at the start and the keys of the selected elements. *)
Lemma for_each_keys {A S V : Type} (body : S -> A -> outcome S) (proj : S -> dict V)
    (key : A -> string) (sel : A -> bool) :
  (forall st x st', body st x = Ok st' ->
                    if sel x then exists v, proj st' = dict_set (key x) v (proj st)
                    else proj st' = proj st) ->
  forall xs st st',
    for_each body xs st = Ok st' ->
    forall k, dict_mem k (proj st') = true
              <-> dict_mem k (proj st) = true
                  \/ exists x, In x xs /\ sel x = true /\ key x = k.
Proof.
  intros Hbody. induction xs as [|x xs IH]; intros st st'.
  - simpl. intros [= <-] k. split; [auto|]. intros [H|[x [[] _]]]. exact H.
  - cbn [for_each]. destruct (body st x) as [st1| |] eqn:Hstep; cbn [bind];
      try discriminate.
    intros Hrest k. rewrite (IH _ _ Hrest k).
    specialize (Hbody _ _ _ Hstep).
    destruct (sel x) eqn:Hsel.
    + destruct Hbody as [v ->]. rewrite dict_mem_set. split.
      * intros [H|[y [Hy [Hs Hk]]]].
        -- apply orb_prop in H as [H|H]; [|left; exact H].
           apply String.eqb_eq in H. right. exists x. simpl. auto.
        -- right. exists y. simpl. auto.
      * intros [H|[y [[<-|Hy] [Hs Hk]]]].
        -- left. rewrite H. apply orb_true_r.
        -- left. rewrite Hk, String.eqb_refl. reflexivity.
        -- right. exists y. auto.
    + rewrite Hbody. split.
      * intros [H|[y [Hy [Hs Hk]]]]; [left; exact H|right; exists y; simpl; auto].
      * intros [H|[y [[<-|Hy] [Hs Hk]]]]; [left; exact H|congruence|].
        right. exists y. auto.
Qed.

Lemma require_fold_mem (g : VulkanStruct -> VulkanStruct) (rts : list string)
    (k : string) :
  forall ss,
    dict_mem k
      (fold_left
         (fun ss requireType =>
            match dict_get requireType ss with
            | Some s => dict_set requireType (g s) ss
            | None => ss
            end) rts ss)
    = dict_mem k ss.
Proof.
  intros ss. unfold dict_mem. rewrite require_fold_get.
  destruct (dict_get k ss); reflexivity.
Qed.

Lemma parsePrerequisites_mem (xml : XmlRegistry) (self : VulkanRegistry) (k : string) :
  dict_mem k (structs (parsePrerequisites xml self)) = dict_mem k (structs self).
Proof.
  unfold parsePrerequisites. cbn [structs with_structs].
  apply (fold_left_invariant _
           (fun ss => dict_mem k ss = dict_mem k (structs self))).
  - intros ss ext Hss.
    rewrite (require_fold_mem (fun s => add_definedByExtension s (xext_name ext))).
    exact Hss.
  - apply (fold_left_invariant _
             (fun ss => dict_mem k ss = dict_mem k (structs self)));
      [|reflexivity].
    intros ss feature Hss.
    rewrite (require_fold_mem
               (fun s => set_definedByVersion s (Some (feature_number feature)))).
    exact Hss.
Qed.

Lemma dict_mem_keys {V : Type} (k : string) (d : dict V) :
  dict_mem k d = true <-> In k (dict_keys d).
Proof.
  unfold dict_mem. split.
  - destruct (dict_get k d) as [v|] eqn:H; [|discriminate].
    intros _. exact (dict_get_In _ _ _ H).
  - intros H. destruct (dict_keys_get _ _ H) as [v ->]. reflexivity.
Qed.

Lemma iter_struct_name (g : VulkanStruct -> VulkanStruct) (k : nat)
    (s : VulkanStruct) :
  (forall s0, struct_name (g s0) = struct_name s0) ->
  struct_name (Nat.iter k g s) = struct_name s.
Proof.
  intros Hg. induction k as [|k IH]; [reflexivity|].
  rewrite Nat.iter_succ, Hg. exact IH.
Qed.

Lemma require_fold_names (g : VulkanStruct -> VulkanStruct) (rts : list string)
    (ss : dict VulkanStruct) :
  (forall s0, struct_name (g s0) = struct_name s0) ->
  (forall name s, dict_get name ss = Some s -> struct_name s = name) ->
  forall name s,
    dict_get name
      (fold_left
         (fun ss requireType =>
            match dict_get requireType ss with
            | Some s => dict_set requireType (g s) ss
            | None => ss
            end) rts ss) = Some s ->
    struct_name s = name.
Proof.
  intros Hg Hss name s. rewrite require_fold_get.
  destruct (dict_get name ss) as [s0|] eqn:Hget; [|discriminate].
  intros [= <-]. rewrite (iter_struct_name g _ s0 Hg). exact (Hss name s0 Hget).
Qed.

Lemma parseAlias_names (self self' : VulkanRegistry) (t : XmlType) :
  parseAlias self t = Ok self' ->
  (forall name s, dict_get name (structs self) = Some s -> struct_name s = name) ->
  forall name s, dict_get name (structs self') = Some s -> struct_name s = name.
Proof.
  unfold parseAlias. destruct (xtype_alias t) as [alias|];
    [|intros [= <-] H; exact H].
  destruct (dict_get alias (structs self)) as [baseDef|]; [|discriminate].
  unfold dict_item.
  destruct (dict_get (xtype_name t) (structs self)) as [aliasDef0|] eqn:Hown;
    cbn [bind]; [|discriminate].
  destruct (struct_sType baseDef) as [sType|].
  - match goal with
    | |- context [bind ?c _] => destruct c as [[a|]| |]; cbn [bind];
                                try discriminate
    end.
    intros [= <-] Hss name s. cbn [structs with_structs].
    rewrite !dict_get_set.
    destruct (String.eqb_spec name (xtype_name t)) as [->|_]; [|apply Hss].
    intros [= <-]. exact (Hss _ _ Hown).
  - intros [= <-] Hss name s. cbn [structs]. rewrite dict_get_set.
    destruct (String.eqb_spec name (xtype_name t)) as [->|_]; [|apply Hss].
    intros [= <-]. exact (Hss _ _ Hown).
Qed.

Lemma loaded_struct_names (xml : XmlRegistry) (registry : VulkanRegistry) :
  VulkanRegistry_init xml = Ok registry ->
  forall name s, dict_get name (structs registry) = Some s -> struct_name s = name.
Proof.
  unfold VulkanRegistry_init.
  destruct (parseVersionInfo xml (parsePlatformInfo xml empty_registry))
    as [r1| |]; cbn [bind]; try discriminate.
  destruct (parseExtensionInfo xml r1) as [r2| |]; cbn [bind]; try discriminate.
  destruct (parseStructInfo xml r2) as [r3| |] eqn:H3; cbn [bind];
    try discriminate.
  destruct (parseAliases xml (parsePrerequisites xml r3)) as [r5| |] eqn:H5;
    cbn [bind]; try discriminate.
  intros H6. destruct (applyWorkarounds_keeps _ _ H6) as [-> _].
  revert H5. unfold parseAliases.
  apply (for_each_invariant parseAlias
           (fun st => forall name s, dict_get name (structs st) = Some s ->
                                     struct_name s = name)).
  { intros st t st' Hst Hstep. exact (parseAlias_names _ _ _ Hstep Hst). }
  unfold parsePrerequisites. cbn [structs with_structs].
  apply (fold_left_invariant _
           (fun ss => forall name s, dict_get name ss = Some s -> struct_name s = name)).
  { intros ss ext Hss.
    apply (require_fold_names (fun s => add_definedByExtension s (xext_name ext)));
      [reflexivity|exact Hss]. }
  apply (fold_left_invariant _
           (fun ss => forall name s, dict_get name ss = Some s -> struct_name s = name)).
  { intros ss feature Hss.
    apply (require_fold_names
             (fun s => set_definedByVersion s (Some (feature_number feature))));
      [reflexivity|exact Hss]. }
  revert H3. unfold parseStructInfo.
  apply (for_each_invariant parseStruct
           (fun st => forall name s, dict_get name (structs st) = Some s ->
                                     struct_name s = name)); [|discriminate].
  intros st t st' Hst. unfold parseStruct.
  destruct (parseStructMembers (xtype_members t)); cbn [bind]; try discriminate.
  intros [= <-] name s. cbn [structs]. rewrite dict_get_set.
  destruct (String.eqb_spec name (xtype_name t)) as [->|_]; [|apply Hst].
  intros [= <-]. reflexivity.
Qed.

(** X13. A loaded registry records a version for exactly the numbers of the
    feature nodes of the document, an extension for exactly the names of
    the extension nodes that are supported for [vulkan], and a structure
    for exactly the names of the struct nodes, each structure under its own
    name. *)
Theorem VulkanRegistry_init_reflects_document :
  forall (xml : XmlRegistry) (registry : VulkanRegistry),
    VulkanRegistry_init xml = Ok registry ->
    (forall number,
        dict_mem number (versions registry) = true
        <-> exists feature, In feature (xml_features xml)
                            /\ feature_number feature = number)
    /\ (forall name,
           dict_mem name (extensions registry) = true
           <-> exists ext, In ext (xml_extensions xml)
                           /\ xext_supported ext = Some "vulkan"
                           /\ xext_name ext = name)
    /\ (forall name,
           dict_mem name (structs registry) = true
           <-> exists t, In t (xml_structs xml) /\ xtype_name t = name)
    /\ (forall name s,
           dict_get name (structs registry) = Some s -> struct_name s = name).
Proof.
  intros xml registry Hinit.
  assert (Hnames := loaded_struct_names xml registry Hinit).
  cut ((forall number,
           dict_mem number (versions registry) = true
           <-> exists feature, In feature (xml_features xml)
                               /\ feature_number feature = number)
       /\ (forall name,
              dict_mem name (extensions registry) = true
              <-> exists ext, In ext (xml_extensions xml)
                              /\ xext_supported ext = Some "vulkan"
                              /\ xext_name ext = name)
       /\ (forall name,
              dict_mem name (structs registry) = true
              <-> exists t, In t (xml_structs xml) /\ xtype_name t = name));
    [tauto|].
  clear Hnames. revert Hinit. unfold VulkanRegistry_init.
  destruct (parseVersionInfo xml (parsePlatformInfo xml empty_registry))
    as [r1| |] eqn:H1; cbn [bind]; try discriminate.
  destruct (parseExtensionInfo xml r1) as [r2| |] eqn:H2; cbn [bind];
    try discriminate.
  destruct (parseStructInfo xml r2) as [r3| |] eqn:H3; cbn [bind];
    try discriminate.
  destruct (parseAliases xml (parsePrerequisites xml r3)) as [r5| |] eqn:H5;
    cbn [bind]; try discriminate.
  intros H6.
  destruct (applyWorkarounds_keeps _ _ H6) as [Hs6 [Hv6 He6]].
  destruct (parseAliases_other _ _ _ H5) as [Hv5 [He5 _]].
  assert (Hs5 : dict_keys (structs r5) = dict_keys (structs (parsePrerequisites xml r3))).
  { revert H5. unfold parseAliases.
    apply (for_each_invariant parseAlias
             (fun st => dict_keys (structs st)
                        = dict_keys (structs (parsePrerequisites xml r3))));
      [|reflexivity].
    intros st t st' Hst Hstep.
    destruct (parseAlias_keys _ _ _ Hstep) as [Hk _]. congruence. }
  assert (Hv3 : versions r3 = versions r2 /\ extensions r3 = extensions r2).
  { revert H3. unfold parseStructInfo.
    apply (for_each_invariant parseStruct
             (fun st => versions st = versions r2 /\ extensions st = extensions r2));
      [|split; reflexivity].
    intros st t st' [Hv He]. unfold parseStruct.
    destruct (parseStructMembers (xtype_members t)); cbn [bind]; try discriminate.
    intros [= <-]. cbn [versions extensions]. auto. }
  destruct Hv3 as [Hv3 He3].
  rewrite Hs6, Hv6, He6, Hv5, He5.
  change (versions (parsePrerequisites xml r3)) with (versions r3).
  change (extensions (parsePrerequisites xml r3)) with (extensions r3).
  rewrite Hv3, He3. clear H6 Hs6 Hv6 He6.
  split; [|split].
  - intros number.
    revert H2. unfold parseExtensionInfo. destruct_loop es Hes. intros [= <-].
    cbn [versions].
    revert H1. unfold parseVersionInfo. destruct_loop vs Hvs. intros [= <-].
    cbn [versions].
    assert (K : dict_mem number vs = true
                <-> dict_mem number ([] : dict VulkanVersion) = true
                    \/ exists x, In x (xml_features xml) /\ true = true
                                 /\ feature_number x = number).
    { match type of Hvs with
      | for_each ?body _ _ = _ =>
          apply (for_each_keys body (fun d => d) feature_number (fun _ => true))
      end; [|exact Hvs].
      intros st x st'. cbv beta.
      destruct (re_version_number (feature_number x));
        [intros [= <-]; eexists; reflexivity|discriminate]. }
    rewrite K. split.
    + intros [H|[x [Hx [_ Hk]]]]; [discriminate|eauto].
    + intros [x [Hx Hk]]. right. eauto.
  - intros name.
    revert H2. unfold parseExtensionInfo. destruct_loop es Hes. intros [= <-].
    cbn [extensions].
    assert (K : dict_mem name es = true
                <-> dict_mem name ([] : dict VulkanExtension) = true
                    \/ exists x, In x (xml_extensions xml)
                                 /\ opt_is (xext_supported x) "vulkan" = true
                                 /\ xext_name x = name).
    { match type of Hes with
      | for_each ?body _ _ = _ =>
          apply (for_each_keys body (fun d => d) xext_name
                   (fun ext => opt_is (xext_supported ext) "vulkan"))
      end; [|exact Hes].
      intros st x st'. cbv beta.
      destruct (opt_is (xext_supported x) "vulkan");
        [|intros [= <-]; reflexivity].
      destruct (List.find _ _);
        [intros [= <-]; eexists; reflexivity|discriminate]. }
    rewrite K. split.
    + intros [H|[x [Hx [Hs Hk]]]]; [discriminate|].
      apply opt_is_true in Hs. eauto.
    + intros [x [Hx [Hs Hk]]]. right. exists x.
      split; [exact Hx|]. split; [apply opt_is_true; exact Hs|exact Hk].
  - intros name.
    rewrite dict_mem_keys, Hs5, <- dict_mem_keys, parsePrerequisites_mem.
    assert (K : dict_mem name (structs r3) = true
                <-> dict_mem name (structs (with_structs r2 [])) = true
                    \/ exists x, In x (xml_structs xml) /\ true = true
                                 /\ xtype_name x = name).
    { apply (for_each_keys parseStruct structs xtype_name (fun _ => true));
        [|exact H3].
      intros st x st' Hstep. cbv beta.
      destruct (parseStruct_inv _ _ _ Hstep) as [sd [Hsd _]].
      exists sd. exact Hsd. }
    rewrite K. cbn [structs with_structs]. split.
    + intros [H|[x [Hx [_ Hk]]]]; [discriminate|eauto].
    + intros [x [Hx Hk]]. right. eauto.
Qed.

Lemma VulkanRegistry_init_reflects_document_witness :
  dict_mem "VkPhysicalDeviceLimits" (structs sample_registry) = true
  <-> exists t, In t (xml_structs sample_xml)
                /\ xtype_name t = "VkPhysicalDeviceLimits".
Proof.
  exact (proj1 (proj2 (proj2 (VulkanRegistry_init_reflects_document sample_xml
                                sample_registry sample_registry_loaded)))
           "VkPhysicalDeviceLimits").
Defined.

(** ** The resolver: what a merge keeps *)

Lemma dict_keys_set {V : Type} (k : string) (v : V) (d : dict V) :
  dict_keys (dict_set k v d)
  = if dict_mem k d then dict_keys d else dict_keys d ++ [k].
Proof.
  induction d as [|[k0 v0] d IH]; [reflexivity|].
  unfold dict_mem in *. simpl.
  destruct (String.eqb_spec k k0) as [->|_]; simpl; [reflexivity|].
  rewrite IH. destruct (dict_get k d); reflexivity.
Qed.

Lemma dict_set_set {V : Type} (k : string) (v v' : V) (d : dict V) :
  dict_set k v (dict_set k v' d) = dict_set k v d.
Proof.
  induction d as [|[k0 v0] d IH]; simpl.
  - rewrite String.eqb_refl. reflexivity.
  - destruct (String.eqb k k0) eqn:E; simpl.
    + rewrite String.eqb_refl. reflexivity.
    + rewrite E, IH. reflexivity.
Qed.

Lemma pytype_eqb_eq (a b : pytype) : pytype_eqb a b = true -> a = b.
Proof. destruct a, b; simpl; congruence. Qed.

Lemma merge_grows_set (d : dict json) (key : string) (v : json) :
  (forall cur, dict_get key d = Some cur -> type_of v = type_of cur) ->
  merge_grows d (dict_set key v d) [key].
Proof.
  intros Hty. split; [|split].
  - intros k w Hk. rewrite dict_get_set.
    destruct (String.eqb_spec k key) as [->|_]; [|eauto].
    exists v. split; [reflexivity|]. exact (Hty w Hk).
  - rewrite dict_keys_set. destruct (dict_mem key d).
    + exists []. symmetry. apply app_nil_r.
    + exists [key]. reflexivity.
  - intros k. rewrite dict_mem_set. split.
    + intros H. apply orb_prop in H as [H|H]; [|left; exact H].
      apply String.eqb_eq in H. right. left. symmetry. exact H.
    + intros [H|[<-|[]]]; [rewrite H; apply orb_true_r|].
      rewrite String.eqb_refl. reflexivity.
Qed.

Lemma merge_grows_trans (d d1 d2 : dict json) (n1 n2 : list string) :
  merge_grows d d1 n1 -> merge_grows d1 d2 n2 -> merge_grows d d2 (n1 ++ n2).
Proof.
  intros [Ha [[sa Hsa] Hma]] [Hb [[sb Hsb] Hmb]]. split; [|split].
  - intros k v Hk. destruct (Ha k v Hk) as [v1 [Hk1 Ht1]].
    destruct (Hb k v1 Hk1) as [v2 [Hk2 Ht2]]. exists v2.
    split; [exact Hk2|congruence].
  - exists (sa ++ sb). rewrite Hsb, Hsa, app_assoc. reflexivity.
  - intros k. rewrite Hmb, Hma, in_app_iff. tauto.
Qed.

(** One item of the source: when the loop goes on, it goes on with the
    value under the key replaced by one of the same type, or added. *)
Lemma merge_items_cons_inv (merge : json -> json -> outcome json)
    (key : string) (val : json) (rest : list (string * json)) (d d' : dict json) :
  (forall a b r, merge a b = Ok r -> type_of r = type_of a) ->
  merge_items merge ((key, val) :: rest) d = Ok d' ->
  exists v,
    (forall cur, dict_get key d = Some cur -> type_of v = type_of cur)
    /\ merge_items merge rest (dict_set key v d) = Ok d'.
Proof.
  intros Hmerge. cbn [merge_items]. unfold dict_item, dict_mem.
  assert (Hscalar :
            is_scalar val = true ->
            match dict_get key d with
            | Some cur =>
                if negb (pytype_eqb (type_of cur) (type_of val))
                then Log.f [conflict_msg (type_of val) (type_of cur)]
                else merge_items merge rest (dict_set key val d)
            | None => merge_items merge rest (dict_set key val d)
            end = Ok d' ->
            exists v,
              (forall cur, dict_get key d = Some cur -> type_of v = type_of cur)
              /\ merge_items merge rest (dict_set key v d) = Ok d').
  { intros _. destruct (dict_get key d) as [cur|] eqn:Hget.
    - destruct (pytype_eqb (type_of cur) (type_of val)) eqn:Hty; cbn [negb];
        [|discriminate].
      intros Hrest. exists val. split; [|exact Hrest].
      intros cur' [= <-]. symmetry. apply pytype_eqb_eq. exact Hty.
    - intros Hrest. exists val. split; [discriminate|exact Hrest]. }
  destruct val as [|b|z|x|s|l|items]; try (apply Hscalar; reflexivity); clear Hscalar.
  - destruct (dict_get key d) as [cur|] eqn:Hget; cbv zeta.
    + rewrite Hget. cbn [bind]. destruct cur as [| | | | |old|]; try discriminate.
      intros Hrest. exists (JList (old ++ l)). split; [|exact Hrest].
      intros cur' [= <-]. reflexivity.
    + rewrite dict_get_set_eq. cbn [bind]. rewrite dict_set_set.
      intros Hrest. exists (JList ([] ++ l)). split; [discriminate|exact Hrest].
  - destruct (dict_get key d) as [cur|] eqn:Hget; cbv zeta.
    + rewrite Hget. cbn [bind].
      destruct (merge cur (JDict items)) as [merged| |] eqn:Hm; cbn [bind];
        try discriminate.
      intros Hrest. exists merged. split; [|exact Hrest].
      intros cur' [= <-]. exact (Hmerge _ _ _ Hm).
    + rewrite dict_get_set_eq. cbn [bind].
      destruct (merge (JDict []) (JDict items)) as [merged| |] eqn:Hm; cbn [bind];
        try discriminate.
      rewrite dict_set_set.
      intros Hrest. exists merged. split; [discriminate|exact Hrest].
Qed.

Lemma merge_items_grows (merge : json -> json -> outcome json) :
  (forall a b r, merge a b = Ok r -> type_of r = type_of a) ->
  forall items d d',
    merge_items merge items d = Ok d' -> merge_grows d d' (dict_keys items).
Proof.
  intros Hmerge. induction items as [|[key val] rest IH]; intros d d'.
  - simpl. intros [= <-]. split; [eauto|]. split.
    + exists []. symmetry. apply app_nil_r.
    + intros k. simpl. tauto.
  - intros Hrun.
    destruct (merge_items_cons_inv merge key val rest d d' Hmerge Hrun)
      as [v [Hty Hrest]].
    exact (merge_grows_trans _ _ _ [key] (dict_keys rest)
             (merge_grows_set d key v Hty) (IH _ _ Hrest)).
Qed.

Lemma mergeProfileCapData_ok (dst src r : json) :
  mergeProfileCapData dst src = Ok r ->
  exists d items d',
    dst = JDict d /\ src = JDict items /\ r = JDict d'
    /\ merge_items mergeProfileCapData items d = Ok d'.
Proof.
  destruct src as [|b|z|x|s|l|items]; destruct dst as [|b'|z'|x'|s'|l'|d];
    try discriminate.
  rewrite mergeProfileCapData_items.
  destruct (merge_items mergeProfileCapData items d) as [d'| |] eqn:Hrun;
    cbn [bind]; try discriminate.
  intros [= <-]. exists d, items, d'. auto.
Qed.

(** X14. A merge that succeeds has merged an object into an object, and the
    result is an object that has every key the destination had, in the same
    order and with a value of the same type, and besides these exactly the
    keys of the source, after them. *)
Theorem mergeProfileCapData_keeps :
  forall dst src r : json,
    mergeProfileCapData dst src = Ok r ->
    exists d items d',
      dst = JDict d /\ src = JDict items /\ r = JDict d'
      /\ merge_grows d d' (dict_keys items).
Proof.
  intros dst src r Hrun.
  destruct (mergeProfileCapData_ok dst src r Hrun)
    as [d [items [d' [-> [-> [-> Hitems]]]]]].
  exists d, items, d'.
  split; [reflexivity|]. split; [reflexivity|]. split; [reflexivity|].
  apply (merge_items_grows mergeProfileCapData); [|exact Hitems].
  intros a b r' Hm.
  destruct (mergeProfileCapData_ok a b r' Hm) as [? [? [? [-> [_ [-> _]]]]]].
  reflexivity.
Qed.

Lemma mergeProfileCapData_keeps_witness :
  exists d items d',
    JDict [("maxImageDimension2D", JInt 4096)] = JDict d
    /\ JDict [("maxImageDimension2D", JInt 8192); ("maxColorAttachments", JInt 8)]
       = JDict items
    /\ JDict [("maxImageDimension2D", JInt 8192); ("maxColorAttachments", JInt 8)]
       = JDict d'
    /\ merge_grows d d' (dict_keys items).
Proof.
  exact (mergeProfileCapData_keeps
           (JDict [("maxImageDimension2D", JInt 4096)])
           (JDict [("maxImageDimension2D", JInt 8192); ("maxColorAttachments", JInt 8)])
           (JDict [("maxImageDimension2D", JInt 8192); ("maxColorAttachments", JInt 8)])
           eq_refl).
Defined.

(** ** The resolver: the extensions of a profile *)

Lemma for_each_prefix {A S : Type} (body : S -> A -> outcome S)
    (P : list A -> S -> Prop) :
  (forall pre x st st', P pre st -> body st x = Ok st' -> P (pre ++ [x]) st') ->
  forall xs st st', P [] st -> for_each body xs st = Ok st' -> P xs st'.
Proof.
  intros Hstep.
  assert (H : forall xs pre st st',
             P pre st -> for_each body xs st = Ok st' -> P (pre ++ xs) st').
  { induction xs as [|x xs IH]; intros pre st st' HP.
    - simpl. intros [= <-]. rewrite app_nil_r. exact HP.
    - cbn [for_each]. destruct (body st x) as [st1| |] eqn:Hx; cbn [bind];
        try discriminate.
      intros Hrest.
      change (pre ++ x :: xs) with (pre ++ [x] ++ xs). rewrite app_assoc.
      exact (IH _ _ _ (Hstep _ _ _ _ HP Hx) Hrest). }
  intros xs st st'. exact (H xs [] st st').
Qed.

Lemma dict_get_app {V : Type} (k : string) (a b : dict V) :
  dict_get k (a ++ b)
  = match dict_get k a with Some v => Some v | None => dict_get k b end.
Proof.
  induction a as [|[k0 v0] a IH]; simpl; [reflexivity|].
  destruct (String.eqb k k0); [reflexivity|exact IH].
Qed.

(** What the other merges of [mergeCaps] leave as [mergeProfileExtensions]
    made it. *)
Lemma mergeCaps_extensions (registry : VulkanRegistry) (caps : CapabilityData)
    (self self' : VulkanProfileCapabilities) :
  mergeCaps registry caps self = Ok self' ->
  exists s1,
    mergeProfileExtensions registry caps self = Ok s1
    /\ caps_extensions self' = caps_extensions s1
    /\ caps_instanceExtensions self' = caps_instanceExtensions s1
    /\ caps_deviceExtensions self' = caps_deviceExtensions s1
    /\ caps_queueFamiliesProperties self'
       = caps_queueFamiliesProperties s1
           ++ default [] (data_queueFamiliesProperties caps).
Proof.
  unfold mergeCaps.
  destruct (mergeProfileExtensions registry caps self) as [s1| |] eqn:E1;
    simpl; try discriminate.
  unfold mergeProfileFeatures.
  destruct (merge_into (caps_features s1) (data_features caps)); simpl;
    try discriminate.
  unfold mergeProfileProperties. simpl.
  destruct (merge_into (caps_properties s1) (data_properties caps)); simpl;
    try discriminate.
  unfold mergeProfileFormats. simpl.
  destruct (merge_into (caps_formats s1) (data_formats caps)); simpl;
    try discriminate.
  unfold mergeProfileMemoryProperties, mergeProfileQueueFamiliesProperties.
  destruct (data_queueFamiliesProperties caps); simpl;
    destruct (merge_into (caps_memoryProperties s1) (data_memoryProperties caps));
    simpl; try discriminate; intros [= <-]; exists s1; simpl;
    rewrite ?app_nil_r; auto.
Qed.

(** A loop that stores one entry per element: for every key the last
    element counts. *)
Lemma for_each_sets {A S V : Type} (body : S -> A -> outcome S) (proj : S -> dict V)
    (key : A -> string) (val : A -> V) :
  (forall st x st', body st x = Ok st' ->
                    proj st' = dict_set (key x) (val x) (proj st)) ->
  forall xs st st',
    for_each body xs st = Ok st' ->
    forall k, dict_get k (proj st')
              = dict_get k (rev (map (fun x => (key x, val x)) xs) ++ proj st).
Proof.
  intros Hbody. induction xs as [|x xs IH]; intros st st'.
  - simpl. intros [= <-] k. reflexivity.
  - cbn [for_each]. destruct (body st x) as [st1| |] eqn:Hx; cbn [bind];
      try discriminate.
    intros Hrest k. rewrite (IH _ _ Hrest k), (Hbody _ _ _ Hx).
    cbn [map rev]. rewrite <- app_assoc, !dict_get_app.
    destruct (dict_get k (rev (map (fun x0 => (key x0, val x0)) xs)));
      [reflexivity|].
    cbn [app dict_get]. rewrite dict_get_set.
    destruct (String.eqb k (key x)); reflexivity.
Qed.

Lemma map_pair_id {A B : Type} (l : list (A * B)) :
  map (fun x => (fst x, snd x)) l = l.
Proof.
  induction l as [|[a b] l IH]; [reflexivity|]. simpl. rewrite IH. reflexivity.
Qed.

(** The extension loop stores the items in their order: for every name the
    last item counts. *)
Lemma mergeProfileExtensions_get (registry : VulkanRegistry) (data : CapabilityData)
    (self self' : VulkanProfileCapabilities) (extName : string) :
  mergeProfileExtensions registry data self = Ok self' ->
  dict_get extName (caps_extensions self')
  = dict_get extName (rev (default [] (data_extensions data)) ++ caps_extensions self)
  /\ caps_queueFamiliesProperties self' = caps_queueFamiliesProperties self.
Proof.
  unfold mergeProfileExtensions.
  destruct (data_extensions data) as [exts|]; [|intros [= <-]; split; reflexivity].
  cbn [default]. intros Hrun. split.
  - rewrite <- (map_pair_id exts) at 1.
    revert Hrun.
    match goal with
    | |- for_each ?body _ _ = _ -> _ =>
        intros Hrun;
        apply (for_each_sets body caps_extensions fst snd) with (st := self);
          [|exact Hrun]
    end.
    intros st [e v] st'.
    destruct (dict_get e (extensions registry)) as [extInfo|]; [|discriminate].
    destruct (opt_is (extension_type extInfo) "instance");
      [|destruct (opt_is (extension_type extInfo) "device"); [|discriminate]];
      intros [= <-]; reflexivity.
  - revert Hrun.
    apply (for_each_invariant _
             (fun st => caps_queueFamiliesProperties st
                        = caps_queueFamiliesProperties self)); [|reflexivity].
    intros st [e v] st' Hst.
    destruct (dict_get e (extensions registry)) as [extInfo|]; [|discriminate].
    destruct (opt_is (extension_type extInfo) "instance");
      [|destruct (opt_is (extension_type extInfo) "device"); [|discriminate]];
      intros [= <-]; exact Hst.
Qed.

Lemma capabilities_init_merged (registry : VulkanRegistry) (data : ProfileData)
    (caps : dict CapabilityData) (c : VulkanProfileCapabilities) :
  VulkanProfileCapabilities_init registry data caps = Ok c ->
  (forall extName,
      dict_get extName (caps_extensions c)
      = dict_get extName (rev (named_extensions data caps)))
  /\ caps_queueFamiliesProperties c = named_queueFamilies data caps.
Proof.
  unfold VulkanProfileCapabilities_init, named_extensions, named_queueFamilies,
    named_capabilities.
  apply (for_each_prefix _
           (fun pre st =>
              (forall extName,
                  dict_get extName (caps_extensions st)
                  = dict_get extName
                      (rev (flat_map (fun c => default [] (data_extensions c))
                              (omap (fun capName => dict_get capName caps) pre))))
              /\ caps_queueFamiliesProperties st
                 = flat_map (fun c => default [] (data_queueFamiliesProperties c))
                     (omap (fun capName => dict_get capName caps) pre)));
    [|split; reflexivity].
  intros pre capName st st' [Hext Hq].
  destruct (dict_get capName caps) as [cd|] eqn:Hcd;
    [|destruct (data_name data); discriminate].
  intros Hmerge.
  destruct (mergeCaps_extensions _ _ _ _ Hmerge) as [s1 [Hs1 [He [_ [_ Hq1]]]]].
  assert (Hone : omap (fun capName => dict_get capName caps) [capName] = [cd])
    by (simpl; rewrite Hcd; reflexivity).
  rewrite omap_app, Hone.
  rewrite !flat_map_app. cbn [flat_map]. rewrite !app_nil_r.
  split.
  - intros extName.
    destruct (mergeProfileExtensions_get _ _ _ _ extName Hs1) as [Hget _].
    rewrite He, Hget, rev_app_distr, !dict_get_app, Hext. reflexivity.
  - destruct (mergeProfileExtensions_get _ _ _ _ "" Hs1) as [_ Hq0].
    rewrite Hq1, Hq0, Hq. reflexivity.
Qed.

(** X15. In the merged capabilities of a profile, the version of an
    extension is the one of the last item that names it, in the order of
    the capability blocks of the profile entry and of the items inside each
    block; an extension that no block names is not in the set. *)
Theorem capabilities_extension_versions :
  forall (registry : VulkanRegistry) (data : ProfileData)
         (caps : dict CapabilityData) (c : VulkanProfileCapabilities)
         (extName : string),
    VulkanProfileCapabilities_init registry data caps = Ok c ->
    dict_get extName (caps_extensions c)
    = dict_get extName (rev (named_extensions data caps)).
Proof.
  intros registry data caps c extName Hinit.
  exact (proj1 (capabilities_init_merged registry data caps c Hinit) extName).
Qed.

(** X16. The queue family records of the merged capabilities are the
    records of the capability blocks of the profile entry, one after the
    other: nothing is merged and nothing is dropped, and a block that is
    named twice gives its records twice. *)
Theorem capabilities_queueFamilies_concatenated :
  forall (registry : VulkanRegistry) (data : ProfileData)
         (caps : dict CapabilityData) (c : VulkanProfileCapabilities),
    VulkanProfileCapabilities_init registry data caps = Ok c ->
    caps_queueFamiliesProperties c = named_queueFamilies data caps.
Proof.
  intros registry data caps c Hinit.
  exact (proj2 (capabilities_init_merged registry data caps c Hinit)).
Qed.

Lemma capabilities_extension_versions_witness :
  dict_get "VK_KHR_swapchain"
    (caps_extensions
       (sample_merged (sample_profile_data "1.0.0" ["swapchain_68"; "swapchain_70"])
          swapchain_caps))
  = Some 70%Z.
Proof.
  rewrite (capabilities_extension_versions sample_registry
             (sample_profile_data "1.0.0" ["swapchain_68"; "swapchain_70"])
             swapchain_caps
             (sample_merged
                (sample_profile_data "1.0.0" ["swapchain_68"; "swapchain_70"])
                swapchain_caps)
             "VK_KHR_swapchain" ltac:(vm_compute; reflexivity)).
  reflexivity.
Defined.

Lemma capabilities_queueFamilies_concatenated_witness :
  caps_queueFamiliesProperties
    (sample_merged (sample_profile_data "1.0.0" ["swapchain_68"; "swapchain_68"])
       swapchain_caps)
  = [[("VkQueueFamilyProperties", JDict [("queueCount", JInt 1)])];
     [("VkQueueFamilyProperties", JDict [("queueCount", JInt 1)])]].
Proof.
  rewrite (capabilities_queueFamilies_concatenated sample_registry
             (sample_profile_data "1.0.0" ["swapchain_68"; "swapchain_68"])
             swapchain_caps
             (sample_merged
                (sample_profile_data "1.0.0" ["swapchain_68"; "swapchain_68"])
                swapchain_caps)
             ltac:(vm_compute; reflexivity)).
  reflexivity.
Defined.

(** The instance and the device dictionaries follow the merged set. *)
Lemma mergeProfileExtensions_coherent (registry : VulkanRegistry)
    (data : CapabilityData) (self self' : VulkanProfileCapabilities) :
  extensions_classified registry self /\ extensions_coherent self ->
  mergeProfileExtensions registry data self = Ok self' ->
  extensions_classified registry self' /\ extensions_coherent self'.
Proof.
  intros [Hcl Hco] Hrun. split;
    [exact (mergeProfileExtensions_classified _ _ _ _ Hcl Hrun)|].
  revert Hrun Hcl Hco. unfold mergeProfileExtensions.
  destruct (data_extensions data) as [exts|]; [|intros [= <-] _ H; exact H].
  intros Hrun Hcl Hco.
  assert (H : extensions_classified registry self' /\ extensions_coherent self');
    [|exact (proj2 H)].
  revert Hrun.
  apply (for_each_invariant _
           (fun st => extensions_classified registry st /\ extensions_coherent st));
    [|split; assumption].
  clear self self' Hcl Hco.
  intros self [e0 v0] self' [Hcl Hco] Hstep.
  split.
  { apply (mergeProfileExtensions_classified registry
             {| data_extensions := Some [(e0, v0)]; data_features := None;
                data_properties := None; data_formats := None;
                data_queueFamiliesProperties := None;
                data_memoryProperties := None |} self self' Hcl).
    unfold mergeProfileExtensions. cbn [data_extensions for_each].
    rewrite Hstep. reflexivity. }
  destruct (dict_get e0 (extensions registry)) as [extInfo|] eqn:Hget;
    [|discriminate].
  destruct (opt_is (extension_type extInfo) "instance") eqn:Hi;
    [|destruct (opt_is (extension_type extInfo) "device") eqn:Hd; [|discriminate]];
    injection Hstep as <-; intros e v; destruct (Hco e v) as [H1 H2];
    destruct (Hcl e) as [K1 [K2 _]];
    cbn [caps_extensions caps_instanceExtensions caps_deviceExtensions];
    rewrite ?dict_get_set; destruct (String.eqb_spec e e0) as [->|Hne];
    split; auto; intros Hin.
  - assert (Hk : extension_kind registry e0 "device")
      by (apply K2; unfold dict_mem; rewrite Hin; reflexivity).
    assert (Hk' : extension_kind registry e0 "instance")
      by (exists extInfo; split; [exact Hget|apply opt_is_true; exact Hi]).
    pose proof (extension_kind_unique _ _ _ _ Hk Hk'). discriminate.
  - assert (Hk : extension_kind registry e0 "instance")
      by (apply K1; unfold dict_mem; rewrite Hin; reflexivity).
    assert (Hk' : extension_kind registry e0 "device")
      by (exists extInfo; split; [exact Hget|apply opt_is_true; exact Hd]).
    pose proof (extension_kind_unique _ _ _ _ Hk Hk'). discriminate.
Qed.

Lemma capabilities_coherent (registry : VulkanRegistry) (data : ProfileData)
    (caps : dict CapabilityData) (c : VulkanProfileCapabilities) :
  VulkanProfileCapabilities_init registry data caps = Ok c ->
  extensions_classified registry c /\ extensions_coherent c.
Proof.
  unfold VulkanProfileCapabilities_init.
  apply (for_each_invariant _
           (fun st => extensions_classified registry st /\ extensions_coherent st)).
  - intros st capName st' Hinv.
    destruct (dict_get capName caps) as [cd|];
      [|destruct (data_name data); discriminate].
    intros Hmerge.
    destruct (mergeCaps_extensions _ _ _ _ Hmerge) as [s1 [Hs1 [He [Hi [Hd _]]]]].
    destruct (mergeProfileExtensions_coherent _ _ _ _ Hinv Hs1) as [Hcl Hco].
    split.
    + intros e. destruct (Hcl e) as [K1 [K2 K3]]. rewrite He, Hi, Hd. auto.
    + intros e v. destruct (Hco e v) as [K1 K2]. rewrite He, Hi, Hd. auto.
  - split.
    + intros e. repeat split; discriminate.
    + intros e v. split; discriminate.
Qed.

Lemma for_each_appends {A : Type} (body : list A -> A -> outcome (list A))
    (good : A -> bool) :
  (forall acc x, good x = true -> body acc x = Ok (acc ++ [x])) ->
  forall xs acc,
    (forall x, In x xs -> good x = true) -> for_each body xs acc = Ok (acc ++ xs).
Proof.
  intros Hbody. induction xs as [|x xs IH]; intros acc Hgood.
  - simpl. rewrite app_nil_r. reflexivity.
  - cbn [for_each]. rewrite Hbody by (apply Hgood; left; reflexivity).
    cbn [bind]. rewrite IH by (intros y Hy; apply Hgood; right; exact Hy).
    rewrite <- app_assoc. reflexivity.
Qed.

(** X17. For capabilities that the merge has produced, collecting the
    compile time requirements fails on the API version only: with a version
    that the registry records, the requirements are the name of that
    version followed by the names of the merged extensions in their order,
    and the test for an extension that the registry does not record never
    fires. *)
Theorem collectCompileTimeRequirements_merged :
  forall (registry : VulkanRegistry) (name apiVersion : string)
         (data : ProfileData) (caps : dict CapabilityData)
         (c : VulkanProfileCapabilities),
    VulkanProfileCapabilities_init registry data caps = Ok c ->
    collectCompileTimeRequirements registry name apiVersion c
    = match re_api_version apiVersion with
      | Some versionNumber =>
          match dict_get versionNumber (versions registry) with
          | Some v => Ok (version_name v :: dict_keys (caps_extensions c))
          | None =>
              Log.f ["No version '" +:+ versionNumber
                     +:+ "' found in registry required by profile '" +:+ name +:+ "'"]
          end
      | None => Log.f [invalid_version_msg apiVersion name]
      end.
Proof.
  intros registry name apiVersion data caps c Hinit.
  destruct (capabilities_coherent _ _ _ _ Hinit) as [Hcl _].
  unfold collectCompileTimeRequirements.
  destruct (re_api_version apiVersion) as [versionNumber|]; [|reflexivity].
  destruct (dict_get versionNumber (versions registry)) as [v|]; [|reflexivity].
  cbn [bind].
  match goal with
  | |- for_each ?body _ _ = _ =>
      apply (for_each_appends body (fun e => dict_mem e (extensions registry)))
  end.
  - intros acc e He. rewrite He. reflexivity.
  - intros e He. apply dict_mem_keys in He.
    destruct (Hcl e) as [K1 [K2 K3]].
    destruct (K3 He) as [Hi|Hd];
      [destruct (K1 Hi) as [x [Hx _]]|destruct (K2 Hd) as [x [Hx _]]];
      unfold dict_mem; rewrite Hx; reflexivity.
Qed.

Lemma collectCompileTimeRequirements_merged_witness :
  collectCompileTimeRequirements sample_registry "VP_SAMPLE_presentation" "1.2.0"
    (sample_merged (sample_profile_data "1.2.0" ["presentation"]) sample_caps)
  = Ok ["VK_VERSION_1_2"; "VK_KHR_surface"; "VK_KHR_swapchain"].
Proof.
  rewrite (collectCompileTimeRequirements_merged sample_registry
             "VP_SAMPLE_presentation" "1.2.0"
             (sample_profile_data "1.2.0" ["presentation"]) sample_caps
             (sample_merged (sample_profile_data "1.2.0" ["presentation"]) sample_caps)
             ltac:(vm_compute; reflexivity)).
  reflexivity.
Defined.

(** ** The emitter: the extension arrays of a profile *)

Lemma for_each_flag {A G : Type} (body : G * bool -> A -> outcome (G * bool))
    (good hit : A -> bool) :
  (forall g f x, good x = true -> exists g', body (g, f) x = Ok (g', f || hit x)) ->
  forall xs g f,
    (forall x, In x xs -> good x = true) ->
    exists g', for_each body xs (g, f) = Ok (g', f || existsb hit xs).
Proof.
  intros Hbody. induction xs as [|x xs IH]; intros g f Hgood.
  - exists g. simpl. rewrite orb_false_r. reflexivity.
  - destruct (Hbody g f x (Hgood x (or_introl eq_refl))) as [g1 Hx].
    destruct (IH g1 (f || hit x) (fun y Hy => Hgood y (or_intror Hy))) as [g' Hrest].
    exists g'. cbn [for_each existsb]. rewrite Hx. cbn [bind].
    rewrite Hrest, orb_assoc. reflexivity.
Qed.

Lemma append_not_empty (a b : string) : b <> "" -> a +:+ b <> "".
Proof.
  intros Hb. destruct a as [|c a]; [exact Hb|].
  change (String c a +:+ b) with (String c (a +:+ b)). discriminate.
Qed.

Lemma dict_get_In_item {V : Type} (k : string) (v : V) (d : dict V) :
  dict_get k d = Some v -> In (k, v) d.
Proof.
  induction d as [|[k0 v0] d IH]; simpl; [discriminate|].
  destruct (String.eqb_spec k k0) as [->|_]; [intros [= ->]; auto|auto].
Qed.

Lemma In_item_mem {V : Type} (k : string) (v : V) (d : dict V) :
  In (k, v) d -> dict_mem k d = true.
Proof.
  intros H. apply dict_mem_keys. unfold dict_keys.
  apply (in_map fst) in H. exact H.
Qed.

Lemma extension_has_type_kind (registry : VulkanRegistry) (type extName : string) :
  extension_has_type registry type extName = true
  <-> extension_kind registry extName type.
Proof.
  unfold extension_has_type, extension_kind. split.
  - destruct (dict_get extName (extensions registry)) as [extInfo|]; [|discriminate].
    intros H. exists extInfo. split; [reflexivity|]. apply opt_is_true. exact H.
  - intros [extInfo [-> H]]. apply opt_is_true. exact H.
Qed.

(** The extension array of one kind, for capabilities whose extensions the
    registry records. *)
Lemma gen_extensionData_classified (registry : VulkanRegistry) (type : string)
    (p : VulkanProfile) :
  extensions_classified registry (profile_capabilities p) ->
  exists s,
    gen_extensionData registry type p = Ok s
    /\ (s = ""
        <-> forall extName,
            dict_mem extName (caps_extensions (profile_capabilities p)) = true ->
            extension_has_type registry type extName = false).
Proof.
  intros Hcl. unfold gen_extensionData.
  match goal with
  | |- context [for_each ?body ?items ?init] =>
      assert (Hloop :
                exists g,
                  for_each body items init
                  = Ok (g, false
                           || existsb
                                (fun item =>
                                   extension_has_type registry type (fst item))
                                items));
        [apply (for_each_flag body
                  (fun item => dict_mem (fst item) (extensions registry))
                  (fun item => extension_has_type registry type (fst item)))|]
  end.
  - intros g f [extName specVer] Hgood. cbn [fst] in *.
    unfold extension_has_type, dict_item, dict_mem in *.
    destruct (dict_get extName (extensions registry)) as [extInfo|];
      [|discriminate].
    cbn [bind]. destruct (opt_is (extension_type extInfo) type).
    + eexists. rewrite orb_true_r. reflexivity.
    + eexists. rewrite orb_false_r. reflexivity.
  - intros [extName specVer] Hin. cbn [fst].
    apply In_item_mem in Hin. destruct (Hcl extName) as [K1 [K2 K3]].
    destruct (K3 Hin) as [Hi|Hd];
      [destruct (K1 Hi) as [x [Hx _]]|destruct (K2 Hd) as [x [Hx _]]];
      unfold dict_mem; rewrite Hx; reflexivity.
  - destruct Hloop as [g Hrun].
    rewrite Hrun. cbn [bind fst snd orb].
    eexists. split; [reflexivity|].
    destruct (existsb _ _) eqn:Hex.
    + split.
      * intros Hs. exfalso. revert Hs. apply append_not_empty. discriminate.
      * intros Hnone. apply existsb_exists in Hex as [[extName specVer] [Hin Hhit]].
        cbn [fst] in Hhit. rewrite (Hnone extName (In_item_mem _ _ _ Hin)) in Hhit.
        discriminate.
    + split; [|reflexivity].
      intros _ extName Hmem. unfold dict_mem in Hmem.
      destruct (dict_get extName (caps_extensions (profile_capabilities p)))
        as [specVer|] eqn:Hget; [|discriminate].
      apply dict_get_In_item in Hget.
      destruct (extension_has_type registry type extName) eqn:Hhit; [|reflexivity].
      assert (Hex' : existsb
                       (fun item => extension_has_type registry type (fst item))
                       (caps_extensions (profile_capabilities p)) = true)
        by (apply existsb_exists; exists (extName, specVer); auto).
      congruence.
Qed.

(** X18. For a resolved profile, the extension array of a kind is emitted
    without a [KeyError], and the text is empty exactly when no extension
    of the merged set has that kind in the registry. *)
Theorem gen_extensionData_resolved :
  forall (registry : VulkanRegistry) (type name : string) (data : ProfileData)
         (caps : dict CapabilityData) (p : VulkanProfile),
    VulkanProfile_init registry name data caps = Ok p ->
    exists s,
      gen_extensionData registry type p = Ok s
      /\ (s = ""
          <-> forall extName,
              dict_mem extName (caps_extensions (profile_capabilities p)) = true ->
              ~ extension_kind registry extName type).
Proof.
  intros registry type name data caps p Hinit.
  apply profile_capabilities_init in Hinit as [Hcaps _].
  apply capabilities_classified in Hcaps.
  destruct (gen_extensionData_classified registry type p Hcaps) as [s [Hs Hiff]].
  exists s. split; [exact Hs|]. rewrite Hiff. split.
  - intros H extName Hmem Hkind. apply extension_has_type_kind in Hkind.
    rewrite (H extName Hmem) in Hkind. discriminate.
  - intros H extName Hmem.
    destruct (extension_has_type registry type extName) eqn:Hhit; [|reflexivity].
    exfalso. apply (H extName Hmem). apply extension_has_type_kind. exact Hhit.
Qed.






Lemma gen_extensionData_resolved_witness :
  exists p s,
    VulkanProfile_init sample_registry "VP_SAMPLE_presentation"
      (sample_profile_data "1.2.0" ["presentation"]) sample_caps = Ok p
    /\ gen_extensionData sample_registry "instance" p = Ok s
    /\ (s = ""
        <-> forall extName,
            dict_mem extName (caps_extensions (profile_capabilities p)) = true ->
            ~ extension_kind sample_registry extName "instance").
Proof.
  destruct (VulkanProfile_init sample_registry "VP_SAMPLE_presentation"
              (sample_profile_data "1.2.0" ["presentation"]) sample_caps)
    as [p| |] eqn:Hp; [|vm_compute in Hp; discriminate..].
  destruct (gen_extensionData_resolved sample_registry "instance"
              "VP_SAMPLE_presentation"
              (sample_profile_data "1.2.0" ["presentation"]) sample_caps p Hp)
    as [s Hs].
  exists p, s. split; [reflexivity|exact Hs].
Defined.


(** ** The resolver: a capability block that is missing *)

(** X20. When a profile entry names a capability block that the file does
    not have, and the blocks named before it merge, the resolution ends at
    that name: with the fatal message when the profile entry has a [name]
    key, and with a [KeyError] from the message itself when it has none, as
    in the file format. *)
Theorem missing_capability :
  forall (registry : VulkanRegistry) (data : ProfileData)
         (caps : dict CapabilityData) (before after : list string)
         (capName : string) (merged : VulkanProfileCapabilities),
    data_capabilities data = before ++ capName :: after ->
    dict_get capName caps = None ->
    VulkanProfileCapabilities_init registry (with_capabilities data before) caps
    = Ok merged ->
    VulkanProfileCapabilities_init registry data caps
    = match data_name data with
      | Some n =>
          Fatal ("Capability '" +:+ capName +:+ "' needed by profile '"
                 +:+ n +:+ "' is missing")
      | None => Raised KeyError
      end.
Proof.
  intros registry data caps before after capName merged Hsplit Hnone.
  unfold VulkanProfileCapabilities_init.
  cbn [data_capabilities data_name with_capabilities].
  intros Hbefore. rewrite Hsplit, for_each_app, Hbefore. cbn [bind for_each].
  rewrite Hnone. destruct (data_name data); reflexivity.
Qed.

Lemma missing_capability_witness :
  VulkanProfileCapabilities_init sample_registry
    (sample_profile_data "1.2.0" ["baseline"; "absent"; "tessellation"]) sample_caps
  = Raised KeyError.
Proof.
  exact (missing_capability sample_registry
           (sample_profile_data "1.2.0" ["baseline"; "absent"; "tessellation"])
           sample_caps ["baseline"] ["tessellation"] "absent"
           (sample_merged (sample_profile_data "1.2.0" ["baseline"]) sample_caps)
           eq_refl eq_refl ltac:(vm_compute; reflexivity)).
Defined.

(** ** The emitter: assignments and comparisons *)

Lemma compare_items_app
    (recur : VulkanStruct -> string -> string -> json -> outcome string)
    (registry : VulkanRegistry) (fmt : format1) (structDef : VulkanStruct)
    (deviceVar profileVar : string) (a b : list (string * json)) :
  compare_items recur registry fmt structDef deviceVar profileVar (a ++ b)
  = do x <- compare_items recur registry fmt structDef deviceVar profileVar a;
    do y <- compare_items recur registry fmt structDef deviceVar profileVar b;
    Ok (x +:+ y).
Proof.
  induction a as [|[member value] a IH].
  - simpl. destruct (compare_items recur registry fmt structDef deviceVar profileVar b);
      reflexivity.
  - change (((member, value) :: a) ++ b) with ((member, value) :: (a ++ b)).
    cbn [compare_items]. rewrite IH.
    match goal with
    | |- bind ?c _ = _ => destruct c as [gen| |]; cbn [bind]; try reflexivity
    end.
    destruct (compare_items recur registry fmt structDef deviceVar profileVar a)
      as [x| |]; cbn [bind]; try reflexivity.
    destruct (compare_items recur registry fmt structDef deviceVar profileVar b)
      as [y| |]; cbn [bind]; try reflexivity.
    rewrite append_assoc. reflexivity.
Qed.

Lemma assign_items_app (py_str : json -> string)
    (recur : VulkanStruct -> string -> json -> outcome string)
    (registry : VulkanRegistry) (structDef : VulkanStruct) (var : string)
    (a b : list (string * json)) :
  assign_items py_str recur registry structDef var (a ++ b)
  = do x <- assign_items py_str recur registry structDef var a;
    do y <- assign_items py_str recur registry structDef var b;
    Ok (x +:+ y).
Proof.
  induction a as [|[member value] a IH].
  - simpl. destruct (assign_items py_str recur registry structDef var b);
      reflexivity.
  - change (((member, value) :: a) ++ b) with ((member, value) :: (a ++ b)).
    cbn [assign_items]. rewrite IH.
    match goal with
    | |- bind ?c _ = _ => destruct c as [gen| |]; cbn [bind]; try reflexivity
    end.
    destruct (assign_items py_str recur registry structDef var a)
      as [x| |]; cbn [bind]; try reflexivity.
    destruct (assign_items py_str recur registry structDef var b)
      as [y| |]; cbn [bind]; try reflexivity.
    rewrite append_assoc. reflexivity.
Qed.

(** X21. The text for a value tree is the text for its first members
    followed by the text for the others, in the assignments and in the
    comparisons alike, and an error in the first members is the error of
    the whole. *)
Theorem gen_structVar_concatenates :
  forall (py_str : json -> string) (registry : VulkanRegistry) (fmt : format1)
         (structDef : VulkanStruct) (var deviceVar profileVar : string)
         (a b : list (string * json)),
    gen_assignStructVar py_str registry structDef var (JDict (a ++ b))
    = (do x <- gen_assignStructVar py_str registry structDef var (JDict a);
       do y <- gen_assignStructVar py_str registry structDef var (JDict b);
       Ok (x +:+ y))
    /\ gen_compareStructVar registry fmt structDef deviceVar profileVar
         (JDict (a ++ b))
       = (do x <- gen_compareStructVar registry fmt structDef deviceVar profileVar
                    (JDict a);
          do y <- gen_compareStructVar registry fmt structDef deviceVar profileVar
                    (JDict b);
          Ok (x +:+ y)).
Proof.
  intros. split.
  - apply assign_items_app.
  - apply compare_items_app.
Qed.

(** X22. An empty list as the value of a member that is not an array ends
    the assignments with an [IndexError], after members that were assigned;
    the comparison of the same member is emitted when its limittype has a
    predicate of its own. *)
Theorem gen_assignStructVar_empty_list :
  forall (py_str : json -> string) (registry : VulkanRegistry) (fmt : format1)
         (structDef : VulkanStruct) (var deviceVar profileVar : string)
         (before after : list (string * json)) (member : string)
         (memberInfo : VulkanStructMember) (assigned : string),
    dict_get member (members_of registry structDef) = Some memberInfo ->
    member_isArray memberInfo = false ->
    gen_assignStructVar py_str registry structDef var (JDict before) = Ok assigned ->
    gen_assignStructVar py_str registry structDef var
      (JDict (before ++ (member, JList []) :: after))
    = Raised IndexError
    /\ (forall p,
           select_comparePredFmt (member_limittype memberInfo) member
             (struct_name structDef) = Ok (fmt_str p) ->
           gen_compareStructVar registry fmt structDef deviceVar profileVar
             (JDict [(member, JList [])])
           = Ok (format fmt
                   (format_predicate p (deviceVar +:+ member)
                      (profileVar +:+ member)))).
Proof.
  intros py_str registry fmt structDef var deviceVar profileVar before after
    member memberInfo assigned Hmember Harray Hbefore.
  split.
  - change (gen_assignStructVar py_str registry structDef var
              (JDict (before ++ (member, JList []) :: after)))
      with (assign_items py_str (gen_assignStructVar py_str registry) registry
              structDef var (before ++ (member, JList []) :: after)).
    rewrite assign_items_app.
    change (assign_items py_str (gen_assignStructVar py_str registry) registry
              structDef var before)
      with (gen_assignStructVar py_str registry structDef var (JDict before)).
    rewrite Hbefore. cbn [bind assign_items]. rewrite Hmember, Harray.
    reflexivity.
  - intros p Hsel.
    cbn [gen_compareStructVar compare_items]. rewrite Hmember, Harray.
    destruct (opt_is (member_limittype memberInfo) "IGNORE") eqn:Hignore.
    + apply opt_is_true in Hignore. rewrite Hignore in Hsel.
      vm_compute in Hsel. discriminate.
    + rewrite Hsel. cbn [bind comparePredFmt_format]. rewrite append_nil_r.
      reflexivity.
Qed.

Lemma gen_assignStructVar_empty_list_witness :
  gen_assignStructVar sample_str assign_registry assign_struct "s."
    (JDict ([("count", JInt 4)] ++ [("flags", JList []); ("sizes", JList [JInt 1])]))
  = Raised IndexError
  /\ (forall p,
         select_comparePredFmt (Some "bitmask") "flags" "VkSample" = Ok (fmt_str p) ->
         gen_compareStructVar assign_registry synthetic_fmt assign_struct "d." "p."
           (JDict [("flags", JList [])])
         = Ok (format synthetic_fmt (format_predicate p "d.flags" "p.flags"))).
Proof.
  exact (gen_assignStructVar_empty_list sample_str assign_registry synthetic_fmt
           assign_struct "s." "d." "p." [("count", JInt 4)]
           [("sizes", JList [JInt 1])] "flags"
           {| member_name := "flags"; member_type := "VkSampleFlags";
              member_limittype := Some "bitmask"; member_isArray := false |}
           ("s.count = 4;" +:+ nl) eq_refl eq_refl eq_refl).
Defined.

(** X23. A key of the value tree that is not a member of the structure is
    fatal with the same message in the assignments and in the comparisons,
    at the first such key. *)
Theorem unknown_member_is_fatal :
  forall (py_str : json -> string) (registry : VulkanRegistry) (fmt : format1)
         (structDef : VulkanStruct) (var deviceVar profileVar : string)
         (before after : list (string * json)) (member : string) (value : json),
    dict_get member (members_of registry structDef) = None ->
    (is_ok (gen_assignStructVar py_str registry structDef var (JDict before)) = true ->
     gen_assignStructVar py_str registry structDef var
       (JDict (before ++ (member, value) :: after))
     = Fatal (no_member_msg member (struct_name structDef)))
    /\ (is_ok (gen_compareStructVar registry fmt structDef deviceVar profileVar
                 (JDict before)) = true ->
        gen_compareStructVar registry fmt structDef deviceVar profileVar
          (JDict (before ++ (member, value) :: after))
        = Fatal (no_member_msg member (struct_name structDef))).
Proof.
  intros py_str registry fmt structDef var deviceVar profileVar before after
    member value Hmember.
  split; intros Hbefore.
  - change (gen_assignStructVar py_str registry structDef var
              (JDict (before ++ (member, value) :: after)))
      with (assign_items py_str (gen_assignStructVar py_str registry) registry
              structDef var (before ++ (member, value) :: after)).
    rewrite assign_items_app.
    change (assign_items py_str (gen_assignStructVar py_str registry) registry
              structDef var before)
      with (gen_assignStructVar py_str registry structDef var (JDict before)).
    destruct (gen_assignStructVar py_str registry structDef var (JDict before));
      try discriminate.
    cbn [bind assign_items]. rewrite Hmember. reflexivity.
  - change (gen_compareStructVar registry fmt structDef deviceVar profileVar
              (JDict (before ++ (member, value) :: after)))
      with (compare_items (gen_compareStructVar registry fmt) registry fmt
              structDef deviceVar profileVar (before ++ (member, value) :: after)).
    rewrite compare_items_app.
    change (compare_items (gen_compareStructVar registry fmt) registry fmt
              structDef deviceVar profileVar before)
      with (gen_compareStructVar registry fmt structDef deviceVar profileVar
              (JDict before)).
    destruct (gen_compareStructVar registry fmt structDef deviceVar profileVar
                (JDict before)); try discriminate.
    cbn [bind compare_items]. rewrite Hmember. reflexivity.
Qed.

Lemma unknown_member_is_fatal_witness :
  gen_assignStructVar sample_str assign_registry assign_struct "s."
    (JDict ([("count", JInt 4)] ++ [("depth", JInt 1)]))
  = Fatal (no_member_msg "depth" "VkSample")
  /\ gen_compareStructVar assign_registry synthetic_fmt assign_struct "d." "p."
       (JDict ([("count", JInt 4)] ++ [("depth", JInt 1)]))
     = Fatal (no_member_msg "depth" "VkSample").
Proof.
  destruct (unknown_member_is_fatal sample_str assign_registry synthetic_fmt
              assign_struct "s." "d." "p." [("count", JInt 4)] [] "depth" (JInt 1)
              eq_refl) as [Hassign Hcompare].
  split; [exact (Hassign eq_refl)|exact (Hcompare eq_refl)].
Defined.

(** ** The emitter: the structure lists *)

Lemma for_each_ok_iff {A S : Type} (body : S -> A -> outcome S) (good : A -> Prop) :
  (forall st x, is_ok (body st x) = true <-> good x) ->
  forall xs st,
    is_ok (for_each body xs st) = true <-> forall x, In x xs -> good x.
Proof.
  intros Hbody. induction xs as [|x xs IH]; intros st.
  - simpl. split; [intros _ x []|reflexivity].
  - cbn [for_each]. specialize (Hbody st x).
    destruct (body st x) as [st1| |]; cbn [bind].
    + rewrite IH. split.
      * intros H y [<-|Hy]; [apply Hbody; reflexivity|exact (H y Hy)].
      * intros H y Hy. apply H. right. exact Hy.
    + split; [discriminate|]. intros H.
      apply Hbody. apply H. left. reflexivity.
    + split; [discriminate|]. intros H.
      apply Hbody. apply H. left. reflexivity.
Qed.

Lemma existsb_eqb_In (w : string) (l : list string) :
  existsb (String.eqb w) l = true <-> In w l.
Proof.
  rewrite existsb_exists. split.
  - intros [x [Hx He]]. apply String.eqb_eq in He. subst. exact Hx.
  - intros H. exists w. split; [exact H|apply String.eqb_refl].
Qed.

Lemma gen_featureStruct_ok (registry : VulkanRegistry) (gen name : string) :
  (is_ok (gen_featureStruct registry gen name) = true
   <-> listable registry "VkPhysicalDeviceFeatures" "VkPhysicalDeviceFeatures2" name)
  /\ forall e, gen_featureStruct registry gen name <> Raised e.
Proof.
  unfold gen_featureStruct, listable. cbv zeta.
  destruct (dict_get _ (structs registry)) as [structDef|] eqn:Hget.
  2:{ split; [|discriminate].
      split; [discriminate|]. intros [sd [st [H _]]]. discriminate. }
  destruct (struct_sType structDef) as [sType|] eqn:Hs.
  2:{ split; [|discriminate].
      split; [discriminate|]. intros [sd [st [[= <-] [H _]]]]. congruence. }
  destruct (existsb (String.eqb "VkPhysicalDeviceFeatures2")
              (struct_extends structDef ++ [struct_name structDef])) eqn:Hex;
    cbn [negb]; (split; [|discriminate]).
  - split; [|reflexivity]. intros _. exists structDef, sType.
    split; [reflexivity|]. split; [exact Hs|].
    apply existsb_eqb_In, in_app_iff in Hex as [H|[H|[]]]; auto.
  - split; [discriminate|]. intros [sd [st [[= <-] [_ H]]]].
    assert (Hin : existsb (String.eqb "VkPhysicalDeviceFeatures2")
                    (struct_extends structDef ++ [struct_name structDef]) = true).
    { apply existsb_eqb_In, in_app_iff. destruct H as [H|H]; [|auto].
      right. left. exact H. }
    congruence.
Qed.

Lemma gen_propertyStruct_ok (registry : VulkanRegistry) (gen name : string) :
  (is_ok (gen_propertyStruct registry gen name) = true
   <-> listable registry "VkPhysicalDeviceProperties" "VkPhysicalDeviceProperties2"
         name)
  /\ forall e, gen_propertyStruct registry gen name <> Raised e.
Proof.
  unfold gen_propertyStruct, listable. cbv zeta.
  destruct (dict_get _ (structs registry)) as [structDef|] eqn:Hget.
  2:{ split; [|discriminate].
      split; [discriminate|]. intros [sd [st [H _]]]. discriminate. }
  destruct (struct_sType structDef) as [sType|] eqn:Hs.
  2:{ split; [|discriminate].
      split; [discriminate|]. intros [sd [st [[= <-] [H _]]]]. congruence. }
  destruct (existsb (String.eqb "VkPhysicalDeviceProperties2")
              ([struct_name structDef] ++ struct_extends structDef)) eqn:Hex;
    cbn [negb]; (split; [|discriminate]).
  - split; [|reflexivity]. intros _. exists structDef, sType.
    split; [reflexivity|]. split; [exact Hs|].
    apply existsb_eqb_In, in_app_iff in Hex as [[H|[]]|H]; auto.
  - split; [discriminate|]. intros [sd [st [[= <-] [_ H]]]].
    assert (Hin : existsb (String.eqb "VkPhysicalDeviceProperties2")
                    ([struct_name structDef] ++ struct_extends structDef) = true).
    { apply existsb_eqb_In, in_app_iff. destruct H as [H|H]; [|auto].
      left. left. exact H. }
    congruence.
Qed.

Lemma for_each_never_raises {A S : Type} (body : S -> A -> outcome S) :
  (forall st x e, body st x <> Raised e) ->
  forall xs st e, for_each body xs st <> Raised e.
Proof.
  intros Hbody. induction xs as [|x xs IH]; intros st e; [discriminate|].
  cbn [for_each]. specialize (Hbody st x).
  destruct (body st x) as [st1| |e1]; cbn [bind].
  - apply IH.
  - discriminate.
  - contradiction (Hbody e1). reflexivity.
Qed.

(** X24. The structure lists are emitted exactly when every key of the
    features of every profile is a registered structure with an [sType]
    that is [VkPhysicalDeviceFeatures2] or names it in its own
    [structextends], [VkPhysicalDeviceFeatures] being read as
    [VkPhysicalDeviceFeatures2], and likewise for the properties with
    [VkPhysicalDeviceProperties2]; the only other outcome is the fatal
    error. *)
Theorem gen_structPropLists_accepts :
  forall (upper : string -> string) (registry : VulkanRegistry)
         (profiles : dict VulkanProfile),
    (is_ok (gen_structPropLists upper registry profiles) = true
     <-> forall name profile,
         In (name, profile) profiles ->
         (forall key,
             In key (dict_keys (caps_features (profile_capabilities profile))) ->
             listable registry "VkPhysicalDeviceFeatures"
               "VkPhysicalDeviceFeatures2" key)
         /\ (forall key,
                In key (dict_keys (caps_properties (profile_capabilities profile))) ->
                listable registry "VkPhysicalDeviceProperties"
                  "VkPhysicalDeviceProperties2" key))
    /\ (forall e, gen_structPropLists upper registry profiles <> Raised e).
Proof.
  intros upper registry profiles. split.
  - unfold gen_structPropLists.
    rewrite (for_each_ok_iff _
               (fun item : string * VulkanProfile =>
                  (forall key,
                      In key (dict_keys (caps_features (profile_capabilities (snd item)))) ->
                      listable registry "VkPhysicalDeviceFeatures"
                        "VkPhysicalDeviceFeatures2" key)
                  /\ (forall key,
                         In key (dict_keys
                                   (caps_properties (profile_capabilities (snd item)))) ->
                         listable registry "VkPhysicalDeviceProperties"
                           "VkPhysicalDeviceProperties2" key))).
    + split.
      * intros H name profile Hin. exact (H (name, profile) Hin).
      * intros H [name profile] Hin. exact (H name profile Hin).
    + intros gen [name profile]. cbn [snd].
      rewrite <- (for_each_ok_iff (gen_featureStruct registry) _
                    (fun g k => proj1 (gen_featureStruct_ok registry g k))
                    (dict_keys (caps_features (profile_capabilities profile)))
                    (gen +:+ nl +:+ "#ifdef " +:+ name +:+ nl
                         +:+ "static const VpStructureProperties _" +:+ upper name
                         +:+ "_STRUCTURE_PROPERTIES[] = {" +:+ nl)).
      destruct (for_each (gen_featureStruct registry) _ _) as [gen1| |];
        cbn [bind is_ok]; [|split; [discriminate|intros [H _]; exact H]..].
      rewrite <- (for_each_ok_iff (gen_propertyStruct registry) _
                    (fun g k => proj1 (gen_propertyStruct_ok registry g k))
                    (dict_keys (caps_properties (profile_capabilities profile)))
                    gen1).
      destruct (for_each (gen_propertyStruct registry) _ _) as [gen2| |];
        cbn [bind is_ok]; tauto.
  - unfold gen_structPropLists. apply for_each_never_raises.
    intros gen [name profile] e.
    match goal with
    | |- bind (for_each ?f ?keys ?g0) _ <> _ =>
        pose proof (for_each_never_raises f
                      (fun g k => proj2 (gen_featureStruct_ok registry g k))
                      keys g0) as Hf;
        destruct (for_each f keys g0) as [gen1| |e1]; cbn [bind];
        [|discriminate|contradiction (Hf e1); reflexivity]
    end.
    match goal with
    | |- bind (for_each ?f ?keys ?g0) _ <> _ =>
        pose proof (for_each_never_raises f
                      (fun g k => proj2 (gen_propertyStruct_ok registry g k))
                      keys g0) as Hp;
        destruct (for_each f keys g0) as [gen2| |e2]; cbn [bind];
        [discriminate|discriminate|contradiction (Hp e2); reflexivity]
    end.
Qed.

(** ** The directory loader: what a load holds *)

Lemma register_definition_inv (registry : VulkanRegistry)
    (profiles profiles' : dict VulkanProfile)
    (definition : string * ProfileData * dict CapabilityData) :
  register_definition registry profiles definition = Ok profiles' ->
  exists p,
    VulkanProfile_init registry (fst (fst definition)) (snd (fst definition))
      (snd definition) = Ok p
    /\ profile_name p = fst (fst definition)
    /\ profiles' = dict_set (fst (fst definition)) p profiles.
Proof.
  unfold register_definition.
  destruct (VulkanProfile_init registry _ _ _) as [p| |] eqn:Hp; cbn [bind];
    try discriminate.
  intros [= <-]. exists p. split; [reflexivity|]. split; [|reflexivity].
  revert Hp. unfold VulkanProfile_init.
  destruct (VulkanProfileCapabilities_init registry _ _) as [c| |]; cbn [bind];
    try discriminate.
  destruct (collectCompileTimeRequirements registry _ _ c) as [r| |]; cbn [bind];
    try discriminate.
  destruct (validate registry _ _ c) as [[]| |]; cbn [bind]; try discriminate.
  intros [= <-]. reflexivity.
Qed.

(** X25. A load that succeeds has resolved every profile entry of every
    loaded file; its keys are exactly the names that these files define,
    and every profile in it is stored under its own name and is the
    resolution of an entry of that name with the capability blocks of the
    file of that entry. *)
Theorem loadFromDir_holds_resolutions :
  forall (registry : VulkanRegistry) (entries : list DirEntry)
         (profiles : dict VulkanProfile),
    loadFromDir registry entries = Ok profiles ->
    (forall name data caps,
        In (name, data, caps) (profile_definitions entries) ->
        is_ok (VulkanProfile_init registry name data caps) = true)
    /\ (forall name,
           dict_mem name profiles = true
           <-> In name (map (fun d => fst (fst d)) (profile_definitions entries)))
    /\ (forall name p,
           dict_get name profiles = Some p ->
           profile_name p = name
           /\ exists data caps,
               In (name, data, caps) (profile_definitions entries)
               /\ VulkanProfile_init registry name data caps = Ok p).
Proof.
  intros registry entries profiles. rewrite loadFromDir_definitions.
  intros Hrun. split; [|split].
  - intros name data caps Hin.
    apply (for_each_ok_each (register_definition registry)
             (fun d => is_ok (VulkanProfile_init registry (fst (fst d))
                                (snd (fst d)) (snd d)) = true)
             (profile_definitions entries)) with (x := (name, data, caps))
      in Hrun; [exact Hrun| |exact Hin].
    intros st d st' Hstep.
    destruct (register_definition_inv _ _ _ _ Hstep) as [p [-> _]]. reflexivity.
  - intros name.
    rewrite (for_each_keys (register_definition registry) (fun d => d)
               (fun d => fst (fst d)) (fun _ => true)
               (fun st d st' Hstep =>
                  match register_definition_inv _ _ _ _ Hstep with
                  | ex_intro _ p (conj _ (conj _ H)) => ex_intro _ p H
                  end)
               _ _ _ Hrun name).
    rewrite in_map_iff. split.
    + intros [H|[d [Hd [_ Hk]]]]; [discriminate|]. exists d. auto.
    + intros [d [Hk Hd]]. right. exists d. auto.
  - revert Hrun.
    apply (for_each_invariant_In (register_definition registry)
             (fun st : dict VulkanProfile =>
                forall name p,
                  dict_get name st = Some p ->
                  profile_name p = name
                  /\ exists data caps,
                      In (name, data, caps) (profile_definitions entries)
                      /\ VulkanProfile_init registry name data caps = Ok p));
      [|discriminate].
    intros st [[n d] c] st' Hin Hst Hstep name p.
    destruct (register_definition_inv _ _ _ _ Hstep) as [p0 [Hp0 [Hname ->]]].
    cbn [fst snd] in *. rewrite dict_get_set.
    destruct (String.eqb_spec name n) as [->|_]; [|apply Hst].
    intros [= <-]. split; [exact Hname|]. exists d, c. auto.
Qed.

Lemma loadFromDir_holds_resolutions_witness :
  exists profiles,
    loadFromDir sample_registry duplicate_entries = Ok profiles
    /\ (dict_mem "VP_SAMPLE_baseline" profiles = true
        <-> In "VP_SAMPLE_baseline"
              (map (fun d => fst (fst d)) (profile_definitions duplicate_entries))).
Proof.
  destruct (loadFromDir sample_registry duplicate_entries) as [profiles| |] eqn:Hload;
    [|vm_compute in Hload; discriminate..].
  exists profiles. split; [reflexivity|].
  exact (proj1 (proj2 (loadFromDir_holds_resolutions sample_registry
                         duplicate_entries profiles Hload))
           "VP_SAMPLE_baseline").
Defined.

(** ** The emitter: the guard of a profile definition *)

Lemma for_each_appended {A : Type} (body : list A -> A -> outcome (list A)) :
  (forall acc x acc', body acc x = Ok acc' -> acc' = acc ++ [x]) ->
  forall xs acc r, for_each body xs acc = Ok r -> r = acc ++ xs.
Proof.
  intros Hbody. induction xs as [|x xs IH]; intros acc r.
  - simpl. intros [= <-]. symmetry. apply app_nil_r.
  - cbn [for_each]. destruct (body acc x) as [acc1| |] eqn:Hx; cbn [bind];
      try discriminate.
    intros Hrest. rewrite (IH _ _ Hrest), (Hbody _ _ _ Hx), <- app_assoc.
    reflexivity.
Qed.

(** X26. The definition block of a resolved profile is always guarded: its
    requirements begin with the name of the registry version of its API
    version, followed by its extensions, so the block opens with a test of
    that version and closes with [#endif]. *)
Theorem gen_profileDef_guarded :
  forall (upper : string -> string) (registry : VulkanRegistry) (name key : string)
         (data : ProfileData) (caps : dict CapabilityData) (p : VulkanProfile),
    VulkanProfile_init registry name data caps = Ok p ->
    exists versionNumber v body,
      re_api_version (profile_apiVersion p) = Some versionNumber
      /\ dict_get versionNumber (versions registry) = Some v
      /\ profile_requirements p
         = version_name v :: dict_keys (caps_extensions (profile_capabilities p))
      /\ gen_profileDef upper key p
         = nl +:+ "#if defined(" +:+ version_name v +:+ ")" +:+ body
              +:+ "#endif" +:+ nl.
Proof.
  intros upper registry name key data caps p Hinit.
  apply profile_capabilities_init in Hinit as [_ [Hreq [_ Hapi]]].
  rewrite Hapi. revert Hreq. unfold collectCompileTimeRequirements.
  destruct (re_api_version (data_api_version data)) as [versionNumber|];
    [|discriminate].
  destruct (dict_get versionNumber (versions registry)) as [v|] eqn:Hv;
    [|discriminate].
  cbn [bind]. intros Hloop.
  apply for_each_appended in Hloop.
  2:{ intros acc e acc'. destruct (dict_mem e (extensions registry));
        [intros [= <-]; reflexivity|discriminate]. }
  cbn [app] in Hloop.
  exists versionNumber, v.
  exists (match dict_keys (caps_extensions (profile_capabilities p)) with
          | [] => nl
          | _ => " && \" +:+ nl
          end
          +:+ gen_requirements false
                (dict_keys (caps_extensions (profile_capabilities p)))
          +:+ "#define " +:+ key +:+ " 1" +:+ nl
          +:+ "#define " +:+ upper key +:+ "_NAME " +:+ quoted key +:+ nl
          +:+ "#define " +:+ upper key +:+ "_SPEC_VERSION "
          +:+ str_of_Z (profile_version p) +:+ nl
          +:+ "#define " +:+ upper key +:+ "_MIN_API_VERSION VK_MAKE_VERSION("
          +:+ replace_dot (profile_apiVersion p) +:+ ")" +:+ nl).
  split; [reflexivity|]. split; [exact Hv|]. split; [exact Hloop|].
  unfold gen_profileDef. rewrite Hloop. cbn [gen_requirements].
  rewrite !append_assoc. reflexivity.
Qed.

Lemma gen_profileDef_guarded_witness :
  exists p versionNumber v body,
    VulkanProfile_init sample_registry "VP_SAMPLE_presentation"
      (sample_profile_data "1.2.0" ["presentation"]) sample_caps = Ok p
    /\ re_api_version (profile_apiVersion p) = Some versionNumber
    /\ dict_get versionNumber (versions sample_registry) = Some v
    /\ gen_profileDef ascii_upper "VP_SAMPLE_presentation" p
       = nl +:+ "#if defined(" +:+ version_name v +:+ ")" +:+ body
            +:+ "#endif" +:+ nl.
Proof.
  destruct (VulkanProfile_init sample_registry "VP_SAMPLE_presentation"
              (sample_profile_data "1.2.0" ["presentation"]) sample_caps)
    as [p| |] eqn:Hp; [|vm_compute in Hp; discriminate..].
  destruct (gen_profileDef_guarded ascii_upper sample_registry
              "VP_SAMPLE_presentation" "VP_SAMPLE_presentation"
              (sample_profile_data "1.2.0" ["presentation"]) sample_caps p Hp)
    as [versionNumber [v [body [H1 [H2 [_ H4]]]]]].
  exists p, versionNumber, v, body. auto.
Defined.

(** ** The resolver: a block that is merged again *)

Lemma mergeProfileCapData_type (a b r : json) :
  mergeProfileCapData a b = Ok r -> type_of r = type_of a.
Proof.
  intros Hm. destruct (mergeProfileCapData_ok a b r Hm) as [? [? [? [-> [_ [-> _]]]]]].
  reflexivity.
Qed.

Lemma pytype_eqb_refl (t : pytype) : pytype_eqb t t = true.
Proof. destruct t; reflexivity. Qed.

(** The loop leaves the keys alone that are not keys of its items. *)
Lemma merge_items_untouched (merge : json -> json -> outcome json) :
  (forall a b r, merge a b = Ok r -> type_of r = type_of a) ->
  forall items d d' k,
    merge_items merge items d = Ok d' ->
    dict_mem k items = false ->
    dict_get k d' = dict_get k d.
Proof.
  intros Hmerge. induction items as [|[key val] rest IH]; intros d d' k.
  - simpl. intros [= <-] _. reflexivity.
  - intros Hrun Hk.
    destruct (merge_items_cons_inv merge key val rest d d' Hmerge Hrun)
      as [v [_ Hrest]].
    unfold dict_mem in Hk. cbn [dict_get] in Hk.
    destruct (String.eqb_spec k key) as [->|Hne]; [discriminate|].
    rewrite (IH _ _ _ Hrest Hk). apply dict_get_set_ne. exact Hne.
Qed.

Lemma merge_items_again (items : list (string * json)) :
  Forall (fun item =>
            scalar_tree (snd item) = true ->
            forall dst r, mergeProfileCapData dst (snd item) = Ok r ->
                          mergeProfileCapData r (snd item) = Ok r) items ->
  scalar_tree_items scalar_tree items = true ->
  forall d d',
    merge_items mergeProfileCapData items d = Ok d' ->
    merge_items mergeProfileCapData items d' = Ok d'.
Proof.
  induction items as [|[key val] rest IH]; intros HP Hplain d d' Hrun;
    [reflexivity|].
  inversion HP as [|? ? Hval HrestP]; subst. cbn [snd] in Hval.
  cbn [scalar_tree_items] in Hplain.
  apply andb_prop in Hplain as [Hplain Hrest_plain].
  apply andb_prop in Hplain as [Hkey Hval_plain].
  apply negb_true_iff in Hkey.
  assert (Hnext : forall w,
             merge_items mergeProfileCapData rest (dict_set key w d) = Ok d' ->
             dict_get key d' = Some w
             /\ merge_items mergeProfileCapData rest d' = Ok d').
  { intros w Hrest. split.
    - rewrite (merge_items_untouched mergeProfileCapData mergeProfileCapData_type
                 _ _ _ key Hrest Hkey).
      apply dict_get_set_eq.
    - exact (IH HrestP Hrest_plain _ _ Hrest). }
  assert (Hscalar :
            is_scalar val = true ->
            match dict_get key d with
            | Some cur =>
                if negb (pytype_eqb (type_of cur) (type_of val))
                then Log.f [conflict_msg (type_of val) (type_of cur)]
                else merge_items mergeProfileCapData rest (dict_set key val d)
            | None => merge_items mergeProfileCapData rest (dict_set key val d)
            end = Ok d' ->
            match dict_get key d' with
            | Some cur =>
                if negb (pytype_eqb (type_of cur) (type_of val))
                then Log.f [conflict_msg (type_of val) (type_of cur)]
                else merge_items mergeProfileCapData rest (dict_set key val d')
            | None => merge_items mergeProfileCapData rest (dict_set key val d')
            end = Ok d').
  { intros _ Hfirst.
    assert (Hrest : merge_items mergeProfileCapData rest (dict_set key val d) = Ok d').
    { destruct (dict_get key d) as [cur|]; [|exact Hfirst].
      destruct (negb (pytype_eqb (type_of cur) (type_of val)));
        [discriminate|exact Hfirst]. }
    destruct (Hnext val Hrest) as [Hget Hagain].
    rewrite Hget, pytype_eqb_refl. cbn [negb].
    rewrite (dict_set_same _ _ _ Hget). exact Hagain. }
  revert Hrun. cbn [merge_items].
  destruct val as [|b|z|x|s|l|items0]; try (apply Hscalar; reflexivity);
    clear Hscalar; [discriminate|].
  unfold dict_item, dict_mem. cbv zeta.
  destruct (dict_get key d) as [cur|] eqn:Hcur.
  - rewrite Hcur. cbn [bind].
    destruct (mergeProfileCapData cur (JDict items0)) as [merged| |] eqn:Hm;
      cbn [bind]; try discriminate.
    intros Hrest. destruct (Hnext merged Hrest) as [Hget Hagain].
    rewrite Hget. cbv match. rewrite Hget. cbn [bind].
    rewrite (Hval Hval_plain cur merged Hm). cbn [bind].
    rewrite (dict_set_same _ _ _ Hget). exact Hagain.
  - rewrite dict_get_set_eq. cbn [bind].
    destruct (mergeProfileCapData (JDict []) (JDict items0)) as [merged| |] eqn:Hm;
      cbn [bind]; try discriminate.
    rewrite dict_set_set.
    intros Hrest. destruct (Hnext merged Hrest) as [Hget Hagain].
    rewrite Hget. cbv match. rewrite Hget. cbn [bind].
    rewrite (Hval Hval_plain (JDict []) merged Hm).
    cbn [bind]. rewrite (dict_set_same _ _ _ Hget). exact Hagain.
Qed.

(** X27. Merging a block a second time changes nothing when the block has
    no array: the merge of a source without arrays, whose objects have
    distinct keys, into the result of its own merge succeeds and gives
    that result again. *)
Theorem mergeProfileCapData_idempotent :
  forall src dst r : json,
    scalar_tree src = true ->
    mergeProfileCapData dst src = Ok r ->
    mergeProfileCapData r src = Ok r.
Proof.
  intros src.
  apply (json_rect_nested
           (fun src => forall dst r,
                scalar_tree src = true ->
                mergeProfileCapData dst src = Ok r ->
                mergeProfileCapData r src = Ok r));
    try (intros; match goal with
                 | H : mergeProfileCapData _ _ = Ok _ |- _ =>
                     destruct (mergeProfileCapData_ok _ _ _ H)
                       as [? [? [? [_ [? _]]]]]; discriminate
                 end).
  intros items HP dst r Hplain Hrun.
  destruct (mergeProfileCapData_ok _ _ _ Hrun) as [d [items' [d' [-> [[= <-] [-> Hitems]]]]]].
  rewrite mergeProfileCapData_items.
  rewrite (merge_items_again items) with (d := d); [reflexivity| |exact Hplain|exact Hitems].
  apply Forall_forall. intros item Hin Hitem_plain dst0 r0 Hm.
  rewrite Forall_forall in HP. exact (HP item Hin dst0 r0 Hitem_plain Hm).
Qed.

Lemma mergeProfileCapData_idempotent_witness :
  mergeProfileCapData
    (JDict [("VkPhysicalDeviceFeatures",
             JDict [("geometryShader", JBool true);
                    ("tessellationShader", JBool true)])])
    (JDict [("VkPhysicalDeviceFeatures", JDict [("tessellationShader", JBool true)])])
  = Ok (JDict [("VkPhysicalDeviceFeatures",
                JDict [("geometryShader", JBool true);
                       ("tessellationShader", JBool true)])]).
Proof.
  exact (mergeProfileCapData_idempotent
           (JDict [("VkPhysicalDeviceFeatures",
                    JDict [("tessellationShader", JBool true)])])
           (JDict [("VkPhysicalDeviceFeatures",
                    JDict [("geometryShader", JBool true)])])
           (JDict [("VkPhysicalDeviceFeatures",
                    JDict [("geometryShader", JBool true);
                           ("tessellationShader", JBool true)])])
           eq_refl eq_refl).
Defined.
